(** * The sales medallion pipeline

    A shallow embedding of the three pipeline stages of the repository:

    - [Bronze]: [step01_bronze_load.py], the loader of the raw JSON documents
      with its line-based repair pass;
    - [Silver]: [silver_load_clean.py], the type-enforcing builders, the
      conformed fact table and the referential-integrity counts;
    - [Gold]: [step03_gold_load.py], the dimension tables, the calendar
      dimension and the dimensional fact table.

    The SQL statements are embedded as functions on lists of rows; the
    Python control flow (exceptions, [try]/[finally], the connection) as a
    state-and-exception monad over a [world].  What the analytical engine
    itself decides (casts of schema-inferred values, the JSON readers,
    DOUBLE arithmetic) is an interface, the class [Engine]. *)

From Stdlib Require Import ZArith NArith Ascii String Lia Floats Uint63.
From stdpp Require Import base tactics option numbers list list_numbers
  sorting strings pretty gmap.

Local Open Scope Z_scope.

(** ** Python exceptions and results of engine calls *)

Inductive exn :=
| FileNotFoundError (message : string)
| InvalidInputException (msg : string)
| ConversionException (msg : string)
| CatalogException (name : string)
| BinderException (column : string)
| ConnectionException (msg : string)
| IOException (path : string).

Inductive result (A : Type) :=
| Ok (a : A)
| Err (e : exn).
Arguments Ok {A} a.
Arguments Err {A} e.

#[global] Instance exn_eq_dec : EqDecision exn.
Proof. solve_decision. Defined.

#[global] Instance result_eq_dec {A : Type} `{EqDecision A} :
  EqDecision (result A).
Proof. solve_decision. Defined.

#[global] Instance result_ret : MRet result := λ A, Ok.
#[global] Instance result_bind : MBind result :=
  λ A B f m, match m with Ok a => f a | Err e => Err e end.
#[global] Instance result_fmap : FMap result :=
  λ A B f m, match m with Ok a => Ok (f a) | Err e => Err e end.

(** ** SQL operators on nullable values and lists of rows *)

(** [a = b] in an [ON] or [WHERE] clause: true only when both sides are
    non-NULL and equal; NULL compared with anything is not true. *)
Definition sql_eq `{EqDecision A} (a b : option A) : bool :=
  match a, b with
  | Some x, Some y => bool_decide (x = y)
  | _, _ => false
  end.

(** [l LEFT JOIN r ON on]: every left row is kept; it is paired with each
    matching right row, or with NULLs ([None]) when none matches. *)
Definition join_group {A B : Type} (on : A → B → bool) (a : A) (r : list B)
  : list (A * option B) :=
  match filter (λ b, on a b) r with
  | [] => [(a, None)]
  | ms => (λ b, (a, Some b)) <$> ms
  end.

Definition left_join {A B : Type} (on : A → B → bool) (l : list A) (r : list B)
  : list (A * option B) :=
  a ← l; join_group on a r.

(** [MIN] and [MAX] skip NULLs and are NULL on no input. *)
Definition sql_min (l : list (option Z)) : option Z :=
  foldr (λ x acc, match x, acc with
                  | Some a, Some b => Some (Z.min a b)
                  | Some a, None => Some a
                  | None, _ => acc
                  end) None l.

Definition sql_max (l : list (option Z)) : option Z :=
  foldr (λ x acc, match x, acc with
                  | Some a, Some b => Some (Z.max a b)
                  | Some a, None => Some a
                  | None, _ => acc
                  end) None l.

(** What a left join pairs a left row with: one of the right rows that
    match it, or NULLs when no right row matches. *)
Definition matched {A B : Type} (on : A → B → bool) (a : A) (r : list B)
  (ob : option B) : Prop :=
  match ob with
  | Some b => b ∈ r ∧ on a b
  | None => Forall (λ b, ¬ on a b) r
  end.

(** A key column is unique on a table when no two rows share a non-NULL
    key. *)
Definition unique_key {A K : Type} (key : A → option K) (t : list A) : Prop :=
  NoDup (omap key t).

(** The rows of [l] that refer to no row of [r]: their foreign key is NULL,
    or it is the key of no row of [r]. *)
Definition dangling {A B K : Type} `{EqDecision K} (fk : A → option K)
  (pk : B → option K) (l : list A) (r : list B) : list A :=
  filter (λ a, fk a = None ∨ Forall (λ b, pk b ≠ fk a) r) l.

(** [SELECT COUNT( * )] *)
Definition sql_count {A : Type} (l : list A) : Z := Z.of_nat (length l).

(** ** The proleptic Gregorian calendar

    A DATE is the number of days since 1970-01-01.  The calendar is given
    by its successor function [next_day]; it repeats every 400 years, that
    is every [cycle_days] days. *)

Module Calendar.

Record civil := Civil { year : Z; month : Z; day : Z }.

Definition is_leap (y : Z) : bool :=
  (y mod 4 =? 0) && (negb (y mod 100 =? 0) || (y mod 400 =? 0)).

Definition days_in_month (y m : Z) : Z :=
  if m =? 2 then (if is_leap y then 29 else 28)
  else if (m =? 4) || (m =? 6) || (m =? 9) || (m =? 11) then 30
  else 31.

Definition next_day (c : civil) : civil :=
  if day c <? days_in_month (year c) (month c)
  then Civil (year c) (month c) (day c + 1)
  else if month c <? 12
       then Civil (year c) (month c + 1) 1
       else Civil (year c + 1) 1 1.

(** 0001-01-01 and 9999-12-31 as DATE values: the four-digit years. *)
Definition first_date : Z := -719162.
Definition last_date : Z := 2932896.
Definition cycle_days : Z := 146097.

(** The days of one cycle, counted from 0001-01-01, and a date moved by
    whole cycles. *)
Definition nth_day (k : N) : civil := N.iter k next_day (Civil 1 1 1).

Definition shift (q : Z) (c : civil) : civil :=
  Civil (year c + 400 * q) (month c) (day c).

Definition civil_of_date (n : Z) : civil :=
  let k := n - first_date in
  shift (k / cycle_days) (nth_day (Z.to_N (k mod cycle_days))).

(** The usual closed form of the day number of a calendar date. *)
Definition days_before_year (y : Z) : Z :=
  365 * (y - 1) + (y - 1) / 4 - (y - 1) / 100 + (y - 1) / 400.

Definition days_before_month (y m : Z) : Z :=
  let feb := if is_leap y then 29 else 28 in
  if m <=? 1 then 0
  else if m =? 2 then 31
  else if m =? 3 then 31 + feb
  else if m =? 4 then 62 + feb
  else if m =? 5 then 92 + feb
  else if m =? 6 then 123 + feb
  else if m =? 7 then 153 + feb
  else if m =? 8 then 184 + feb
  else if m =? 9 then 215 + feb
  else if m =? 10 then 245 + feb
  else if m =? 11 then 276 + feb
  else 306 + feb.

Definition date_of_civil (c : civil) : Z :=
  first_date + days_before_year (year c)
  + days_before_month (year c) (month c) + (day c - 1).

Definition valid (c : civil) : Prop :=
  1 ≤ month c ≤ 12 ∧ 1 ≤ day c ≤ days_in_month (year c) (month c).

(** The number whose decimal digits are YYYYMMDD. *)
Definition ymd (c : civil) : Z := year c * 10000 + month c * 100 + day c.

(** [EXTRACT(DOW FROM d)]: Sunday is 0; 1970-01-01 was a Thursday. *)
Definition day_of_week (n : Z) : Z := (n + 4) mod 7.

(** [EXTRACT(WEEK FROM d)]: the ISO-8601 week, numbered in the year of the
    Thursday of the date's week. *)
Definition iso_week (n : Z) : Z :=
  let dow := day_of_week n in
  let thursday := n - (if dow =? 0 then 7 else dow) + 4 in
  let y := year (civil_of_date thursday) in
  (thursday - date_of_civil (Civil y 1 1)) / 7 + 1.

Definition month_name (m : Z) : string :=
  if m =? 1 then "January" else if m =? 2 then "February"
  else if m =? 3 then "March" else if m =? 4 then "April"
  else if m =? 5 then "May" else if m =? 6 then "June"
  else if m =? 7 then "July" else if m =? 8 then "August"
  else if m =? 9 then "September" else if m =? 10 then "October"
  else if m =? 11 then "November" else "December".

Definition day_name (dow : Z) : string :=
  if dow =? 0 then "Sunday" else if dow =? 1 then "Monday"
  else if dow =? 2 then "Tuesday" else if dow =? 3 then "Wednesday"
  else if dow =? 4 then "Thursday" else if dow =? 5 then "Friday"
  else "Saturday".

(** Decimal rendering with a fixed number of digits, as [%Y] (four digits),
    [%m] and [%d] (two digits) render the years 0001 to 9999. *)
Definition digit_char (d : Z) : ascii := ascii_of_N (48 + Z.to_N d).

Fixpoint zero_pad (width : nat) (n : Z) : string :=
  match width with
  | O => EmptyString
  | S w => String (digit_char ((n / 10 ^ Z.of_nat w) mod 10)) (zero_pad w n)
  end.

(** [STRFTIME(d, '%Y%m%d')] *)
Definition strftime_Ymd (n : Z) : string :=
  let c := civil_of_date n in
  zero_pad 4 (year c) +:+ zero_pad 2 (month c) +:+ zero_pad 2 (day c).

Definition digit_of_char (c : ascii) : option Z :=
  let n := Z.of_N (N_of_ascii c) in
  if (48 <=? n) && (n <=? 57) then Some (n - 48) else None.

Fixpoint parse_digits (acc : Z) (s : string) : option Z :=
  match s with
  | EmptyString => Some acc
  | String c s' => d ← digit_of_char c; parse_digits (acc * 10 + d) s'
  end.

(** [CAST(s AS INTEGER)] of a string of decimal digits: a conversion error
    on anything else, and when the number does not fit 32 bits. *)
Definition cast_varchar_integer (s : string) : result Z :=
  match s with
  | EmptyString => Err (ConversionException s)
  | _ => match parse_digits 0 s with
         | Some n => if n <=? 2147483647 then Ok n
                     else Err (ConversionException s)
         | None => Err (ConversionException s)
         end
  end.

End Calendar.

(** ** Text

    A Python [str] is a sequence of Unicode code points. *)

Abbreviation text := (list N) (only parsing).

Definition of_string (s : string) : text := N_of_ascii <$> list_ascii_of_string s.

Module PyStr.

(** The characters [str.strip()] removes: those for which [str.isspace]
    holds. *)
Definition is_space (c : N) : bool :=
  ((9 <=? c) && (c <=? 13) || (28 <=? c) && (c <=? 32)
   || (c =? 133) || (c =? 160) || (c =? 5760)
   || (8192 <=? c) && (c <=? 8202)
   || (c =? 8232) || (c =? 8233) || (c =? 8239) || (c =? 8287)
   || (c =? 12288))%N.

Fixpoint lstrip (s : text) : text :=
  match s with
  | [] => []
  | c :: s' => if is_space c then lstrip s' else s
  end.

Definition rstrip (s : text) : text := reverse (lstrip (reverse s)).

Definition strip (s : text) : text := rstrip (lstrip s).

(** [s.endswith(",")] and [s[:-1]] *)
Definition endswith_comma (s : text) : bool :=
  match last s with
  | Some c => (c =? 44)%N
  | None => false
  end.

Definition drop_last (s : text) : text := take (length s - 1)%nat s.

(** Reading in text mode translates ["\r\n"] and a lone ["\r"] to ["\n"]. *)
Fixpoint universal_newlines (s : text) : text :=
  match s with
  | [] => []
  | c :: s' =>
      if (c =? 13)%N then
        match s' with
        | d :: s'' => if (d =? 10)%N then 10%N :: universal_newlines s''
                      else 10%N :: universal_newlines s'
        | [] => [10%N]
        end
      else c :: universal_newlines s'
  end.

(** Iterating over a file object: the lines, each with its ["\n"] except
    possibly the last. *)
Fixpoint readlines (s : text) : list text :=
  match s with
  | [] => []
  | c :: s' =>
      if (c =? 10)%N then [c] :: readlines s'
      else match readlines s' with
           | [] => [[c]]
           | l :: ls => (c :: l) :: ls
           end
  end.

(** A line that is not blank: something is left of it when stripped. *)
Definition nonblank (line : text) : Prop := strip line ≠ [].

#[global] Instance nonblank_dec line : Decision (nonblank line).
Proof. unfold nonblank. apply _. Defined.

(** [Path.stem]: the file name without its last suffix. *)
Fixpoint rfind (c : ascii) (s : string) : option nat :=
  match s with
  | EmptyString => None
  | String a s' =>
      match rfind c s' with
      | Some i => Some (S i)
      | None => if Ascii.eqb a c then Some O else None
      end
  end.

Definition stem (name : string) : string :=
  match rfind "."%char name with
  | Some i => if bool_decide (0 < i < String.length name - 1)%nat
              then substring 0 i name else name
  | None => name
  end.

End PyStr.

(** ** The analytical engine

    A [bronze_table] is what the JSON readers produce: the inferred column
    names and, per record, the non-NULL values by column name (an absent
    key is NULL).  The engine decides how a document is read and how a
    schema-inferred value is converted to a fixed type; a conversion that
    is refused ([None]) is a Conversion Error of the whole statement. *)

Record bronze_table (V : Type) := BronzeTable {
  bt_columns : list string;
  bt_rows : list (gmap string V)
}.
Arguments BronzeTable {V} _ _.
Arguments bt_columns {V} _.
Arguments bt_rows {V} _.

Class Engine := {
  bval : Type;
  double : Type;
  dmul : double → double → double;
  to_bigint : bval → option Z;
  to_boolean : bval → option bool;
  to_varchar : bval → option string;
  to_date : bval → option Z;
  to_double : bval → option double;
  read_json_auto : text → result (bronze_table bval);
  read_ndjson_auto : text → result (bronze_table bval)
}.

Section tables.
Context `{Engine}.

(** [CAST(v AS T)]: NULL stays NULL, a value is converted or the statement
    fails. *)
Definition cast {A : Type} (conv : bval → option A) (type_name : string)
  (v : option bval) : result (option A) :=
  match v with
  | None => Ok None
  | Some x => match conv x with
              | Some y => Ok (Some y)
              | None => Err (ConversionException type_name)
              end
  end.

(** [a * b] on DOUBLE: NULL if either operand is NULL. *)
Definition sql_mul (a b : option double) : option double :=
  match a, b with
  | Some x, Some y => Some (dmul x y)
  | _, _ => None
  end.

(** A statement that names a column the table does not have fails. *)
Definition require_columns (t : bronze_table bval) (names : list string)
  : result () :=
  match filter (λ n, n ∉ bt_columns t) names with
  | [] => Ok ()
  | n :: _ => Err (BinderException n)
  end.

(** The primary identifier of a bronze row is NULL after casting. *)
Definition null_id {K : Type} (cast_id : option bval → result (option K))
  (id : string) (r : gmap string bval) : Prop :=
  cast_id (r !! id) = Ok None.

#[global] Instance null_id_dec {K : Type} `{EqDecision K}
  (cast_id : option bval → result (option K)) (id : string)
  (r : gmap string bval) : Decision (null_id cast_id id r).
Proof. unfold null_id. apply _. Defined.

(** A conformed table against its bronze table: its rows are the casts, in
    order, of the bronze rows whose identifier is not NULL after casting; so
    it has no more rows than the bronze table, the rows left out are those
    with a NULL identifier, and none is left out when the bronze table has
    no NULL identifier. *)
Definition conformed {S K : Type} `{EqDecision K} (id : string)
  (cast_id : option bval → result (option K))
  (row : gmap string bval → result S)
  (bronze : list (gmap string bval)) (silver : list S) : Prop :=
  Forall2 (λ r x, row r = Ok x)
          (filter (λ r, ¬ null_id cast_id id r) bronze) silver
  ∧ (length silver ≤ length bronze)%nat
  ∧ (length silver + length (filter (null_id cast_id id) bronze)
     = length bronze)%nat
  ∧ (Forall (λ r, r !! id ≠ None) bronze → length silver = length bronze).

(** *** Silver rows *)

Record customer := Customer {
  sc_CustomerId : option Z;
  sc_Active : option bool;
  sc_Name : option string;
  sc_Address : option string;
  sc_City : option string;
  sc_Country : option string;
  sc_Email : option string
}.

Record product := Product {
  sp_ProductId : option Z;
  sp_Name : option string;
  sp_ManufacturedCountry : option string;
  sp_WeightGrams : option double
}.

Record order := Order {
  so_OrderId : option Z;
  so_CustomerId : option Z;
  so_Date : option Z
}.

Record sale := Sale {
  ss_SaleId : option Z;
  ss_OrderId : option Z;
  ss_ProductId : option Z;
  ss_Quantity : option double
}.

Record country := Country {
  c_Country : option string;
  c_Currency : option string;
  c_Name : option string;
  c_Region : option string;
  c_Population : option Z;
  c_AreaSqMi : option Z;
  c_PopDensity : option double;
  c_CoastlineRatio : option double;
  c_NetMigration : option double;
  c_InfantMortality : option double;
  c_GDPPerCapita : option Z;
  c_LiteracyPct : option double;
  c_PhonesPer1000 : option double;
  c_ArablePct : option double;
  c_CropsPct : option double;
  c_OtherLandPct : option double;
  c_Climate : option double;
  c_Birthrate : option double;
  c_Deathrate : option double;
  c_Agriculture : option double;
  c_Industry : option double;
  c_Service : option double
}.

Record fact_sale := FactSale {
  f_SaleId : option Z;
  f_Quantity : option double;
  f_OrderId : option Z;
  f_OrderDate : option Z;
  f_CustomerId : option Z;
  f_CustomerName : option string;
  f_CustomerCountry : option string;
  f_CustomerCity : option string;
  f_ProductId : option Z;
  f_ProductName : option string;
  f_ProductCountry : option string;
  f_CountryCurrency : option string;
  f_CountryGDPPerCapita : option Z
}.

(** *** Gold rows *)

Record dim_customer := DimCustomer {
  dc_CustomerId : option Z;
  dc_CustomerName : option string;
  dc_CustomerCity : option string;
  dc_CustomerCountry : option string;
  dc_Active : option bool;
  dc_Email : option string
}.

Record dim_product := DimProduct {
  dp_ProductId : option Z;
  dp_ProductName : option string;
  dp_ProductCountry : option string;
  dp_WeightGrams : option double
}.

Record dim_country := DimCountry {
  dn_Country : option string;
  dn_Region : option string;
  dn_Currency : option string;
  dn_Population : option Z;
  dn_AreaSqMi : option Z;
  dn_PopDensity : option double;
  dn_CoastlineRatio : option double;
  dn_NetMigration : option double;
  dn_InfantMortality : option double;
  dn_GDPPerCapita : option Z;
  dn_LiteracyPct : option double;
  dn_PhonesPer1000 : option double;
  dn_ArablePct : option double;
  dn_CropsPct : option double;
  dn_OtherLandPct : option double;
  dn_Climate : option double;
  dn_Birthrate : option double;
  dn_Deathrate : option double;
  dn_Agriculture : option double;
  dn_Industry : option double;
  dn_Service : option double
}.

Record dim_date := DimDate {
  d_DateKey : Z;
  d_Date : Z;
  d_Year : Z;
  d_Quarter : Z;
  d_Month : Z;
  d_MonthName : string;
  d_YearMonth : Z;
  d_WeekOfYear : Z;
  d_DayOfWeek : Z;
  d_DayOfWeekName : string;
  d_IsWeekend : bool
}.

Record gold_fact := GoldFact {
  g_SaleId : option Z;
  g_OrderId : option Z;
  g_DateKey : option Z;
  g_CustomerId : option Z;
  g_ProductId : option Z;
  g_Country : option string;
  g_Quantity : option double;
  g_WeightGrams : option double;
  g_TotalWeightGrams : option double
}.

(** *** The catalog of one database file: tables by name *)

Inductive table :=
| BronzeT (t : bronze_table bval)
| CustomersT (l : list customer)
| ProductsT (l : list product)
| OrdersT (l : list order)
| SalesT (l : list sale)
| CountriesT (l : list country)
| FactSalesT (l : list fact_sale)
| DimCustomerT (l : list dim_customer)
| DimProductT (l : list dim_product)
| DimCountryT (l : list dim_country)
| DimDateT (l : list dim_date)
| GoldFactT (l : list gold_fact).

Definition table_count (t : table) : Z :=
  match t with
  | BronzeT t => sql_count (bt_rows t)
  | CustomersT l => sql_count l
  | ProductsT l => sql_count l
  | OrdersT l => sql_count l
  | SalesT l => sql_count l
  | CountriesT l => sql_count l
  | FactSalesT l => sql_count l
  | DimCustomerT l => sql_count l
  | DimProductT l => sql_count l
  | DimCountryT l => sql_count l
  | DimDateT l => sql_count l
  | GoldFactT l => sql_count l
  end.

(** [FROM name]: a Catalog Error when no table of that shape has the
    name. *)
Definition from_bronze (db : gmap string table) (name : string)
  : result (bronze_table bval) :=
  match db !! name with Some (BronzeT t) => Ok t | _ => Err (CatalogException name) end.
Definition from_customers (db : gmap string table) (name : string)
  : result (list customer) :=
  match db !! name with Some (CustomersT l) => Ok l | _ => Err (CatalogException name) end.
Definition from_products (db : gmap string table) (name : string)
  : result (list product) :=
  match db !! name with Some (ProductsT l) => Ok l | _ => Err (CatalogException name) end.
Definition from_orders (db : gmap string table) (name : string)
  : result (list order) :=
  match db !! name with Some (OrdersT l) => Ok l | _ => Err (CatalogException name) end.
Definition from_sales (db : gmap string table) (name : string)
  : result (list sale) :=
  match db !! name with Some (SalesT l) => Ok l | _ => Err (CatalogException name) end.
Definition from_countries (db : gmap string table) (name : string)
  : result (list country) :=
  match db !! name with Some (CountriesT l) => Ok l | _ => Err (CatalogException name) end.
Definition from_fact_sales (db : gmap string table) (name : string)
  : result (list fact_sale) :=
  match db !! name with Some (FactSalesT l) => Ok l | _ => Err (CatalogException name) end.
Definition from_dim_date (db : gmap string table) (name : string)
  : result (list dim_date) :=
  match db !! name with Some (DimDateT l) => Ok l | _ => Err (CatalogException name) end.

Definition count_rows (name : string) (db : gmap string table) : result Z :=
  match db !! name with
  | Some t => Ok (table_count t)
  | None => Err (CatalogException name)
  end.

End tables.

(** ** The world of a stage run and the monad of the Python code

    A stage runs against the files of the project, the database files and
    at most one open connection.  [history] is the observable trace of a
    run: the printed and logged lines, and one entry for each connection
    opened or closed, each load attempted and each repair written. *)

Abbreviation path := (string * string)%type (only parsing).

(** A path as it is printed. *)
Definition path_string (p : path) : string := p.1 +:+ "/" +:+ p.2.

Inductive event :=
| Printed (line : string)
| Logged (stage message : string)
| Connected (db : path)
| Closed (db : path)
| StrictLoad (file : path) (table_name : string)
| Repaired (file fixed : path)
| LineLoad (file : path) (table_name : string).

#[global] Instance event_eq_dec : EqDecision event.
Proof. solve_decision. Defined.

(** The loads and repairs of a run, in order: its history without the
    printed and logged lines and the connection events. *)
Definition is_attempt (ev : event) : bool :=
  match ev with
  | StrictLoad _ _ | Repaired _ _ | LineLoad _ _ => true
  | _ => false
  end.

Definition attempts (h : list event) : list event :=
  filter (λ ev, is_attempt ev) h.

Inductive outcome (A : Type) :=
| Returned (a : A)
| Raised (e : exn).
Arguments Returned {A} a.
Arguments Raised {A} e.

Section world.
Context `{Engine}.

Record world := World {
  files : gmap path text;
  databases : gmap path (gmap string table);
  connection : option path;
  history : list event
}.

Definition M (A : Type) : Type := world → outcome A * world.

Definition ret {A : Type} (a : A) : M A := λ w, (Returned a, w).

Definition bind {A B : Type} (m : M A) (k : A → M B) : M B :=
  λ w, match m w with
       | (Returned a, w') => k a w'
       | (Raised e, w') => (Raised e, w')
       end.

#[global] Instance M_ret : MRet M := @ret.
#[global] Instance M_bind : MBind M := λ A B k m, bind m k.

Definition raise {A : Type} (e : exn) : M A := λ w, (Raised e, w).

(** [try: body finally: final] *)
Definition try_finally {A : Type} (body : M A) (final : M ()) : M A :=
  λ w, match body w with
       | (r, w') => match final w' with
                    | (Returned _, w'') => (r, w'')
                    | (Raised e, w'') => (Raised e, w'')
                    end
       end.

(** [try: body except duckdb.InvalidInputException as e: handler e] *)
Definition try_except_invalid_input {A : Type} (body : M A)
  (handler : string → M A) : M A :=
  λ w, match body w with
       | (Raised (InvalidInputException msg), w') => handler msg w'
       | r => r
       end.

Definition emit (ev : event) : M () :=
  λ w, (Returned (), World (files w) (databases w) (connection w)
                           (history w ++ [ev])).

Definition print (line : string) : M () := emit (Printed line).

(** [for x in l: body x] *)
Fixpoint for_each {A : Type} (l : list A) (body : A → M ()) : M () :=
  match l with
  | [] => ret ()
  | x :: l' => body x;; for_each l' body
  end.

(** [duckdb.connect(path)] opens the database file, creating it when it
    does not exist. *)
Definition connect (db : path) : M path :=
  λ w, (Returned db,
        World (files w)
              (match databases w !! db with
               | Some _ => databases w
               | None => <[db := ∅]> (databases w)
               end)
              (Some db) (history w ++ [Connected db])).

(** [con.close()] *)
Definition close (con : path) : M () :=
  λ w, (Returned (),
        World (files w) (databases w)
              (if decide (connection w = Some con) then None else connection w)
              (history w ++ [Closed con])).

(** [con.execute(stmt)] for a statement that replaces tables, and for a
    query whose result is fetched. *)
Definition execute (con : path)
  (stmt : gmap string table → result (gmap string table)) : M () :=
  λ w, if decide (connection w = Some con) then
         match stmt (default ∅ (databases w !! con)) with
         | Ok db' => (Returned (),
                      World (files w) (<[con := db']> (databases w))
                            (connection w) (history w))
         | Err e => (Raised e, w)
         end
       else (Raised (ConnectionException (path_string con)), w).

Definition fetch {A : Type} (con : path)
  (query : gmap string table → result A) : M A :=
  λ w, if decide (connection w = Some con) then
         match query (default ∅ (databases w !! con)) with
         | Ok a => (Returned a, w)
         | Err e => (Raised e, w)
         end
       else (Raised (ConnectionException (path_string con)), w).

(** [Path.exists()] for a file of the project and for a database file. *)
Definition file_exists (file : path) : M bool :=
  λ w, (Returned (bool_decide (is_Some (files w !! file))), w).

Definition database_exists (db : path) : M bool :=
  λ w, (Returned (bool_decide (is_Some (databases w !! db))), w).

(** A statement that reads a file of the project. *)
Definition execute_reading (con file : path)
  (stmt : text → gmap string table → result (gmap string table)) : M () :=
  λ w, match files w !! file with
       | Some doc => execute con (stmt doc) w
       | None => (Raised (IOException (path_string file)), w)
       end.

(** A computation that neither opens nor closes a connection. *)
Definition keeps_connection {A : Type} (m : M A) : Prop :=
  ∀ w, connection (m w).2 = connection w.

(** A computation every run of which relates the world it leaves to the
    world it starts from. *)
Definition stable {A : Type} (R : world → world → Prop) (m : M A) : Prop :=
  ∀ w, R w (m w).2.

(** The table of a name in a database file: none when the file or the
    table is not there. *)
Definition table_at (w : world) (db : path) (name : string) : option table :=
  default ∅ (databases w !! db) !! name.

(** The second world differs from the first at most by the tables [names]
    of the database [con] and by the files [written]; no database file has
    been removed. *)
Definition frame (con : path) (names : list string) (written : list path)
  (w w' : world) : Prop :=
  (∀ db, db ≠ con → databases w' !! db = databases w !! db)
  ∧ (∀ name, name ∉ names → table_at w' con name = table_at w con name)
  ∧ (∀ file, file ∉ written → files w' !! file = files w !! file)
  ∧ (is_Some (databases w !! con) → is_Some (databases w' !! con)).

End world.

(** ** Line-delimited documents *)

(** A line that holds one JSON object: it runs from an opening to a closing
    brace, with no line break inside. *)
Definition object_line (line : text) : Prop :=
  head line = Some 123%N ∧ last line = Some 125%N
  ∧ Forall (λ c, c ≠ 10%N ∧ c ≠ 13%N) line.

(** The document of some lines, each ended by a newline. *)
Definition ended (line : text) : text := line ++ [10%N].

Definition ndjson (lines : list text) : text := mjoin (ended <$> lines).

(** The records of a line-delimited document: its lines that are not
    blank. *)
Definition records (doc : text) : list text :=
  filter PyStr.nonblank (PyStr.readlines (PyStr.universal_newlines doc)).

(** * [step01_bronze_load.py] *)

Module Bronze.
Section bronze.
Context `{Engine}.
Import PyStr.

Definition DB_PATH : path := ("src", "sales.duckdb").
Definition RAW_DIR : string := "data/raw".

(** [validate_json_lines]: the loop over the numbered lines.  [loads] is
    [json.loads]: [None] when the text parses, otherwise the message of the
    [JSONDecodeError].  The first line that does not parse is reported and
    ends the loop. *)
Fixpoint validate_lines (loads : text → option string) (file : path) (i : Z)
  (lines : list text) : M () :=
  match lines with
  | [] => mret ()
  | line :: rest =>
      let text := strip line in
      if bool_decide (text = []) then validate_lines loads file (i + 1) rest
      else
        let text := if endswith_comma text then drop_last text else text in
        match loads text with
        | None => validate_lines loads file (i + 1) rest
        | Some e =>
            print ("[VALIDATION] Possible malformed JSON in "
                   +:+ path_string file +:+ " at line " +:+ pretty i
                   +:+ ": " +:+ e)
        end
  end.

Definition validate_json_lines (loads : text → option string) (file : path)
  : M () :=
  λ w, match files w !! file with
       | None => (Raised (FileNotFoundError (path_string file)), w)
       | Some doc =>
           validate_lines loads file 1 (readlines (universal_newlines doc)) w
       end.

(** The body of the loop of [fix_to_ndjson]: a blank line is skipped,
    otherwise the stripped line loses one trailing comma. *)
Definition clean_line (line : text) : option text :=
  let cleaned := strip line in
  if bool_decide (cleaned = []) then None
  else Some (if endswith_comma cleaned then drop_last cleaned else cleaned).

(** What [fix_to_ndjson] writes for a file with content [doc]. *)
Definition fixed_text (doc : text) : text :=
  mjoin ((λ cleaned, cleaned ++ [10%N])
           <$> omap clean_line (readlines (universal_newlines doc))).

Definition fix_to_ndjson (file : path) : M path :=
  let fixed_path := (file.1, stem file.2 +:+ "_fixed.json") in
  λ w, match files w !! file with
       | None => (Raised (FileNotFoundError (path_string file)), w)
       | Some doc =>
           (Returned fixed_path,
            World (<[fixed_path := fixed_text doc]> (files w)) (databases w)
                  (connection w) (history w ++ [Repaired file fixed_path]))
       end.

(** [CREATE OR REPLACE TABLE table_name AS SELECT * FROM reader(?)] *)
Definition create_table_from (reader : text → result (bronze_table bval))
  (table_name : string) (doc : text) (db : gmap string table)
  : result (gmap string table) :=
  t ← reader doc; mret (<[table_name := BronzeT t]> db).

Definition load_bronze_table (con : path) (filename table_name : string)
  : M () :=
  let file_path := (RAW_DIR, filename) in
  found ← file_exists file_path ;
  if negb found then
    raise (FileNotFoundError
             ("Expected file not found: " +:+ path_string file_path))
  else
    print ("Loading " +:+ path_string file_path +:+ " -> " +:+ table_name) ;;
    try_except_invalid_input
      (emit (StrictLoad file_path table_name) ;;
       execute_reading con file_path
         (create_table_from read_json_auto table_name))
      (λ e,
         print ("[WARN] Initial JSON load failed for "
                +:+ path_string file_path) ;;
         print ("[WARN] DuckDB said: " +:+ e) ;;
         print "[INFO] Attempting to clean file into NDJSON and reload..." ;;
         fixed_path ← fix_to_ndjson file_path ;
         try_except_invalid_input
           (emit (LineLoad fixed_path table_name) ;;
            execute_reading con fixed_path
              (create_table_from read_ndjson_auto table_name) ;;
            print ("[INFO] Loaded cleaned NDJSON file "
                   +:+ path_string fixed_path +:+ " -> " +:+ table_name))
           (λ e2,
              print ("[ERROR] Even cleaned NDJSON version failed for "
                     +:+ path_string file_path) ;;
              print ("[ERROR] DuckDB reported: " +:+ e2) ;;
              raise (InvalidInputException e2))).

Definition tables_to_load : list (string * string) :=
  [("customers.json", "bronze_customers");
   ("products.json", "bronze_products");
   ("orders.json", "bronze_orders");
   ("sales.json", "bronze_sales");
   ("countries.json", "bronze_countries")].

Definition main : M () :=
  print ("Connecting to DuckDB at " +:+ path_string DB_PATH) ;;
  print ("Raw data folder: " +:+ RAW_DIR) ;;
  con ← connect DB_PATH ;
  for_each tables_to_load
    (λ '(filename, table_name), load_bronze_table con filename table_name) ;;
  close con ;;
  print "Bronze layer finished.".

End bronze.
End Bronze.

(** * [silver_load_clean.py] *)

Module Silver.
Section silver.
Context `{Engine}.

Definition DB_PATH : path := (".", "sales.duckdb").

Definition log (message : string) : M () := emit (Logged "SILVER" message).

Definition log_row_count (con : path) (table_name : string) : M () :=
  count ← fetch con (count_rows table_name) ;
  log ("Row count for " +:+ table_name +:+ ": " +:+ pretty count).

(** The [SELECT] of each builder: the rows that pass the [WHERE] clause,
    every column cast to its type. *)
Definition customer_row (r : gmap string bval) : result customer :=
  CustomerId ← cast to_bigint "BIGINT" (r !! "CustomerId") ;
  Active ← cast to_boolean "BOOLEAN" (r !! "Active") ;
  Name ← cast to_varchar "VARCHAR" (r !! "Name") ;
  Address ← cast to_varchar "VARCHAR" (r !! "Address") ;
  City ← cast to_varchar "VARCHAR" (r !! "City") ;
  Country ← cast to_varchar "VARCHAR" (r !! "Country") ;
  Email ← cast to_varchar "VARCHAR" (r !! "Email") ;
  mret (Customer CustomerId Active Name Address City Country Email).

Definition select_silver_customers (bc : bronze_table bval)
  : result (list customer) :=
  require_columns bc ["CustomerId"; "Active"; "Name"; "Address"; "City";
                      "Country"; "Email"] ;;
  mapM customer_row
       (filter (λ r, is_Some (r !! "CustomerId")) (bt_rows bc)).

Definition product_row (r : gmap string bval) : result product :=
  ProductId ← cast to_bigint "BIGINT" (r !! "ProductId") ;
  Name ← cast to_varchar "VARCHAR" (r !! "Name") ;
  ManufacturedCountry ←
    cast to_varchar "VARCHAR" (r !! "ManufacturedCountry") ;
  WeightGrams ← cast to_double "DOUBLE" (r !! "WeightGrams") ;
  mret (Product ProductId Name ManufacturedCountry WeightGrams).

Definition select_silver_products (bp : bronze_table bval)
  : result (list product) :=
  require_columns bp ["ProductId"; "Name"; "ManufacturedCountry";
                      "WeightGrams"] ;;
  mapM product_row
       (filter (λ r, is_Some (r !! "ProductId")) (bt_rows bp)).

Definition order_row (r : gmap string bval) : result order :=
  OrderId ← cast to_bigint "BIGINT" (r !! "OrderId") ;
  CustomerId ← cast to_bigint "BIGINT" (r !! "CustomerId") ;
  Date ← cast to_date "DATE" (r !! "Date") ;
  mret (Order OrderId CustomerId Date).

Definition select_silver_orders (bo : bronze_table bval)
  : result (list order) :=
  require_columns bo ["OrderId"; "CustomerId"; "Date"] ;;
  mapM order_row
       (filter (λ r, is_Some (r !! "OrderId")) (bt_rows bo)).

Definition sale_row (r : gmap string bval) : result sale :=
  SaleId ← cast to_bigint "BIGINT" (r !! "SaleId") ;
  OrderId ← cast to_bigint "BIGINT" (r !! "OrderId") ;
  ProductId ← cast to_bigint "BIGINT" (r !! "ProductId") ;
  Quantity ← cast to_double "DOUBLE" (r !! "Quantity") ;
  mret (Sale SaleId OrderId ProductId Quantity).

Definition select_silver_sales (bs : bronze_table bval)
  : result (list sale) :=
  require_columns bs ["SaleId"; "OrderId"; "ProductId"; "Quantity"] ;;
  mapM sale_row
       (filter (λ r, is_Some (r !! "SaleId")) (bt_rows bs)).

Definition country_row (r : gmap string bval) : result country :=
  Country_ ← cast to_varchar "VARCHAR" (r !! "Country") ;
  Currency ← cast to_varchar "VARCHAR" (r !! "Currency") ;
  Name ← cast to_varchar "VARCHAR" (r !! "Name") ;
  Region ← cast to_varchar "VARCHAR" (r !! "Region") ;
  Population ← cast to_bigint "BIGINT" (r !! "Population") ;
  AreaSqMi ← cast to_bigint "BIGINT" (r !! "Area (sq. mi.)") ;
  PopDensity ←
    cast to_double "DOUBLE" (r !! "Pop. Density (per sq. mi.)") ;
  CoastlineRatio ←
    cast to_double "DOUBLE" (r !! "Coastline (coast per area ratio)") ;
  NetMigration ← cast to_double "DOUBLE" (r !! "Net migration") ;
  InfantMortality ←
    cast to_double "DOUBLE" (r !! "Infant mortality (per 1000 births)") ;
  GDPPerCapita ← cast to_bigint "BIGINT" (r !! "GDP ($ per capita)") ;
  LiteracyPct ← cast to_double "DOUBLE" (r !! "Literacy (%)") ;
  PhonesPer1000 ← cast to_double "DOUBLE" (r !! "Phones (per 1000)") ;
  ArablePct ← cast to_double "DOUBLE" (r !! "Arable (%)") ;
  CropsPct ← cast to_double "DOUBLE" (r !! "Crops (%)") ;
  OtherLandPct ← cast to_double "DOUBLE" (r !! "Other (%)") ;
  Climate ← cast to_double "DOUBLE" (r !! "Climate") ;
  Birthrate ← cast to_double "DOUBLE" (r !! "Birthrate") ;
  Deathrate ← cast to_double "DOUBLE" (r !! "Deathrate") ;
  Agriculture ← cast to_double "DOUBLE" (r !! "Agriculture") ;
  Industry ← cast to_double "DOUBLE" (r !! "Industry") ;
  Service ← cast to_double "DOUBLE" (r !! "Service") ;
  mret (Country Country_ Currency Name Region Population AreaSqMi
          PopDensity CoastlineRatio NetMigration InfantMortality
          GDPPerCapita LiteracyPct PhonesPer1000 ArablePct CropsPct
          OtherLandPct Climate Birthrate Deathrate Agriculture
          Industry Service).

Definition select_silver_countries (bc : bronze_table bval)
  : result (list country) :=
  require_columns bc
    ["Country"; "Currency"; "Name"; "Region"; "Population"; "Area (sq. mi.)";
     "Pop. Density (per sq. mi.)"; "Coastline (coast per area ratio)";
     "Net migration"; "Infant mortality (per 1000 births)";
     "GDP ($ per capita)"; "Literacy (%)"; "Phones (per 1000)"; "Arable (%)";
     "Crops (%)"; "Other (%)"; "Climate"; "Birthrate"; "Deathrate";
     "Agriculture"; "Industry"; "Service"] ;;
  mapM country_row
       (filter (λ r, is_Some (r !! "Country")) (bt_rows bc)).

Definition create_silver_customers (con : path) : M () :=
  log "Creating silver_customers..." ;;
  execute con (λ db,
    bc ← from_bronze db "bronze_customers" ;
    rows ← select_silver_customers bc ;
    mret (<["silver_customers" := CustomersT rows]> db)) ;;
  log_row_count con "silver_customers".

Definition create_silver_products (con : path) : M () :=
  log "Creating silver_products..." ;;
  execute con (λ db,
    bp ← from_bronze db "bronze_products" ;
    rows ← select_silver_products bp ;
    mret (<["silver_products" := ProductsT rows]> db)) ;;
  log_row_count con "silver_products".

Definition create_silver_orders (con : path) : M () :=
  log "Creating silver_orders..." ;;
  execute con (λ db,
    bo ← from_bronze db "bronze_orders" ;
    rows ← select_silver_orders bo ;
    mret (<["silver_orders" := OrdersT rows]> db)) ;;
  log_row_count con "silver_orders".

Definition create_silver_sales (con : path) : M () :=
  log "Creating silver_sales..." ;;
  execute con (λ db,
    bs ← from_bronze db "bronze_sales" ;
    rows ← select_silver_sales bs ;
    mret (<["silver_sales" := SalesT rows]> db)) ;;
  log_row_count con "silver_sales".

Definition create_silver_countries (con : path) : M () :=
  log "Creating silver_countries..." ;;
  execute con (λ db,
    bc ← from_bronze db "bronze_countries" ;
    rows ← select_silver_countries bc ;
    mret (<["silver_countries" := CountriesT rows]> db)) ;;
  log_row_count con "silver_countries".

(** The [FROM] clause of [silver_fact_sales]: the four left joins. *)
Definition fact_sales_join (ss : list sale) (so : list order)
  (sc : list customer) (sp : list product) (c : list country)
  : list (sale * option order * option customer * option product
          * option country) :=
  let j1 := left_join (λ s o, sql_eq (ss_OrderId s) (so_OrderId o)) ss so in
  let j2 := left_join (λ j cu, sql_eq (j.2 ≫= so_CustomerId) (sc_CustomerId cu))
                      j1 sc in
  let j3 := left_join (λ j p, sql_eq (ss_ProductId j.1.1) (sp_ProductId p))
                      j2 sp in
  left_join (λ j co, sql_eq (j.1.2 ≫= sc_Country) (c_Country co)) j3 c.

(** The [SELECT] list of [silver_fact_sales]. *)
Definition fact_sales_row
  (j : sale * option order * option customer * option product * option country)
  : fact_sale :=
  let '(s, o, cu, p, co) := j in
  FactSale (ss_SaleId s) (ss_Quantity s)
           (o ≫= so_OrderId) (o ≫= so_Date)
           (cu ≫= sc_CustomerId) (cu ≫= sc_Name) (cu ≫= sc_Country)
           (cu ≫= sc_City)
           (p ≫= sp_ProductId) (p ≫= sp_Name) (p ≫= sp_ManufacturedCountry)
           (co ≫= c_Currency) (co ≫= c_GDPPerCapita).

Definition select_silver_fact_sales (ss : list sale) (so : list order)
  (sc : list customer) (sp : list product) (c : list country)
  : list fact_sale :=
  fact_sales_row <$> fact_sales_join ss so sc sp c.

Definition create_silver_fact_sales (con : path) : M () :=
  log "Creating silver_fact_sales..." ;;
  execute con (λ db,
    ss ← from_sales db "silver_sales" ;
    so ← from_orders db "silver_orders" ;
    sc ← from_customers db "silver_customers" ;
    sp ← from_products db "silver_products" ;
    c ← from_countries db "silver_countries" ;
    mret (<["silver_fact_sales" :=
              FactSalesT (select_silver_fact_sales ss so sc sp c)]> db)) ;;
  log_row_count con "silver_fact_sales".

(** The three counts of [run_quality_checks]: the rows of the left join
    whose right-hand key is NULL. *)
Definition missing_customers (so : list order) (sc : list customer) : Z :=
  sql_count
    (filter (λ j, j.2 ≫= sc_CustomerId = None)
       (left_join (λ o c, sql_eq (so_CustomerId o) (sc_CustomerId c)) so sc)).

Definition missing_orders (ss : list sale) (so : list order) : Z :=
  sql_count
    (filter (λ j, j.2 ≫= so_OrderId = None)
       (left_join (λ s o, sql_eq (ss_OrderId s) (so_OrderId o)) ss so)).

Definition missing_products (ss : list sale) (sp : list product) : Z :=
  sql_count
    (filter (λ j, j.2 ≫= sp_ProductId = None)
       (left_join (λ s p, sql_eq (ss_ProductId s) (sp_ProductId p)) ss sp)).

Definition run_quality_checks (con : path) : M () :=
  log "Running simple data quality checks..." ;;
  n_customers ← fetch con (λ db,
    so ← from_orders db "silver_orders" ;
    sc ← from_customers db "silver_customers" ;
    mret (missing_customers so sc)) ;
  log ("Orders with missing customers: " +:+ pretty n_customers) ;;
  n_orders ← fetch con (λ db,
    ss ← from_sales db "silver_sales" ;
    so ← from_orders db "silver_orders" ;
    mret (missing_orders ss so)) ;
  log ("Sales with missing orders: " +:+ pretty n_orders) ;;
  n_products ← fetch con (λ db,
    ss ← from_sales db "silver_sales" ;
    sp ← from_products db "silver_products" ;
    mret (missing_products ss sp)) ;
  log ("Sales with missing products: " +:+ pretty n_products).

(** [ORDER BY dataset] *)
Definition by_dataset (a b : string * Z * Z) : Prop :=
  String.leb a.1.1 b.1.1.

#[global] Instance by_dataset_dec : RelDecision by_dataset.
Proof. intros a b. unfold by_dataset. apply _. Defined.

Definition bronze_vs_silver (db : gmap string table)
  : result (list (string * Z * Z)) :=
  bronze_customers ← count_rows "bronze_customers" db ;
  silver_customers ← count_rows "silver_customers" db ;
  bronze_products ← count_rows "bronze_products" db ;
  silver_products ← count_rows "silver_products" db ;
  bronze_orders ← count_rows "bronze_orders" db ;
  silver_orders ← count_rows "silver_orders" db ;
  bronze_sales ← count_rows "bronze_sales" db ;
  silver_sales ← count_rows "silver_sales" db ;
  bronze_countries ← count_rows "bronze_countries" db ;
  silver_countries ← count_rows "silver_countries" db ;
  mret (merge_sort by_dataset
          [("customers", bronze_customers, silver_customers);
           ("products", bronze_products, silver_products);
           ("orders", bronze_orders, silver_orders);
           ("sales", bronze_sales, silver_sales);
           ("countries", bronze_countries, silver_countries)]).

Definition log_bronze_vs_silver (con : path) : M () :=
  log "Comparing Bronze vs Silver row counts..." ;;
  comparisons ← fetch con bronze_vs_silver ;
  for_each comparisons (λ '(dataset, bronze_count, silver_count),
    let diff := silver_count - bronze_count in
    log ("[ROWCHECK] " +:+ dataset +:+ ": Bronze=" +:+ pretty bronze_count
         +:+ ", Silver=" +:+ pretty silver_count
         +:+ ", Diff=" +:+ pretty diff)).

Definition main : M () :=
  log ("Starting Silver pipeline. DB: " +:+ path_string DB_PATH) ;;
  con ← connect DB_PATH ;
  try_finally
    (create_silver_customers con ;;
     create_silver_products con ;;
     create_silver_orders con ;;
     create_silver_sales con ;;
     create_silver_countries con ;;
     create_silver_fact_sales con ;;
     run_quality_checks con ;;
     log_bronze_vs_silver con)
    (close con ;;
     log "Silver pipeline finished!").

End silver.
End Silver.

(** * [step03_gold_load.py] *)

Module Gold.
Section gold.
Context `{Engine}.
Import Calendar.

Definition DB_PATH : path := ("src", "sales.duckdb").

Definition log (message : string) : M () := emit (Logged "gold" message).

Definition log_row_count (con : path) (table_name : string) : M () :=
  count ← fetch con (count_rows table_name) ;
  log ("row count for " +:+ table_name +:+ ": " +:+ pretty count).

Definition select_gold_dim_customer (c : list customer) : list dim_customer :=
  (λ c, DimCustomer (sc_CustomerId c) (sc_Name c) (sc_City c) (sc_Country c)
                    (sc_Active c) (sc_Email c))
    <$> filter (λ c, is_Some (sc_CustomerId c)) c.

Definition select_gold_dim_product (p : list product) : list dim_product :=
  (λ p, DimProduct (sp_ProductId p) (sp_Name p) (sp_ManufacturedCountry p)
                   (sp_WeightGrams p))
    <$> filter (λ p, is_Some (sp_ProductId p)) p.

Definition select_gold_dim_country (c : list country) : list dim_country :=
  (λ c, DimCountry (c_Country c) (c_Region c) (c_Currency c) (c_Population c)
          (c_AreaSqMi c) (c_PopDensity c) (c_CoastlineRatio c)
          (c_NetMigration c) (c_InfantMortality c) (c_GDPPerCapita c)
          (c_LiteracyPct c) (c_PhonesPer1000 c) (c_ArablePct c) (c_CropsPct c)
          (c_OtherLandPct c) (c_Climate c) (c_Birthrate c) (c_Deathrate c)
          (c_Agriculture c) (c_Industry c) (c_Service c))
    <$> filter (λ c, is_Some (c_Country c)) c.

Definition create_gold_dim_customer (con : path) : M () :=
  log "creating gold_dim_customer..." ;;
  execute con (λ db,
    c ← from_customers db "silver_customers" ;
    mret (<["gold_dim_customer" := DimCustomerT (select_gold_dim_customer c)]> db)) ;;
  log_row_count con "gold_dim_customer".

Definition create_gold_dim_product (con : path) : M () :=
  log "creating gold_dim_product..." ;;
  execute con (λ db,
    p ← from_products db "silver_products" ;
    mret (<["gold_dim_product" := DimProductT (select_gold_dim_product p)]> db)) ;;
  log_row_count con "gold_dim_product".

Definition create_gold_dim_country (con : path) : M () :=
  log "creating gold_dim_country..." ;;
  execute con (λ db,
    c ← from_countries db "silver_countries" ;
    mret (<["gold_dim_country" := DimCountryT (select_gold_dim_country c)]> db)) ;;
  log_row_count con "gold_dim_country".

(** The CTE [bounds]: one row, NULL bounds when no order has a date. *)
Definition bounds (so : list order) : option Z * option Z :=
  (sql_min (so_Date <$> so), sql_max (so_Date <$> so)).

(** The CTE [dates]: [UNNEST(GENERATE_SERIES(min_date, max_date, INTERVAL 1
    DAY))]; the series of a NULL bound is NULL, and unnests to no row. *)
Definition dates (so : list order) : list Z :=
  match bounds so with
  | (Some min_date, Some max_date) => seqZ min_date (max_date - min_date + 1)
  | _ => []
  end.

(** The [SELECT] list of [gold_dim_date] for one date. *)
Definition dim_date_row (d : Z) : result dim_date :=
  DateKey ← cast_varchar_integer (strftime_Ymd d) ;
  let c := civil_of_date d in
  let dow := day_of_week d in
  mret (DimDate DateKey d (year c) ((month c - 1) / 3 + 1) (month c)
          (month_name (month c)) (year c * 100 + month c) (iso_week d)
          dow (day_name dow) (bool_decide (dow = 0 ∨ dow = 6))).

(** [ORDER BY Date] *)
Definition by_date (a b : dim_date) : Prop := d_Date a ≤ d_Date b.

#[global] Instance by_date_dec : RelDecision by_date.
Proof. intros a b. unfold by_date. apply _. Defined.

Definition select_gold_dim_date (so : list order) : result (list dim_date) :=
  rows ← mapM dim_date_row (dates so) ;
  mret (merge_sort by_date rows).

Definition create_gold_dim_date (con : path) : M () :=
  log "creating gold_dim_date..." ;;
  execute con (λ db,
    so ← from_orders db "silver_orders" ;
    rows ← select_gold_dim_date so ;
    mret (<["gold_dim_date" := DimDateT rows]> db)) ;;
  log_row_count con "gold_dim_date".

(** The [FROM] clause of [gold_fact_sales]: the fact view left-joined to
    the calendar on the date value and to the products on the id. *)
Definition gold_fact_join (f : list fact_sale) (d : list dim_date)
  (p : list product) : list (fact_sale * option dim_date * option product) :=
  let j1 := left_join (λ f d, sql_eq (f_OrderDate f) (Some (d_Date d))) f d in
  left_join (λ j p, sql_eq (f_ProductId j.1) (sp_ProductId p)) j1 p.

(** The [SELECT] list of [gold_fact_sales]. *)
Definition gold_fact_row (j : fact_sale * option dim_date * option product)
  : gold_fact :=
  let '(f, d, p) := j in
  GoldFact (f_SaleId f) (f_OrderId f) (d_DateKey <$> d) (f_CustomerId f)
           (f_ProductId f) (f_CustomerCountry f) (f_Quantity f)
           (p ≫= sp_WeightGrams)
           (sql_mul (f_Quantity f) (p ≫= sp_WeightGrams)).

Definition select_gold_fact_sales (f : list fact_sale) (d : list dim_date)
  (p : list product) : list gold_fact :=
  gold_fact_row <$> gold_fact_join f d p.

Definition create_gold_fact_sales (con : path) : M () :=
  log "creating gold_fact_sales..." ;;
  execute con (λ db,
    f ← from_fact_sales db "silver_fact_sales" ;
    d ← from_dim_date db "gold_dim_date" ;
    p ← from_products db "silver_products" ;
    mret (<["gold_fact_sales" := GoldFactT (select_gold_fact_sales f d p)]> db)) ;;
  log_row_count con "gold_fact_sales".

Definition main : M () :=
  log ("starting gold pipeline. db: " +:+ path_string DB_PATH) ;;
  found ← database_exists DB_PATH ;
  if negb found then
    raise (FileNotFoundError
             ("DuckDB file not found at " +:+ path_string DB_PATH))
  else
    con ← connect DB_PATH ;
    try_finally
      (create_gold_dim_customer con ;;
       create_gold_dim_product con ;;
       create_gold_dim_country con ;;
       create_gold_dim_date con ;;
       create_gold_fact_sales con ;;
       log "gold pipeline finished.")
      (close con ;;
       log "connection closed.").

End gold.
End Gold.

(** * The export scripts and the orchestrator

    The export scripts also make directories, and write files into them:
    their state is a [disk], the world with the directories that exist.
    What the engine writes for a table ([COPY ... TO]), what it reports of
    its columns ([PRAGMA table_info]), the text [json.dump] produces and the
    text of an exception are an interface, the class [Exporter]. *)

Definition nl : string := String "010"%char EmptyString.

(** A row of [PRAGMA table_info]: cid, name, type, notnull, dflt_value, pk. *)
Record table_info_row := TableInfoRow {
  ti_cid : Z;
  ti_name : string;
  ti_type : string;
  ti_notnull : bool;
  ti_dflt_value : option string;
  ti_pk : bool
}.

(** The dictionary [write_table_metadata] dumps. *)
Record column_meta := ColumnMeta {
  cm_name : string;
  cm_type : string;
  cm_not_null : bool;
  cm_primary_key : bool
}.

Record table_meta := TableMeta {
  tm_table : string;
  tm_row_count : Z;
  tm_columns : list column_meta
}.

Class Exporter `{Engine} := {
  copy_json : table → text;
  copy_parquet : table → text;
  table_info : table → list table_info_row;
  json_dump : table_meta → text;
  str_exn : exn → string
}.

(** The directories on the way to a path: for ["data/bronze"], ["data"]. *)
Fixpoint path_parents (seen rest : string) : list string :=
  match rest with
  | EmptyString => []
  | String c rest' =>
      if Ascii.eqb c "/"%char
      then seen :: path_parents (seen +:+ String c EmptyString) rest'
      else path_parents (seen +:+ String c EmptyString) rest'
  end.

Section disk.
Context `{Engine}.

Record disk := Disk {
  base : world;
  directories : gset string
}.

Definition Script (A : Type) : Type := disk → outcome A * disk.

#[global] Instance Script_ret : MRet Script := λ A a d, (Returned a, d).
#[global] Instance Script_bind : MBind Script :=
  λ A B k m d, match m d with
               | (Returned a, d') => k a d'
               | (Raised e, d') => (Raised e, d')
               end.

(** The code of a stage, run on the world of the disk. *)
Definition lift {A : Type} (m : M A) : Script A :=
  λ d, match m (base d) with
       | (r, w') => (r, Disk w' (directories d))
       end.

Definition throw {A : Type} (e : exn) : Script A := λ d, (Raised e, d).

(** [try: body except Exception as e: handler e] *)
Definition try_except_exception {A : Type} (body : Script A)
  (handler : exn → Script A) : Script A :=
  λ d, match body d with
       | (Raised e, d') => handler e d'
       | r => r
       end.

(** [try: body finally: final] *)
Definition try_finally_script {A : Type} (body : Script A) (final : Script ())
  : Script A :=
  λ d, match body d with
       | (r, d') => match final d' with
                    | (Returned _, d'') => (r, d'')
                    | (Raised e, d'') => (Raised e, d'')
                    end
       end.

Fixpoint for_each_script {A : Type} (l : list A) (body : A → Script ())
  : Script () :=
  match l with
  | [] => mret ()
  | x :: l' => body x ;; for_each_script l' body
  end.

(** [d.mkdir(parents=True, exist_ok=True)] *)
Definition mkdir (dir : string) : Script () :=
  λ d, (Returned (),
        Disk (base d)
             (directories d ∪ list_to_set (path_parents "" dir) ∪ {[dir]})).

(** Writing a file: it is created or replaced when its directory exists;
    otherwise the write fails with [e]. *)
Definition write_file (out : path) (content : text) (e : exn) : Script () :=
  λ d, if decide (out.1 ∈ directories d) then
         (Returned (),
          Disk (World (<[out := content]> (files (base d)))
                      (databases (base d)) (connection (base d))
                      (history (base d)))
               (directories d))
       else (Raised e, d).

End disk.

(** * [step04_export_medallion_layers.py] *)

Module Step04Export.
Section export_script.
Context `{Exporter}.

Definition DB_PATH : path := ("src", "sales.duckdb").

Definition DATA_DIR : string := "data".
Definition BRONZE_DIR : string := "data/bronze".
Definition SILVER_DIR : string := "data/silver".
Definition GOLD_DIR : string := "data/gold".

Definition BRONZE_TABLES : list string :=
  ["bronze_customers"; "bronze_orders"; "bronze_sales"; "bronze_products";
   "bronze_countries"].

Definition SILVER_TABLES : list string :=
  ["silver_customers"; "silver_orders"; "silver_sales"; "silver_products";
   "silver_countries"; "silver_fact_sales"].

Definition GOLD_TABLES : list string :=
  ["gold_dim_customer"; "gold_dim_product"; "gold_dim_country";
   "gold_dim_date"; "gold_fact_sales"].

Definition ensure_dirs : Script () :=
  for_each_script [DATA_DIR; BRONZE_DIR; SILVER_DIR; GOLD_DIR] mkdir.

(** [COPY (SELECT * FROM table_name) TO out (FORMAT ...)]: the table is
    looked up, then the file is written. *)
Definition copy_to (con : path) (table_name : string) (out : path)
  (format : table → text) : Script () :=
  t ← lift (fetch con (λ db,
         match db !! table_name with
         | Some t => Ok t
         | None => Err (CatalogException table_name)
         end)) ;
  write_file out (format t) (IOException (path_string out)).

Definition export_table_json (con : path) (table_name out_dir : string)
  : Script path :=
  let out_path := (out_dir, table_name +:+ ".json") in
  copy_to con table_name out_path copy_json ;;
  mret out_path.

Definition export_table_parquet (con : path) (table_name out_dir : string)
  : Script path :=
  let out_path := (out_dir, table_name +:+ ".parquet") in
  copy_to con table_name out_path copy_parquet ;;
  mret out_path.

Definition write_table_metadata (con : path) (table_name out_dir : string)
  : Script path :=
  row_count ← lift (fetch con (count_rows table_name)) ;
  schema_rows ← lift (fetch con (λ db,
         match db !! table_name with
         | Some t => Ok (table_info t)
         | None => Err (CatalogException table_name)
         end)) ;
  let columns :=
    (λ r, ColumnMeta (ti_name r) (ti_type r) (ti_notnull r) (ti_pk r))
      <$> schema_rows in
  let meta := TableMeta table_name row_count columns in
  let out_path := (out_dir, table_name +:+ ".meta.json") in
  write_file out_path (json_dump meta)
    (FileNotFoundError (path_string out_path)) ;;
  mret out_path.

(** The two [print] calls around a table write on one line: the first has
    [end=""]. *)
Definition dump_table_set (con : path) (tables : list string)
  (out_dir label : string) : Script () :=
  lift (print (nl +:+ "=== Exporting " +:+ label +:+ " tables to "
               +:+ out_dir +:+ " ===")) ;;
  for_each_script tables (λ t,
    lift (print ("  -> " +:+ t +:+ " ...")) ;;
    try_except_exception
      (data_path ← export_table_json con t out_dir ;
       meta_path ← write_table_metadata con t out_dir ;
       lift (print (" done [" +:+ data_path.2 +:+ ", " +:+ meta_path.2
                    +:+ "]")))
      (λ e, lift (print (" FAILED (" +:+ str_exn e +:+ ")")))).

Definition dump_gold_tables (con : path) (tables : list string)
  (out_dir : string) : Script () :=
  lift (print (nl +:+ "=== Exporting gold tables to " +:+ out_dir
               +:+ " ===")) ;;
  for_each_script tables (λ t,
    lift (print ("  -> " +:+ t +:+ " ...")) ;;
    try_except_exception
      (data_path ← export_table_parquet con t out_dir ;
       meta_path ← write_table_metadata con t out_dir ;
       lift (print (" done [" +:+ data_path.2 +:+ ", " +:+ meta_path.2
                    +:+ "]")))
      (λ e, lift (print (" FAILED (" +:+ str_exn e +:+ ")")))).

Definition main : Script () :=
  ensure_dirs ;;
  found ← lift (database_exists DB_PATH) ;
  if negb found then
    throw (FileNotFoundError
             ("DuckDB file not found at " +:+ path_string DB_PATH))
  else
    lift (print ("Connecting to DuckDB at " +:+ path_string DB_PATH
                 +:+ "...")) ;;
    con ← lift (connect DB_PATH) ;
    try_finally_script
      (dump_table_set con BRONZE_TABLES BRONZE_DIR "bronze" ;;
       dump_table_set con SILVER_TABLES SILVER_DIR "silver" ;;
       dump_gold_tables con GOLD_TABLES GOLD_DIR ;;
       lift (print (nl +:+ "All exports complete.")))
      (lift (close con)).

End export_script.
End Step04Export.

(** * [step03_export_medallion_layers.py]

    The earlier export script: the same directories, table lists,
    [ensure_dirs], [export_table_json], [write_table_metadata] and
    [dump_table_set]; no gold export yet, and another [main]. *)

Module Step03Export.
Section step03_export.
Context `{Exporter}.

Definition export_gold (con : path) : Script () :=
  lift (print (nl +:+ "=== Gold export not implemented yet ===")).

Definition main : Script () :=
  Step04Export.ensure_dirs ;;
  found ← lift (database_exists Step04Export.DB_PATH) ;
  if negb found then
    throw (FileNotFoundError
             ("DuckDB file not found at "
              +:+ path_string Step04Export.DB_PATH))
  else
    lift (print ("Connecting to DuckDB at "
                 +:+ path_string Step04Export.DB_PATH +:+ "...")) ;;
    con ← lift (connect Step04Export.DB_PATH) ;
    Step04Export.dump_table_set con Step04Export.BRONZE_TABLES
      Step04Export.BRONZE_DIR "bronze" ;;
    Step04Export.dump_table_set con Step04Export.SILVER_TABLES
      Step04Export.SILVER_DIR "silver" ;;
    export_gold con ;;
    lift (print (nl +:+ "All exports complete.")).

End step03_export.
End Step03Export.

(** * [run_all_pipelines.py]

    Each step is a script of the directory [src/pipelines], run as a process
    of its own: it starts with no connection, what it leaves open ends with
    it, and the orchestrator sees its exit status only (1 for an exception
    that is not caught). *)

Module RunAll.

Inductive error :=
| ScriptNotFound (message : string)
| CalledProcessError (returncode : Z) (script : string).

#[global] Instance error_eq_dec : EqDecision error.
Proof. solve_decision. Defined.

Section run_all.
Context `{Engine}.

Definition PIPELINES_DIR : string := "src/pipelines".

Definition PIPELINE_STEPS : list string :=
  ["step01_bronze_load.py"; "step02_silver_load.py"; "step03_gold_load.py";
   "step04_export_medallion_layers.py"].

Definition with_connection (con : option path) (d : disk) : disk :=
  Disk (World (files (base d)) (databases (base d)) con (history (base d)))
       (directories d).

Definition printed (line : string) (d : disk) : disk :=
  Disk (World (files (base d)) (databases (base d)) (connection (base d))
              (history (base d) ++ [Printed line]))
       (directories d).

(** [subprocess.call]: the exit status of the script, and the disk as it
    leaves it. *)
Definition subprocess (script : Script ()) (d : disk) : Z * disk :=
  match script (with_connection None d) with
  | (Returned _, d') => (0, with_connection (connection (base d)) d')
  | (Raised _, d') => (1, with_connection (connection (base d)) d')
  end.

(** [run_step] in a directory [scripts] of scripts: the error it raises,
    if any.  [subprocess.check_call] raises on a status other than 0. *)
Definition run_step (scripts : gmap string (Script ())) (script_name : string)
  (d : disk) : option error * disk :=
  match scripts !! script_name with
  | None =>
      (Some (ScriptNotFound ("Pipeline script not found: " +:+ PIPELINES_DIR
                             +:+ "/" +:+ script_name)), d)
  | Some script =>
      match subprocess script
              (printed (nl +:+ "=== Running " +:+ script_name +:+ " ===") d)
      with
      | (returncode, d') =>
          if returncode =? 0 then (None, d')
          else (Some (CalledProcessError returncode script_name), d')
      end
  end.

(** [for script in steps: run_step(script)] *)
Fixpoint run_steps (scripts : gmap string (Script ())) (steps : list string)
  (d : disk) : option error * disk :=
  match steps with
  | [] => (None, d)
  | script :: rest =>
      match run_step scripts script d with
      | (None, d') => run_steps scripts rest d'
      | failed => failed
      end
  end.

Definition main (scripts : gmap string (Script ())) (d : disk)
  : option error * disk :=
  match run_steps scripts PIPELINE_STEPS
          (printed ("Starting full medallion pipeline..." +:+ nl) d) with
  | (None, d') =>
      (None, printed (nl +:+ "All pipeline steps completed successfully.") d')
  | failed => failed
  end.

End run_all.

(** The scripts of [src/pipelines] in the repository (the orchestrator
    itself apart). *)
Definition repository `{Exporter} : gmap string (Script ()) :=
  <["step01_bronze_load.py" := lift Bronze.main]>
  (<["silver_load_clean.py" := lift Silver.main]>
  (<["step03_gold_load.py" := lift Gold.main]>
  (<["step03_export_medallion_layers.py" := Step03Export.main]>
  (<["step04_export_medallion_layers.py" := Step04Export.main]> ∅)))).

End RunAll.

(** * A small engine to run the definitions on concrete documents

    The reader takes a document of one flat JSON object per line, with
    integer, [true], [false], [null] and (escape-free) string values;
    anything else is an Invalid Input error.  Conversions are the evident
    ones between its three kinds of values; DOUBLE is the binary64 of the
    kernel. *)

Module Demo.

Inductive value :=
| VInt (n : Z)
| VBool (b : bool)
| VText (s : string).

Definition row : Type := gmap string value.

Definition string_of_text (t : text) : string :=
  string_of_list_ascii (ascii_of_N <$> t).

Inductive state :=
| Start
| KeyOrClose (first : bool)
| InKey (k : text)
| Colon (k : string)
| Val (k : string)
| InStr (k : string) (acc : text)
| InInt (k : string) (negative : bool) (n : Z)
| InWord (k : string) (acc : text)
| CommaOrClose
| Done
| Bad.

Definition is_blank (c : N) : bool := ((c =? 32) || (c =? 9))%N.
Definition is_digit (c : N) : bool := ((48 <=? c) && (c <=? 57))%N.

(** The value a bare word stands for: [None] is no word of JSON, [Some None]
    is [null]. *)
Definition word_value (w : text) : option (option value) :=
  if bool_decide (w = of_string "true") then Some (Some (VBool true))
  else if bool_decide (w = of_string "false") then Some (Some (VBool false))
  else if bool_decide (w = of_string "null") then Some None
  else None.

Definition store (k : string) (v : option value) (r : row) : row :=
  match v with
  | Some x => <[k := x]> r
  | None => delete k r
  end.

(** After a complete value: a comma, the closing brace or a blank. *)
Definition after_value (c : N) (r : row) : state * row :=
  if (c =? 44)%N then (KeyOrClose false, r)
  else if (c =? 125)%N then (Done, r)
  else if is_blank c then (CommaOrClose, r)
  else (Bad, r).

Definition step (sr : state * row) (c : N) : state * row :=
  let '(s, r) := sr in
  match s with
  | Start => if is_blank c then (Start, r)
             else if (c =? 123)%N then (KeyOrClose true, r) else (Bad, r)
  | KeyOrClose first =>
      if is_blank c then (s, r)
      else if (c =? 34)%N then (InKey [], r)
      else if first && (c =? 125)%N then (Done, r)
      else (Bad, r)
  | InKey k => if (c =? 34)%N then (Colon (string_of_text k), r)
               else (InKey (k ++ [c]), r)
  | Colon k => if is_blank c then (s, r)
               else if (c =? 58)%N then (Val k, r) else (Bad, r)
  | Val k =>
      if is_blank c then (s, r)
      else if (c =? 34)%N then (InStr k [], r)
      else if (c =? 45)%N then (InInt k true 0, r)
      else if is_digit c then (InInt k false (Z.of_N c - 48), r)
      else (InWord k [c], r)
  | InStr k acc =>
      if (c =? 34)%N then (CommaOrClose, <[k := VText (string_of_text acc)]> r)
      else (InStr k (acc ++ [c]), r)
  | InInt k negative n =>
      if is_digit c then (InInt k negative (n * 10 + (Z.of_N c - 48)), r)
      else after_value c (<[k := VInt (if negative then - n else n)]> r)
  | InWord k acc =>
      if (c =? 44)%N || (c =? 125)%N || is_blank c then
        match word_value acc with
        | Some v => after_value c (store k v r)
        | None => (Bad, r)
        end
      else (InWord k (acc ++ [c]), r)
  | CommaOrClose => after_value c r
  | Done => if is_blank c then (Done, r) else (Bad, r)
  | Bad => (Bad, r)
  end.

Definition read_object (line : text) : option row :=
  match foldl step (Start, ∅) line with
  | (Done, r) => Some r
  | _ => None
  end.

Definition key_order (line : text) : list string :=
  match foldl (λ '(s, ks) c,
                 let s' := (step (s, ∅) c).1 in
                 (s', match s' with Colon k => ks ++ [k] | _ => ks end))
              (Start, []) line with
  | (_, ks) => ks
  end.

Definition read_lines (doc : text) : result (bronze_table value) :=
  let lines := PyStr.strip <$> filter PyStr.nonblank (PyStr.readlines doc) in
  match mapM read_object lines with
  | Some rows => Ok (BronzeTable (remove_dups (lines ≫= key_order)) rows)
  | None => Err (InvalidInputException "Malformed JSON")
  end.

Definition float_of_Z (n : Z) : float :=
  if n <? 0 then PrimFloat.opp (PrimFloat.of_uint63 (Uint63.of_Z (- n)))
  else PrimFloat.of_uint63 (Uint63.of_Z n).

Definition value_to_bigint (v : value) : option Z :=
  match v with
  | VInt n => Some n
  | VBool b => Some (if b then 1 else 0)
  | VText s => match s with
               | EmptyString => None
               | _ => Calendar.parse_digits 0 s
               end
  end.

Definition value_to_boolean (v : value) : option bool :=
  match v with
  | VBool b => Some b
  | VInt n => Some (negb (n =? 0))
  | VText s => if bool_decide (s = "true") then Some true
               else if bool_decide (s = "false") then Some false else None
  end.

Definition value_to_varchar (v : value) : option string :=
  match v with
  | VText s => Some s
  | VInt n => Some (pretty n)
  | VBool b => Some (if b then "true" else "false")
  end.

(** [YYYY-MM-DD] *)
Definition value_to_date (v : value) : option Z :=
  match v with
  | VText s =>
      if bool_decide (String.length s = 10%nat ∧ substring 4 1 s = "-"
                      ∧ substring 7 1 s = "-") then
        y ← Calendar.parse_digits 0 (substring 0 4 s) ;
        m ← Calendar.parse_digits 0 (substring 5 2 s) ;
        d ← Calendar.parse_digits 0 (substring 8 2 s) ;
        if bool_decide (1 ≤ y ∧ 1 ≤ m ≤ 12 ∧ 1 ≤ d ≤ Calendar.days_in_month y m)
        then Some (Calendar.date_of_civil (Calendar.Civil y m d)) else None
      else None
  | _ => None
  end.

Definition value_to_double (v : value) : option float :=
  match v with
  | VInt n => Some (float_of_Z n)
  | VBool b => Some (float_of_Z (if b then 1 else 0))
  | VText _ => None
  end.

Definition engine : Engine := {|
  bval := value;
  double := float;
  dmul := PrimFloat.mul;
  to_bigint := value_to_bigint;
  to_boolean := value_to_boolean;
  to_varchar := value_to_varchar;
  to_date := value_to_date;
  to_double := value_to_double;
  read_json_auto := read_lines;
  read_ndjson_auto := read_lines
|}.

End Demo.

(** * Concrete tables and documents *)

Module Example.

#[local] Existing Instance Demo.engine.

Definition customers : list customer :=
  [Customer (Some 10) (Some true) (Some "Ann") (Some "1 Main St")
            (Some "Oslo") (Some "Norway") (Some "ann@example.com");
   Customer (Some 11) (Some false) (Some "Bo") None (Some "Lima")
            (Some "Peru") None].

Definition products : list (@product Demo.engine) :=
  [Product (Some 7) (Some "Widget") (Some "Norway") (Some 2.5%float);
   Product (Some 8) (Some "Gadget") None None].

(** 2020-01-01 and 2020-01-03, and an order with no date. *)
Definition orders : list order :=
  [Order (Some 1) (Some 10) (Some 18262);
   Order (Some 2) (Some 11) (Some 18264);
   Order (Some 3) None None].

(** The third sale names an order that does not exist; the fourth has
    neither an order nor a product. *)
Definition sales : list (@sale Demo.engine) :=
  [Sale (Some 100) (Some 1) (Some 7) (Some 2%float);
   Sale (Some 101) (Some 2) (Some 8) (Some 1%float);
   Sale (Some 102) (Some 99) (Some 7) None;
   Sale (Some 103) None None (Some 4%float)].

Definition countries : list (@country Demo.engine) :=
  [Country (Some "Norway") (Some "NOK") (Some "Kingdom of Norway")
           (Some "Europe") (Some 5400000) (Some 125000) (Some 43.25%float)
           (Some 7.75%float) (Some 1.5%float) (Some 3.75%float) (Some 37800)
           (Some 100%float) (Some 461.5%float) (Some 2.5%float)
           (Some 0%float) (Some 97.5%float) (Some 3%float) (Some 11.5%float)
           (Some 9.5%float) (Some 0.125%float) (Some 0.25%float)
           (Some 0.625%float)].

Definition silver_db : gmap string (@table Demo.engine) :=
  <["silver_customers" := CustomersT customers]>
  (<["silver_products" := ProductsT products]>
  (<["silver_orders" := OrdersT orders]>
  (<["silver_sales" := SalesT sales]>
  (<["silver_countries" := CountriesT countries]> ∅)))).

(** A run of the gold stage: the connection is open on the database. *)
Definition silver_world : @world Demo.engine :=
  World ∅ (<[Gold.DB_PATH := silver_db]> ∅) (Some Gold.DB_PATH) [].

(** The same once the silver stage has built the conformed fact table. *)
Definition fact_db : gmap string (@table Demo.engine) :=
  <["silver_fact_sales" :=
      FactSalesT (Silver.select_silver_fact_sales sales orders customers
                    products countries)]> silver_db.

Definition fact_world : @world Demo.engine :=
  World ∅ (<[Gold.DB_PATH := fact_db]> ∅) (Some Gold.DB_PATH) [].

(** The same once the gold stage has built the calendar. *)
Definition calendar : list dim_date :=
  [DimDate 20200101 18262 2020 1 1 "January" 202001 1 3 "Wednesday" false;
   DimDate 20200102 18263 2020 1 1 "January" 202001 1 4 "Thursday" false;
   DimDate 20200103 18264 2020 1 1 "January" 202001 1 5 "Friday" false].

Definition calendar_db : gmap string (@table Demo.engine) :=
  <["gold_dim_date" := DimDateT calendar]> fact_db.

Definition calendar_world : @world Demo.engine :=
  World ∅ (<[Gold.DB_PATH := calendar_db]> ∅) (Some Gold.DB_PATH) [].

(** The rows of the dimensional fact table: 2 x 2.5 grams, an unknown
    weight, an unknown quantity, and a sale with no product. *)
Definition gold_facts : list (@gold_fact Demo.engine) :=
  [GoldFact (Some 100) (Some 1) (Some 20200101) (Some 10) (Some 7)
            (Some "Norway") (Some 2%float) (Some 2.5%float) (Some 5%float);
   GoldFact (Some 101) (Some 2) (Some 20200103) (Some 11) (Some 8)
            (Some "Peru") (Some 1%float) None None;
   GoldFact (Some 102) None None None (Some 7) None None (Some 2.5%float)
            None;
   GoldFact (Some 103) None None None None None (Some 4%float) None None].

(** Bronze tables as the reader leaves them: the second customer has no
    [CustomerId] (scenario A of the specification). *)
Definition bronze_customers : bronze_table Demo.value :=
  BronzeTable ["CustomerId"; "Active"; "Name"; "Address"; "City"; "Country";
               "Email"]
    [ <["CustomerId" := Demo.VInt 1]> (<["Name" := Demo.VText "A"]>
        (<["Active" := Demo.VBool true]> ∅));
      <["Name" := Demo.VText "Bad"]> ∅ ].

Definition bronze_products : bronze_table Demo.value :=
  BronzeTable ["ProductId"; "Name"; "ManufacturedCountry"; "WeightGrams"]
    [ <["ProductId" := Demo.VInt 7]> (<["Name" := Demo.VText "Widget"]>
        (<["WeightGrams" := Demo.VInt 3]> ∅)) ].

Definition bronze_orders : bronze_table Demo.value :=
  BronzeTable ["OrderId"; "CustomerId"; "Date"]
    [ <["OrderId" := Demo.VInt 1]> (<["CustomerId" := Demo.VInt 1]>
        (<["Date" := Demo.VText "2020-01-01"]> ∅));
      <["OrderId" := Demo.VText "2"]> (<["Date" := Demo.VText "2020-01-03"]> ∅) ].

Definition bronze_sales : bronze_table Demo.value :=
  BronzeTable ["SaleId"; "OrderId"; "ProductId"; "Quantity"]
    [ <["SaleId" := Demo.VInt 100]> (<["OrderId" := Demo.VInt 1]>
        (<["ProductId" := Demo.VInt 7]> (<["Quantity" := Demo.VInt 2]> ∅)));
      <["OrderId" := Demo.VInt 1]> ∅;
      <["SaleId" := Demo.VInt 102]> (<["OrderId" := Demo.VInt 99]> ∅) ].

Definition bronze_countries : bronze_table Demo.value :=
  BronzeTable
    ["Country"; "Currency"; "Name"; "Region"; "Population"; "Area (sq. mi.)";
     "Pop. Density (per sq. mi.)"; "Coastline (coast per area ratio)";
     "Net migration"; "Infant mortality (per 1000 births)";
     "GDP ($ per capita)"; "Literacy (%)"; "Phones (per 1000)"; "Arable (%)";
     "Crops (%)"; "Other (%)"; "Climate"; "Birthrate"; "Deathrate";
     "Agriculture"; "Industry"; "Service"]
    [ <["Country" := Demo.VText "Norway"]> (<["Currency" := Demo.VText "NOK"]>
        (<["GDP ($ per capita)" := Demo.VInt 37800]> ∅)) ].

Definition bronze_db : gmap string (@table Demo.engine) :=
  <["bronze_customers" := BronzeT bronze_customers]>
  (<["bronze_products" := BronzeT bronze_products]>
  (<["bronze_orders" := BronzeT bronze_orders]>
  (<["bronze_sales" := BronzeT bronze_sales]>
  (<["bronze_countries" := BronzeT bronze_countries]> ∅)))).

(** A run of the silver stage: the connection is open on the database. *)
Definition bronze_world : @world Demo.engine :=
  World ∅ (<[Silver.DB_PATH := bronze_db]> ∅) (Some Silver.DB_PATH) [].

(** Documents.  [clean_doc] holds one object per line; [raw_doc] is the
    same with a comma after each object, a blank line and some
    indentation; [junk_doc] is no JSON at all. *)
Definition quote : text := [34%N].

Definition line1 : text :=
  of_string "{" ++ quote ++ of_string "CustomerId" ++ quote ++ of_string ":1,"
  ++ quote ++ of_string "Name" ++ quote ++ of_string ":" ++ quote
  ++ of_string "A" ++ quote ++ of_string "}".

Definition line2 : text :=
  of_string "{" ++ quote ++ of_string "CustomerId" ++ quote
  ++ of_string ":null," ++ quote ++ of_string "Name" ++ quote ++ of_string ":"
  ++ quote ++ of_string "Bad" ++ quote ++ of_string "}".

Definition clean_doc : text := ndjson [line1; line2].

Definition raw_doc : text :=
  line1 ++ of_string "," ++ [10%N] ++ [10%N]
  ++ of_string "  " ++ line2 ++ of_string "," ++ [10%N].

Definition junk_doc : text := of_string "not json".

(** A run of the bronze stage: the connection is open, on no table yet. *)
Definition raw_world : @world Demo.engine :=
  World (<[(Bronze.RAW_DIR, "customers.json") := raw_doc]>
         (<[(Bronze.RAW_DIR, "products.json") := clean_doc]>
         (<[(Bronze.RAW_DIR, "orders.json") := junk_doc]> ∅)))
        (<[Bronze.DB_PATH := ∅]> ∅) (Some Bronze.DB_PATH) [].

(** Loading the three documents. *)
Definition load_customers : outcome () * @world Demo.engine :=
  Bronze.load_bronze_table Bronze.DB_PATH "customers.json" "bronze_customers"
    raw_world.

Definition load_products : outcome () * @world Demo.engine :=
  Bronze.load_bronze_table Bronze.DB_PATH "products.json" "bronze_products"
    raw_world.

Definition load_orders : outcome () * @world Demo.engine :=
  Bronze.load_bronze_table Bronze.DB_PATH "orders.json" "bronze_orders"
    raw_world.

(** The start of the bronze stage: the three documents, no database yet
    and no connection. *)
Definition start_world : @world Demo.engine :=
  World (files raw_world) ∅ None [].

(** The same with no order at all. *)
Definition no_orders_db : gmap string (@table Demo.engine) :=
  <["silver_orders" := OrdersT []]> silver_db.

Definition no_orders_world : @world Demo.engine :=
  World ∅ (<[Gold.DB_PATH := no_orders_db]> ∅) (Some Gold.DB_PATH) [].

End Example.

(** * Properties of the calendar *)

Section calendar_facts.
Import Calendar.

Lemma days_in_month_bounds y m : 28 ≤ days_in_month y m ≤ 31.
Proof. unfold days_in_month. repeat case_match; lia. Qed.

Lemma next_day_valid c : valid c → valid (next_day c).
Proof.
  destruct c as [y m d]. unfold valid, next_day; simpl.
  intros [Hm Hd].
  pose proof (days_in_month_bounds y (m + 1)).
  pose proof (days_in_month_bounds (y + 1) 1).
  destruct (Z.ltb_spec d (days_in_month y m)); simpl; [lia|].
  destruct (Z.ltb_spec m 12); simpl; lia.
Qed.

Lemma next_day_ymd c : valid c → ymd c < ymd (next_day c).
Proof.
  destruct c as [y m d]. unfold valid, next_day, ymd; simpl.
  intros [Hm Hd].
  pose proof (days_in_month_bounds y m).
  destruct (Z.ltb_spec d (days_in_month y m)); simpl; [lia|].
  destruct (Z.ltb_spec m 12); simpl; lia.
Qed.

Lemma next_day_date c :
  valid c → date_of_civil (next_day c) = date_of_civil c + 1.
Proof.
  destruct c as [y m d]. unfold valid, next_day, date_of_civil; simpl.
  intros [Hm Hd].
  destruct (Z.ltb_spec d (days_in_month y m)); simpl; [lia|].
  assert (d = days_in_month y m) as -> by lia.
  destruct (Z.ltb_spec m 12); simpl.
  - unfold days_before_month, days_in_month.
    assert (m = 1 ∨ m = 2 ∨ m = 3 ∨ m = 4 ∨ m = 5 ∨ m = 6 ∨ m = 7 ∨ m = 8
            ∨ m = 9 ∨ m = 10 ∨ m = 11) as Hc by lia.
    destruct (is_leap y);
      repeat (destruct Hc as [-> | Hc]; [simpl; lia|]); subst; simpl; lia.
  - assert (m = 12) as -> by lia.
    unfold days_before_month, days_in_month, days_before_year, is_leap. simpl.
    replace (y + 1 - 1) with y by lia.
    destruct (Z.eqb_spec (y mod 4) 0), (Z.eqb_spec (y mod 100) 0),
      (Z.eqb_spec (y mod 400) 0); simpl; Z.div_mod_to_equations; lia.
Qed.

Lemma is_leap_shift y q : is_leap (y + 400 * q) = is_leap y.
Proof.
  unfold is_leap.
  replace ((y + 400 * q) mod 4) with (y mod 4)
    by (Z.div_mod_to_equations; lia).
  replace ((y + 400 * q) mod 100) with (y mod 100)
    by (Z.div_mod_to_equations; lia).
  replace ((y + 400 * q) mod 400) with (y mod 400)
    by (Z.div_mod_to_equations; lia).
  done.
Qed.

Lemma days_in_month_shift y m q :
  days_in_month (y + 400 * q) m = days_in_month y m.
Proof. unfold days_in_month. by rewrite is_leap_shift. Qed.

Lemma next_day_shift q c : next_day (shift q c) = shift q (next_day c).
Proof.
  destruct c as [y m d]. unfold next_day, shift; simpl.
  rewrite days_in_month_shift.
  repeat case_match; simpl; f_equal; lia.
Qed.

Lemma valid_shift q c : valid c → valid (shift q c).
Proof.
  destruct c as [y m d]. unfold valid, shift; simpl.
  by rewrite days_in_month_shift.
Qed.

Lemma date_of_civil_shift q c :
  date_of_civil (shift q c) = date_of_civil c + cycle_days * q.
Proof.
  destruct c as [y m d]. unfold date_of_civil, shift; simpl.
  assert (days_before_month (y + 400 * q) m = days_before_month y m) as ->.
  { unfold days_before_month. by rewrite is_leap_shift. }
  unfold days_before_year, cycle_days.
  Z.div_mod_to_equations; lia.
Qed.

Lemma ymd_shift q c : ymd (shift q c) = ymd c + 4000000 * q.
Proof. destruct c as [y m d]. unfold ymd, shift; simpl. lia. Qed.

Lemma nth_day_succ k : nth_day (N.succ k) = next_day (nth_day k).
Proof. unfold nth_day. by rewrite N.iter_succ. Qed.

Lemma nth_day_spec k :
  valid (nth_day k) ∧ date_of_civil (nth_day k) = first_date + Z.of_N k.
Proof.
  induction k as [|k [IHv IHd]] using N.peano_ind.
  - split; [unfold valid|]; vm_compute; intuition congruence.
  - rewrite nth_day_succ. split; [by apply next_day_valid|].
    rewrite next_day_date, IHd by done. lia.
Qed.

Lemma nth_day_cycle : nth_day (Z.to_N (cycle_days - 1)) = Civil 400 12 31.
Proof. vm_compute. reflexivity. Qed.

Lemma civil_of_date_nth n :
  civil_of_date n =
  shift ((n - first_date) / cycle_days)
        (nth_day (Z.to_N ((n - first_date) mod cycle_days))).
Proof. reflexivity. Qed.

Lemma civil_of_date_succ n : civil_of_date (n + 1) = next_day (civil_of_date n).
Proof.
  rewrite !civil_of_date_nth.
  set (k := n - first_date). replace (n + 1 - first_date) with (k + 1) by lia.
  assert (0 ≤ k mod cycle_days < cycle_days) as Hr
    by (apply Z.mod_pos_bound; done).
  destruct (decide (k mod cycle_days = cycle_days - 1)) as [Hlast|Hne].
  - assert ((k + 1) mod cycle_days = 0 ∧ (k + 1) / cycle_days = k / cycle_days + 1)
      as [-> ->] by (unfold cycle_days in *; Z.div_mod_to_equations; lia).
    rewrite Hlast, nth_day_cycle.
    unfold shift, next_day; simpl. f_equal; lia.
  - assert ((k + 1) mod cycle_days = k mod cycle_days + 1
            ∧ (k + 1) / cycle_days = k / cycle_days)
      as [-> ->] by (unfold cycle_days in *; Z.div_mod_to_equations; lia).
    rewrite next_day_shift. f_equal.
    rewrite Z2N.inj_add by lia. change (Z.to_N 1) with 1%N.
    rewrite N.add_1_r. apply nth_day_succ.
Qed.

Lemma civil_of_date_valid n : valid (civil_of_date n).
Proof. rewrite civil_of_date_nth. apply valid_shift, nth_day_spec. Qed.

(** [civil_of_date] is the inverse of the closed form. *)
Lemma date_of_civil_of_date n : date_of_civil (civil_of_date n) = n.
Proof.
  rewrite civil_of_date_nth, date_of_civil_shift.
  destruct (nth_day_spec (Z.to_N ((n - first_date) mod cycle_days))) as [_ ->].
  assert (0 ≤ (n - first_date) mod cycle_days < cycle_days)
    by (apply Z.mod_pos_bound; done).
  rewrite Z2N.id by lia.
  unfold cycle_days in *. Z.div_mod_to_equations; lia.
Qed.

Lemma ymd_lt_succ n : ymd (civil_of_date n) < ymd (civil_of_date (n + 1)).
Proof. rewrite civil_of_date_succ. apply next_day_ymd, civil_of_date_valid. Qed.

Lemma ymd_strict_mono a b :
  a < b → ymd (civil_of_date a) < ymd (civil_of_date b).
Proof.
  intros Hab. replace b with (a + 1 + Z.of_nat (Z.to_nat (b - a - 1))) by lia.
  induction (Z.to_nat (b - a - 1)) as [|k IH].
  - rewrite Z.add_0_r. apply ymd_lt_succ.
  - etrans; [apply IH|].
    replace (a + 1 + Z.of_nat (S k)) with (a + 1 + Z.of_nat k + 1) by lia.
    apply ymd_lt_succ.
Qed.

Lemma ymd_mono_iff a b :
  a < b ↔ ymd (civil_of_date a) < ymd (civil_of_date b).
Proof.
  split; [apply ymd_strict_mono|]. intros H.
  destruct (Z.lt_trichotomy a b) as [?|[->|Hgt]]; [done|lia|].
  apply ymd_strict_mono in Hgt. lia.
Qed.

Lemma civil_of_first_date : civil_of_date first_date = Civil 1 1 1.
Proof. vm_compute. reflexivity. Qed.

Lemma civil_of_last_date : civil_of_date last_date = Civil 9999 12 31.
Proof. vm_compute. reflexivity. Qed.

Lemma civil_in_range n :
  first_date ≤ n ≤ last_date →
  1 ≤ year (civil_of_date n) ≤ 9999 ∧ 1 ≤ month (civil_of_date n) ≤ 12
  ∧ 1 ≤ day (civil_of_date n) ≤ 31.
Proof.
  intros [Hlo Hhi].
  pose proof (civil_of_date_valid n) as [Hm Hd].
  pose proof (days_in_month_bounds (year (civil_of_date n))
                (month (civil_of_date n))).
  assert (ymd (civil_of_date first_date) ≤ ymd (civil_of_date n)) as H1.
  { destruct (decide (first_date = n)) as [->|]; [apply Z.le_refl|].
    apply Z.lt_le_incl, ymd_strict_mono. lia. }
  assert (ymd (civil_of_date n) ≤ ymd (civil_of_date last_date)) as H2.
  { destruct (decide (n = last_date)) as [->|]; [apply Z.le_refl|].
    apply Z.lt_le_incl, ymd_strict_mono. lia. }
  rewrite civil_of_first_date in H1. rewrite civil_of_last_date in H2.
  unfold ymd in *; simpl in *. lia.
Qed.

End calendar_facts.

(** * The date key: rendering a date and reading it back *)

Section date_key.
Import Calendar.

Lemma digit_of_digit_char d : 0 ≤ d ≤ 9 → digit_of_char (digit_char d) = Some d.
Proof.
  intros Hd.
  assert (d = 0 ∨ d = 1 ∨ d = 2 ∨ d = 3 ∨ d = 4 ∨ d = 5 ∨ d = 6 ∨ d = 7
          ∨ d = 8 ∨ d = 9) as Hc by lia.
  repeat (destruct Hc as [-> | Hc]; [reflexivity|]). by subst.
Qed.

Lemma append_cons a s t : String a s +:+ t = String a (s +:+ t).
Proof. reflexivity. Qed.

Lemma parse_digits_zero_pad w n acc s :
  parse_digits acc (zero_pad w n +:+ s)
  = parse_digits (acc * 10 ^ Z.of_nat w + n mod 10 ^ Z.of_nat w) s.
Proof.
  revert acc. induction w as [|w IH]; intros acc.
  - simpl. rewrite Z.mod_1_r. f_equal. lia.
  - cbn [zero_pad]. rewrite append_cons. cbn [parse_digits].
    rewrite digit_of_digit_char
      by (pose proof (Z.mod_pos_bound (n / 10 ^ Z.of_nat w) 10); lia).
    cbn [mbind option_bind]. rewrite IH. f_equal.
    rewrite Nat2Z.inj_succ, Z.pow_succ_r by lia.
    rewrite (Z.mul_comm 10), Z.rem_mul_r by lia. lia.
Qed.

Lemma append_nil_r s : s +:+ "" = s.
Proof. induction s as [|a s IH]; [done|]. by rewrite append_cons, IH. Qed.

Lemma cast_varchar_integer_digits a s n :
  parse_digits 0 (String a s) = Some n → n ≤ 2147483647 →
  cast_varchar_integer (String a s) = Ok n.
Proof.
  intros Hp Hn. unfold cast_varchar_integer. rewrite Hp.
  by rewrite (proj2 (Z.leb_le _ _)).
Qed.

Lemma cast_strftime_Ymd n :
  first_date ≤ n ≤ last_date →
  cast_varchar_integer (strftime_Ymd n) = Ok (ymd (civil_of_date n)).
Proof.
  intros Hn. destruct (civil_in_range n Hn) as (Hy & Hm & Hd).
  unfold strftime_Ymd.
  set (c := civil_of_date n) in *.
  assert (parse_digits 0
            (zero_pad 4 (year c) +:+ zero_pad 2 (month c) +:+ zero_pad 2 (day c))
          = Some (ymd c)) as Hp.
  { rewrite <- (append_nil_r (zero_pad 2 (day c))).
    rewrite !parse_digits_zero_pad. cbn [parse_digits].
    change (Z.of_nat 4) with 4. change (Z.of_nat 2) with 2.
    rewrite (Z.mod_small (year c)), (Z.mod_small (month c)),
      (Z.mod_small (day c)) by lia.
    f_equal. unfold ymd. lia. }
  change (zero_pad 4 (year c) +:+ ?t)
    with (String (digit_char ((year c / 10 ^ 3) mod 10))
            (zero_pad 3 (year c) +:+ t)) in *.
  apply cast_varchar_integer_digits; [done|]. unfold ymd. lia.
Qed.

End date_key.

(** * Results, aggregates and joins *)

Section sql_facts.

Lemma mapM_Ok {A B : Type} (f : A → result B) (l : list A) (k : list B) :
  mapM f l = Ok k ↔ Forall2 (λ x y, f x = Ok y) l k.
Proof.
  revert k. induction l as [|x l IH]; intros k; simpl.
  - split; [intros [= <-]; constructor | by intros ->%Forall2_nil_inv_l].
  - split.
    + destruct (f x) as [y|e] eqn:Hx; simpl; [|done].
      destruct (mapM f l) as [k'|e] eqn:Hl; simpl; [|done].
      intros [= <-]. constructor; [done|]. by apply IH.
    + intros (y & k' & Hx & Hl & ->)%Forall2_cons_inv_l.
      rewrite Hx. simpl. apply IH in Hl. rewrite Hl. done.
Qed.

Lemma mapM_Ok_length {A B : Type} (f : A → result B) l k :
  mapM f l = Ok k → length k = length l.
Proof. intros Hk%mapM_Ok. symmetry. by eapply Forall2_length. Qed.

Lemma mapM_total {A B : Type} (f : A → result B) (l : list A) :
  (∀ x, x ∈ l → ∃ y, f x = Ok y) → ∃ k, mapM f l = Ok k.
Proof.
  induction l as [|x l IH]; intros Hf; simpl; [by eexists|].
  destruct (Hf x) as [y ->]; [left|]. simpl.
  destruct IH as [k ->]; [intros; apply Hf; by right|]. simpl. by eexists.
Qed.

Lemma sql_min_None l : sql_min l = None ↔ Forall (λ x, x = None) l.
Proof.
  induction l as [|[a|] l IH]; simpl.
  - split; [constructor|done].
  - split; [by destruct (sql_min l)|by inversion 1].
  - rewrite IH. split; [by constructor|by inversion 1].
Qed.

Lemma sql_max_None l : sql_max l = None ↔ Forall (λ x, x = None) l.
Proof.
  induction l as [|[a|] l IH]; simpl.
  - split; [constructor|done].
  - split; [by destruct (sql_max l)|by inversion 1].
  - rewrite IH. split; [by constructor|by inversion 1].
Qed.

Lemma sql_min_Some l m :
  sql_min l = Some m → Some m ∈ l ∧ ∀ x, Some x ∈ l → m ≤ x.
Proof.
  revert m. induction l as [|[a|] l IH]; simpl; intros m Hm; [done| |].
  - destruct (sql_min l) as [b|] eqn:Hl.
    + destruct (IH b eq_refl) as [Hin Hle]. injection Hm as <-. split.
      * destruct (Z.min_spec a b) as [[_ ->]|[_ ->]]; [left|by right].
      * intros x [[= <-]|Hx]%elem_of_cons; [lia|]. specialize (Hle x Hx). lia.
    + injection Hm as <-. split; [left|].
      apply sql_min_None in Hl. rewrite Forall_forall in Hl.
      intros x [[= <-]|Hx]%elem_of_cons; [lia|]. by apply Hl in Hx.
  - destruct (IH m Hm) as [Hin Hle]. split; [by right|].
    intros x [?|Hx]%elem_of_cons; [done|by apply Hle].
Qed.

Lemma sql_max_Some l m :
  sql_max l = Some m → Some m ∈ l ∧ ∀ x, Some x ∈ l → x ≤ m.
Proof.
  revert m. induction l as [|[a|] l IH]; simpl; intros m Hm; [done| |].
  - destruct (sql_max l) as [b|] eqn:Hl.
    + destruct (IH b eq_refl) as [Hin Hle]. injection Hm as <-. split.
      * destruct (Z.max_spec a b) as [[_ ->]|[_ ->]]; [by right|left].
      * intros x [[= <-]|Hx]%elem_of_cons; [lia|]. specialize (Hle x Hx). lia.
    + injection Hm as <-. split; [left|].
      apply sql_max_None in Hl. rewrite Forall_forall in Hl.
      intros x [[= <-]|Hx]%elem_of_cons; [lia|]. by apply Hl in Hx.
  - destruct (IH m Hm) as [Hin Hle]. split; [by right|].
    intros x [?|Hx]%elem_of_cons; [done|by apply Hle].
Qed.

Lemma sql_min_is_Some l d : Some d ∈ l → is_Some (sql_min l).
Proof.
  intros Hd. destruct (sql_min l) eqn:Hl; [by eexists|].
  apply sql_min_None in Hl. rewrite Forall_forall in Hl. by apply Hl in Hd.
Qed.

Lemma sql_max_is_Some l d : Some d ∈ l → is_Some (sql_max l).
Proof.
  intros Hd. destruct (sql_max l) eqn:Hl; [by eexists|].
  apply sql_max_None in Hl. rewrite Forall_forall in Hl. by apply Hl in Hd.
Qed.

End sql_facts.

(** * The calendar dimension *)

Section calendar_dimension.
Context `{Engine}.
Import Calendar.

Lemma dim_date_row_Date d r : Gold.dim_date_row d = Ok r → d_Date r = d.
Proof.
  unfold Gold.dim_date_row.
  destruct (cast_varchar_integer (strftime_Ymd d)); simpl; [|done].
  by intros [= <-].
Qed.

Lemma dim_date_row_in_range d :
  first_date ≤ d ≤ last_date →
  ∃ r, Gold.dim_date_row d = Ok r ∧ d_Date r = d
       ∧ d_DateKey r = ymd (civil_of_date d).
Proof.
  intros Hd. unfold Gold.dim_date_row. rewrite cast_strftime_Ymd by done.
  simpl. eexists. split; [done|]. done.
Qed.

(** The dates of the series, and the bounds they come from. *)
Lemma bounds_of_dates so lo hi :
  Gold.bounds so = (Some lo, Some hi) →
  lo ≤ hi ∧ Some lo ∈ so_Date <$> so ∧ Some hi ∈ so_Date <$> so
  ∧ ∀ d, Some d ∈ so_Date <$> so → lo ≤ d ≤ hi.
Proof.
  unfold Gold.bounds. intros [= Hlo Hhi].
  apply sql_min_Some in Hlo as [Hlo1 Hlo2].
  apply sql_max_Some in Hhi as [Hhi1 Hhi2].
  split; [by apply Hlo2|]. split; [done|]. split; [done|].
  intros d Hd. split; [by apply Hlo2|by apply Hhi2].
Qed.

Lemma bounds_defined so o d :
  o ∈ so → so_Date o = Some d →
  ∃ lo hi, Gold.bounds so = (Some lo, Some hi).
Proof.
  intros Ho Hd.
  assert (Some d ∈ so_Date <$> so) as Hin.
  { rewrite <- Hd. by apply list_elem_of_fmap_2. }
  destruct (sql_min_is_Some _ _ Hin) as [lo Hlo].
  destruct (sql_max_is_Some _ _ Hin) as [hi Hhi].
  exists lo, hi. unfold Gold.bounds. by rewrite Hlo, Hhi.
Qed.

Lemma bounds_undefined so :
  Forall (λ o, so_Date o = None) so → Gold.bounds so = (None, None).
Proof.
  intros Hso. unfold Gold.bounds.
  assert (Forall (λ x, x = None) (so_Date <$> so)) as Hn
    by (by apply Forall_fmap).
  by rewrite (proj2 (sql_min_None _) Hn), (proj2 (sql_max_None _) Hn).
Qed.

(** Rows that stand in date order are left as they are by [ORDER BY Date]. *)
Lemma order_by_date_sorted (ds : list Z) (rows : list dim_date) :
  Forall2 (λ d r, Gold.dim_date_row d = Ok r) ds rows →
  StronglySorted Z.le ds →
  merge_sort Gold.by_date rows = rows.
Proof.
  intros Hrows Hsorted.
  assert (d_Date <$> rows = ds) as Hdates.
  { induction Hrows as [|d r ds rows Hr _ IH]; [done|]. simpl.
    rewrite (dim_date_row_Date _ _ Hr). f_equal. apply IH.
    by apply StronglySorted_inv in Hsorted as [? _]. }
  assert (∀ r, r ∈ rows → Gold.dim_date_row (d_Date r) = Ok r) as Hdet.
  { intros r Hr. apply list_elem_of_lookup in Hr as [i Hi].
    destruct (Forall2_lookup_r _ _ _ _ _ Hrows Hi) as (d & _ & Hd).
    by rewrite (dim_date_row_Date _ _ Hd). }
  assert (Transitive Gold.by_date)
    by (intros ???; unfold Gold.by_date; lia).
  assert (Total Gold.by_date)
    by (intros ??; unfold Gold.by_date; lia).
  apply (Sorted_unique_strong Gold.by_date).
  - intros r1 r2 Hr1 Hr2 H12 H21. unfold Gold.by_date in *.
    rewrite merge_sort_Permutation in Hr1.
    apply Hdet in Hr1, Hr2.
    assert (d_Date r1 = d_Date r2) as Heq by lia.
    rewrite Heq in Hr1. congruence.
  - by apply Sorted_merge_sort.
  - apply StronglySorted_Sorted.
    rewrite <- Hdates in Hsorted. clear -Hsorted.
    induction rows as [|r rows IH]; [constructor|].
    rewrite fmap_cons in Hsorted.
    apply StronglySorted_inv in Hsorted as [Hs Hf].
    constructor; [by apply IH|].
    rewrite Forall_fmap in Hf. eapply Forall_impl; [exact Hf|done].
  - apply merge_sort_Permutation.
Qed.

Lemma StronglySorted_seqZ lo n : StronglySorted Z.le (seqZ lo n).
Proof.
  destruct (decide (n ≤ 0)) as [?|Hn]; [rewrite seqZ_nil by done; constructor|].
  replace n with (Z.of_nat (Z.to_nat n)) by lia.
  generalize (Z.to_nat n) as k. clear. intros k. revert lo.
  induction k as [|k IH]; intros lo; [rewrite seqZ_nil by done; constructor|].
  rewrite seqZ_cons by lia.
  replace (Z.pred (Z.of_nat (S k))) with (Z.of_nat k) by lia.
  constructor; [apply IH|].
  apply Forall_seqZ. lia.
Qed.

(** The statement of [create_gold_dim_date] on orders whose dates lie in the
    four-digit years: one row per day of the series, in date order. *)
Lemma select_gold_dim_date_rows so lo hi :
  Gold.bounds so = (Some lo, Some hi) → first_date ≤ lo → hi ≤ last_date →
  ∃ cal, Gold.select_gold_dim_date so = Ok cal
    ∧ Forall2 (λ d r, d_Date r = d ∧ d_DateKey r = ymd (civil_of_date d))
              (seqZ lo (hi - lo + 1)) cal.
Proof.
  intros Hb Hlo Hhi. unfold Gold.select_gold_dim_date, Gold.dates. rewrite Hb.
  destruct (mapM_total Gold.dim_date_row (seqZ lo (hi - lo + 1))) as [rows Hrows].
  { intros d Hd%elem_of_seqZ.
    destruct (dim_date_row_in_range d) as (r & ? & _); [lia|]. by exists r. }
  rewrite Hrows. simpl. eexists. split; [done|].
  apply mapM_Ok in Hrows.
  rewrite (order_by_date_sorted _ _ Hrows) by apply StronglySorted_seqZ.
  assert (Forall (λ d, first_date ≤ d ≤ last_date) (seqZ lo (hi - lo + 1)))
    as Hrange by (apply Forall_seqZ; lia).
  induction Hrows as [|d r ds rows Hr _ IH]; [constructor|].
  apply Forall_cons in Hrange as [Hd Hrange].
  constructor; [|by apply IH].
  destruct (dim_date_row_in_range d Hd) as (r' & Hr' & ? & ?).
  assert (r' = r) as -> by congruence. by split.
Qed.

Lemma select_gold_dim_date_no_dates so :
  Forall (λ o, so_Date o = None) so → Gold.select_gold_dim_date so = Ok [].
Proof.
  intros Hso. unfold Gold.select_gold_dim_date, Gold.dates.
  by rewrite bounds_undefined.
Qed.

End calendar_dimension.

(** * Running a builder *)

Ltac unfold_run :=
  unfold mbind, M_bind, bind, mret, M_ret, ret, raise, try_finally,
    try_except_invalid_input, Silver.log_row_count, Gold.log_row_count,
    Silver.log, Gold.log, print, emit, execute_reading, execute, fetch,
    connect, close, file_exists, database_exists; simpl.

Ltac unfold_run_in H :=
  unfold mbind, M_bind, bind, mret, M_ret, ret, raise, try_finally,
    try_except_invalid_input, Silver.log_row_count, Gold.log_row_count,
    Silver.log, Gold.log, print, emit, execute_reading, execute, fetch,
    connect, close, file_exists, database_exists in H; simpl in H.

Section builders.
Context `{Engine}.

Lemma gold_builder_run con w message stmt name db' t :
  connection w = Some con →
  stmt (default ∅ (databases w !! con)) = Ok db' →
  db' !! name = Some t →
  (Gold.log message ;; execute con stmt ;; Gold.log_row_count con name) w
  = (Returned (),
     World (files w) (<[con := db']> (databases w)) (Some con)
       ((history w ++ [Logged "gold" message])
        ++ [Logged "gold" ("row count for " +:+ name +:+ ": "
                           +:+ pretty (table_count t))])).
Proof.
  intros Hcon Hstmt Ht. unfold_run. rewrite Hcon.
  case_decide; [|done]. rewrite Hstmt. unfold_run.
  case_decide; [|done]. rewrite lookup_insert_eq. simpl.
  unfold count_rows. by rewrite Ht.
Qed.

Lemma gold_builder_fails con w message stmt name e :
  connection w = Some con →
  stmt (default ∅ (databases w !! con)) = Err e →
  (Gold.log message ;; execute con stmt ;; Gold.log_row_count con name) w
  = (Raised e,
     World (files w) (databases w) (Some con)
       (history w ++ [Logged "gold" message])).
Proof.
  intros Hcon Hstmt. unfold_run. rewrite Hcon.
  case_decide; [|done]. by rewrite Hstmt.
Qed.

Lemma silver_builder_run con w message stmt name db' t :
  connection w = Some con →
  stmt (default ∅ (databases w !! con)) = Ok db' →
  db' !! name = Some t →
  (Silver.log message ;; execute con stmt ;; Silver.log_row_count con name) w
  = (Returned (),
     World (files w) (<[con := db']> (databases w)) (Some con)
       ((history w ++ [Logged "SILVER" message])
        ++ [Logged "SILVER" ("Row count for " +:+ name +:+ ": "
                             +:+ pretty (table_count t))])).
Proof.
  intros Hcon Hstmt Ht. unfold_run. rewrite Hcon.
  case_decide; [|done]. rewrite Hstmt. unfold_run.
  case_decide; [|done]. rewrite lookup_insert_eq. simpl.
  unfold count_rows. by rewrite Ht.
Qed.

Lemma silver_builder_inv con w w' message stmt name :
  (Silver.log message ;; execute con stmt ;; Silver.log_row_count con name) w
  = (Returned (), w') →
  connection w = Some con
  ∧ ∃ db', stmt (default ∅ (databases w !! con)) = Ok db'
           ∧ databases w' = <[con := db']> (databases w).
Proof.
  unfold_run. case_decide as Hcon; [|done].
  destruct (stmt _) as [db'|e] eqn:Hstmt; [|done]. unfold_run.
  case_decide; [|done]. rewrite lookup_insert_eq. simpl.
  destruct (count_rows name db'); [|done]. intros [= <-]. simpl. eauto.
Qed.

End builders.

(** * The calendar dimension built by [create_gold_dim_date] *)

Section gold_dim_date.
Context `{Engine}.
Import Calendar.

Lemma create_gold_dim_date_stmt db so cal :
  db !! "silver_orders" = Some (OrdersT so) →
  Gold.select_gold_dim_date so = Ok cal →
  (so ← from_orders db "silver_orders" ;
   rows ← Gold.select_gold_dim_date so ;
   mret (<["gold_dim_date" := DimDateT rows]> db))
  = Ok (<["gold_dim_date" := DimDateT cal]> db).
Proof. intros Hso Hcal. unfold from_orders. rewrite Hso. simpl. by rewrite Hcal. Qed.

Lemma create_gold_dim_date_run con w db so cal :
  connection w = Some con →
  databases w !! con = Some db →
  db !! "silver_orders" = Some (OrdersT so) →
  Gold.select_gold_dim_date so = Ok cal →
  ∃ w', Gold.create_gold_dim_date con w = (Returned (), w')
        ∧ databases w' !! con = Some (<["gold_dim_date" := DimDateT cal]> db)
        ∧ connection w' = Some con.
Proof.
  intros Hcon Hdb Hso Hcal. unfold Gold.create_gold_dim_date.
  rewrite (gold_builder_run con w _ _ _
             (<["gold_dim_date" := DimDateT cal]> db) (DimDateT cal));
    [| done | | apply lookup_insert_eq].
  - eexists. split; [done|]. simpl. by rewrite lookup_insert_eq.
  - rewrite Hdb. simpl. by apply (create_gold_dim_date_stmt db so cal).
Qed.


End gold_dim_date.


(** Scenario B of the specification: orders from 2020-01-01 to 2020-01-03
    give the keys 20200101, 20200102, 20200103 and the right week days,
    the rows of [Example.calendar]. *)
Example gold_dim_date_scenario_B :
  Gold.select_gold_dim_date Example.orders
  = Ok Example.calendar.
Proof. vm_compute. reflexivity. Qed.

Section no_orders.
Context `{Engine}.

(** C5, as the code has it.  When no conformed order has a date, and so in
    particular when [silver_orders] has no row, [create_gold_dim_date]
    raises nothing: it returns, having created [gold_dim_date] with no
    row. *)
Theorem create_gold_dim_date_no_orders con w db so :
  connection w = Some con →
  databases w !! con = Some db →
  db !! "silver_orders" = Some (OrdersT so) →
  Forall (λ o, so_Date o = None) so →
  ∃ w', Gold.create_gold_dim_date con w = (Returned (), w')
        ∧ databases w' !! con = Some (<["gold_dim_date" := DimDateT []]> db).
Proof.
  intros Hcon Hdb Hso Hnone.
  destruct (create_gold_dim_date_run con w db so []) as (w' & Hrun & Hw' & _);
    [done..|by apply select_gold_dim_date_no_dates|]. eauto.
Qed.

End no_orders.

Lemma create_gold_dim_date_no_orders_witness :
  ∃ w', Gold.create_gold_dim_date (H := Demo.engine) Gold.DB_PATH
          Example.no_orders_world = (Returned (), w')
        ∧ databases w' !! Gold.DB_PATH
          = Some (<["gold_dim_date" := DimDateT []]> Example.no_orders_db).
Proof.
  apply (create_gold_dim_date_no_orders (H := Demo.engine) Gold.DB_PATH
           Example.no_orders_world Example.no_orders_db []).
  - reflexivity.
  - reflexivity.
  - reflexivity.
  - constructor.
Defined.

Lemma no_orders_world_returns :
  (Gold.create_gold_dim_date (H := Demo.engine) Gold.DB_PATH
     Example.no_orders_world).1 = Returned ().
Proof. vm_compute. reflexivity. Qed.

(** C5 as the specification states it fails: on a database whose
    [silver_orders] has zero rows, [create_gold_dim_date] raises no error. *)
Lemma create_gold_dim_date_no_orders_not_fatal :
  Example.no_orders_db !! "silver_orders" = Some (OrdersT [])
  ∧ ¬ ∃ e w', Gold.create_gold_dim_date (H := Demo.engine) Gold.DB_PATH
                Example.no_orders_world = (Raised e, w').
Proof.
  split; [reflexivity|].
  intros (e & w' & Hrun).
  pose proof no_orders_world_returns as Hok.
  rewrite Hrun in Hok. discriminate Hok.
Qed.

(** * Left joins *)

Lemma filter_none {A : Type} (P : A → Prop) `{∀ x, Decision (P x)} (l : list A) :
  Forall (λ x, ¬ P x) l → filter P l = [].
Proof.
  induction 1 as [|x l Hx _ IH]; [done|]. by rewrite filter_cons_False.
Qed.

Section left_joins.
Context {A B : Type}.
Implicit Types (on : A → B → bool) (l : list A) (r : list B).

Lemma left_join_nil on r : left_join on [] r = [].
Proof. reflexivity. Qed.

Lemma left_join_cons on a l r :
  left_join on (a :: l) r = join_group on a r ++ left_join on l r.
Proof. reflexivity. Qed.

Lemma join_group_no_match on a r :
  filter (λ b, on a b) r = [] → join_group on a r = [(a, None)].
Proof. unfold join_group. by intros ->. Qed.

Lemma join_group_matches on a r :
  filter (λ b, on a b) r ≠ [] →
  join_group on a r = (λ b, (a, Some b)) <$> filter (λ b, on a b) r.
Proof. unfold join_group. by destruct (filter _ r). Qed.

Lemma elem_of_join_group on a r j :
  j ∈ join_group on a r ↔ j.1 = a ∧ matched on a r j.2.
Proof.
  destruct j as [a' ob]. simpl.
  destruct (decide (filter (λ b, on a b) r = [])) as [Hf|Hf].
  - rewrite join_group_no_match, list_elem_of_singleton by done. split.
    + intros [= -> ->]. split; [done|]. simpl. apply Forall_forall.
      intros b Hb Hon. by eapply (filter_nil_not_elem_of _ r b).
    + intros [-> Hm]. destruct ob as [b|]; [|done]. destruct Hm as [Hb Hon].
      exfalso. by eapply (filter_nil_not_elem_of _ r b).
  - rewrite join_group_matches, list_elem_of_fmap by done. split.
    + intros (b' & [= -> ->] & Hb'). apply list_elem_of_filter in Hb'.
      split; [done|]. simpl. tauto.
    + intros [-> Hm]. destruct ob as [b'|]; simpl in Hm.
      * exists b'. split; [done|]. apply list_elem_of_filter. tauto.
      * exfalso. apply Hf. by apply filter_none.
Qed.

(** Every row of a left join is a left row with what it matches, and every
    left row is there. *)
Lemma elem_of_left_join on l r j :
  j ∈ left_join on l r ↔ j.1 ∈ l ∧ matched on j.1 r j.2.
Proof.
  induction l as [|a l IH].
  - rewrite left_join_nil. split; [by intros ?%elem_of_nil|].
    by intros [?%elem_of_nil _].
  - rewrite left_join_cons, elem_of_app, elem_of_join_group, IH, elem_of_cons.
    split.
    + intros [[<- Hm]|[Hl Hm]]; eauto.
    + intros [[Ha|Hl] Hm]; [left|right]; eauto. by rewrite <- Ha.
Qed.

Lemma join_group_nonempty on a r : join_group on a r ≠ [].
Proof.
  unfold join_group. destruct (filter _ r) as [|b ms]; [done|].
  rewrite fmap_cons. done.
Qed.

Lemma left_join_keeps on l r a : a ∈ l → ∃ ob, (a, ob) ∈ left_join on l r.
Proof.
  intros Ha. destruct (join_group on a r) as [|[a' ob] g] eqn:Hg.
  { by apply join_group_nonempty in Hg. }
  assert ((a', ob) ∈ join_group on a r) as Hin by (rewrite Hg; left).
  apply elem_of_join_group in Hin as [Ha' Hm]. simpl in *. subst a'.
  exists ob. apply elem_of_left_join. done.
Qed.

Lemma left_join_length_ge on l r :
  (length l ≤ length (left_join on l r))%nat.
Proof.
  induction l as [|a l IH]; [done|].
  rewrite left_join_cons, length_app. simpl.
  pose proof (join_group_nonempty on a r).
  destruct (join_group on a r); [done|]. simpl. lia.
Qed.

(** When every left row matches at most one right row, the join keeps the
    left rows one for one and in order. *)
Lemma left_join_at_most_one on l r :
  (∀ a, a ∈ l → (length (filter (λ b, on a b) r) ≤ 1)%nat) →
  Forall2 (λ a j, j.1 = a ∧ matched on a r j.2) l (left_join on l r).
Proof.
  induction l as [|a l IH]; intros Hone; [constructor|].
  rewrite left_join_cons.
  assert (∃ j, join_group on a r = [j]) as [j Hj].
  { unfold join_group. specialize (Hone a (list_elem_of_here _ _)).
    destruct (filter (λ b, on a b) r) as [|b [|b' ms]]; simpl in *;
      [by eexists..|lia]. }
  rewrite Hj. simpl. constructor.
  - apply elem_of_join_group. rewrite Hj. left.
  - apply IH. intros a' Ha'. apply Hone. by right.
Qed.

End left_joins.

Section unique_keys.
Context {A K : Type} `{EqDecision K}.

Lemma unique_key_matches (key : A → option K) (t : list A) (x : option K) :
  unique_key key t →
  (length (filter (λ b, sql_eq x (key b)) t) ≤ 1)%nat.
Proof.
  unfold unique_key. destruct x as [k|].
  2:{ intros _. rewrite filter_none; [simpl; lia|].
      apply Forall_forall. intros b _. simpl. tauto. }
  induction t as [|b t IH]; intros Hnd; [simpl; lia|].
  rewrite filter_cons. csimpl in Hnd.
  destruct (key b) as [k'|] eqn:Hb; csimpl in Hnd.
  - apply NoDup_cons in Hnd as [Hk' Hnd].
    case_decide as Heq; [|by apply IH].
    cbn [sql_eq] in Heq. apply bool_decide_unpack in Heq as ->.
    rewrite filter_none; [simpl; lia|].
    apply Forall_forall. intros b' Hb' Hon.
    apply Hk'. apply list_elem_of_omap. exists b'. split; [done|].
    unfold sql_eq in Hon. destruct (key b') as [k''|]; [|done].
    apply bool_decide_unpack in Hon. by subst.
  - rewrite decide_False by (simpl; tauto). by apply IH.
Qed.

End unique_keys.

(** * The conformed fact table *)

Lemma Forall2_compose {A B C : Type} (R : A → B → Prop) (S : B → C → Prop)
  (l : list A) (k : list B) (m : list C) :
  Forall2 R l k → Forall2 S k m → Forall2 (λ x z, ∃ y, R x y ∧ S y z) l m.
Proof.
  intros Hlk. revert m. induction Hlk as [|x y l k Hxy _ IH]; intros m Hkm.
  - apply Forall2_nil_inv_l in Hkm as ->. constructor.
  - apply Forall2_cons_inv_l in Hkm as (z & m' & Hyz & Hkm & ->).
    constructor; [by exists y|by apply IH].
Qed.

Section silver_fact_sales.
Context `{Engine}.

(** With unique keys on the four joined tables, the [FROM] clause keeps the
    sales one for one, each with what it matches. *)
Lemma fact_sales_join_unique ss so sc sp c :
  unique_key so_OrderId so → unique_key sc_CustomerId sc →
  unique_key sp_ProductId sp → unique_key c_Country c →
  Forall2 (λ s j, ∃ o cu p co,
      j = (s, o, cu, p, co)
      ∧ matched (λ s o, sql_eq (ss_OrderId s) (so_OrderId o)) s so o
      ∧ matched (λ o cu, sql_eq (o ≫= so_CustomerId) (sc_CustomerId cu)) o sc cu
      ∧ matched (λ s p, sql_eq (ss_ProductId s) (sp_ProductId p)) s sp p
      ∧ matched (λ cu co, sql_eq (cu ≫= sc_Country) (c_Country co)) cu c co)
    ss (Silver.fact_sales_join ss so sc sp c).
Proof.
  intros Hso Hsc Hsp Hc. unfold Silver.fact_sales_join.
  set (j1 := left_join _ ss so).
  set (j2 := left_join _ j1 sc).
  set (j3 := left_join _ j2 sp).
  pose proof (left_join_at_most_one
                (λ s o, sql_eq (ss_OrderId s) (so_OrderId o)) ss so
                (λ s _, unique_key_matches so_OrderId so (ss_OrderId s) Hso))
    as H1.
  pose proof (left_join_at_most_one
                (λ (j : sale * option order) cu,
                   sql_eq (j.2 ≫= so_CustomerId) (sc_CustomerId cu)) j1 sc
                (λ j _, unique_key_matches sc_CustomerId sc
                          (j.2 ≫= so_CustomerId) Hsc))
    as H2.
  pose proof (left_join_at_most_one
                (λ (j : sale * option order * option customer) p,
                   sql_eq (ss_ProductId j.1.1) (sp_ProductId p)) j2 sp
                (λ j _, unique_key_matches sp_ProductId sp
                          (ss_ProductId j.1.1) Hsp))
    as H3.
  pose proof (left_join_at_most_one
                (λ (j : sale * option order * option customer
                        * option product) co,
                   sql_eq (j.1.2 ≫= sc_Country) (c_Country co)) j3 c
                (λ j _, unique_key_matches c_Country c
                          (j.1.2 ≫= sc_Country) Hc))
    as H4.
  pose proof (Forall2_compose _ _ _ _ _
                (Forall2_compose _ _ _ _ _
                   (Forall2_compose _ _ _ _ _ H1 H2) H3) H4) as Hall.
  eapply Forall2_impl; [exact Hall|]. clear.
  intros s [[[[s4 o] cu] p] co]
    ([[[s3 o3] cu3] p3] & ([[s2 o2] cu2] & ([s1 o1] & [Hs1 Ho] & [Hj1 Hcu])
                           & [Hj2 Hp]) & [Hj3 Hco]).
  simpl in *. simplify_eq. eexists _, _, _, _. split; [reflexivity|done].
Qed.

Lemma create_silver_fact_sales_stmt db ss so sc sp c :
  db !! "silver_sales" = Some (SalesT ss) →
  db !! "silver_orders" = Some (OrdersT so) →
  db !! "silver_customers" = Some (CustomersT sc) →
  db !! "silver_products" = Some (ProductsT sp) →
  db !! "silver_countries" = Some (CountriesT c) →
  (ss ← from_sales db "silver_sales" ;
   so ← from_orders db "silver_orders" ;
   sc ← from_customers db "silver_customers" ;
   sp ← from_products db "silver_products" ;
   c ← from_countries db "silver_countries" ;
   mret (<["silver_fact_sales" :=
             FactSalesT (Silver.select_silver_fact_sales ss so sc sp c)]> db))
  = Ok (<["silver_fact_sales" :=
            FactSalesT (Silver.select_silver_fact_sales ss so sc sp c)]> db).
Proof.
  intros Hss Hso Hsc Hsp Hc.
  unfold from_sales, from_orders, from_customers, from_products, from_countries.
  by rewrite Hss, Hso, Hsc, Hsp, Hc.
Qed.

Lemma create_silver_fact_sales_run con w db ss so sc sp c :
  connection w = Some con →
  databases w !! con = Some db →
  db !! "silver_sales" = Some (SalesT ss) →
  db !! "silver_orders" = Some (OrdersT so) →
  db !! "silver_customers" = Some (CustomersT sc) →
  db !! "silver_products" = Some (ProductsT sp) →
  db !! "silver_countries" = Some (CountriesT c) →
  ∃ w', Silver.create_silver_fact_sales con w = (Returned (), w')
        ∧ databases w' !! con
          = Some (<["silver_fact_sales" :=
                FactSalesT (Silver.select_silver_fact_sales ss so sc sp c)]> db)
        ∧ connection w' = Some con.
Proof.
  intros Hcon Hdb Hss Hso Hsc Hsp Hc. unfold Silver.create_silver_fact_sales.
  rewrite (silver_builder_run con w _ _ _
             (<["silver_fact_sales" :=
                FactSalesT (Silver.select_silver_fact_sales ss so sc sp c)]> db)
             (FactSalesT (Silver.select_silver_fact_sales ss so sc sp c)));
    [| done | | apply lookup_insert_eq].
  - eexists. split; [done|]. simpl. by rewrite lookup_insert_eq.
  - rewrite Hdb. simpl. by apply create_silver_fact_sales_stmt.
Qed.

(** C2.  When [OrderId], [CustomerId], [ProductId] and [Country] are unique
    on [silver_orders], [silver_customers], [silver_products] and
    [silver_countries], [create_silver_fact_sales] creates a table with as
    many rows as [silver_sales]: the rows stand one for one, in order, for
    the sales, and each carries the order, customer, product and country its
    sale matches, or NULLs where nothing matches. *)
Theorem create_silver_fact_sales_row_count con w db ss so sc sp c :
  connection w = Some con →
  databases w !! con = Some db →
  db !! "silver_sales" = Some (SalesT ss) →
  db !! "silver_orders" = Some (OrdersT so) →
  db !! "silver_customers" = Some (CustomersT sc) →
  db !! "silver_products" = Some (ProductsT sp) →
  db !! "silver_countries" = Some (CountriesT c) →
  unique_key so_OrderId so → unique_key sc_CustomerId sc →
  unique_key sp_ProductId sp → unique_key c_Country c →
  ∃ fact w',
    Silver.create_silver_fact_sales con w = (Returned (), w')
    ∧ databases w' !! con
      = Some (<["silver_fact_sales" := FactSalesT fact]> db)
    ∧ sql_count fact = sql_count ss
    ∧ Forall2 (λ s f, ∃ o cu p co,
          f = Silver.fact_sales_row (s, o, cu, p, co)
          ∧ f_SaleId f = ss_SaleId s ∧ f_Quantity f = ss_Quantity s
          ∧ matched (λ s o, sql_eq (ss_OrderId s) (so_OrderId o)) s so o
          ∧ matched (λ o cu, sql_eq (o ≫= so_CustomerId) (sc_CustomerId cu))
                    o sc cu
          ∧ matched (λ s p, sql_eq (ss_ProductId s) (sp_ProductId p)) s sp p
          ∧ matched (λ cu co, sql_eq (cu ≫= sc_Country) (c_Country co))
                    cu c co)
        ss fact.
Proof.
  intros Hcon Hdb Hss Hso Hsc Hsp Hc Uso Usc Usp Uc.
  destruct (create_silver_fact_sales_run con w db ss so sc sp c)
    as (w' & Hrun & Hw' & _); [done..|].
  pose proof (fact_sales_join_unique ss so sc sp c Uso Usc Usp Uc) as Hjoin.
  exists (Silver.select_silver_fact_sales ss so sc sp c), w'.
  assert (Forall2 (λ s f, ∃ o cu p co,
            f = Silver.fact_sales_row (s, o, cu, p, co)
            ∧ f_SaleId f = ss_SaleId s ∧ f_Quantity f = ss_Quantity s
            ∧ matched (λ s o, sql_eq (ss_OrderId s) (so_OrderId o)) s so o
            ∧ matched (λ o cu, sql_eq (o ≫= so_CustomerId) (sc_CustomerId cu))
                      o sc cu
            ∧ matched (λ s p, sql_eq (ss_ProductId s) (sp_ProductId p)) s sp p
            ∧ matched (λ cu co, sql_eq (cu ≫= sc_Country) (c_Country co))
                      cu c co)
          ss (Silver.select_silver_fact_sales ss so sc sp c)) as Hrows.
  { unfold Silver.select_silver_fact_sales. apply Forall2_fmap_r.
    eapply Forall2_impl; [exact Hjoin|].
    intros s j (o & cu & p & co & -> & ? & ? & ? & ?).
    exists o, cu, p, co. done. }
  split_and!; [done..| |done].
  unfold sql_count. f_equal. symmetry. by eapply Forall2_length.
Qed.

End silver_fact_sales.

Lemma create_silver_fact_sales_row_count_witness :
  ∃ fact w',
    Silver.create_silver_fact_sales (H := Demo.engine) Gold.DB_PATH
      Example.silver_world = (Returned (), w')
    ∧ databases w' !! Gold.DB_PATH
      = Some (<["silver_fact_sales" := FactSalesT fact]> Example.silver_db)
    ∧ sql_count fact = sql_count Example.sales
    ∧ Forall2 (λ s f, ∃ o cu p co,
          f = Silver.fact_sales_row (s, o, cu, p, co)
          ∧ f_SaleId f = ss_SaleId s ∧ f_Quantity f = ss_Quantity s
          ∧ matched (λ s o, sql_eq (ss_OrderId s) (so_OrderId o))
                    s Example.orders o
          ∧ matched (λ o cu, sql_eq (o ≫= so_CustomerId) (sc_CustomerId cu))
                    o Example.customers cu
          ∧ matched (λ s p, sql_eq (ss_ProductId s) (sp_ProductId p))
                    s Example.products p
          ∧ matched (λ cu co, sql_eq (cu ≫= sc_Country) (c_Country co))
                    cu Example.countries co)
        Example.sales fact.
Proof.
  apply (create_silver_fact_sales_row_count (H := Demo.engine) Gold.DB_PATH
           Example.silver_world Example.silver_db Example.sales Example.orders
           Example.customers Example.products Example.countries);
    try reflexivity;
    unfold unique_key; apply (bool_decide_unpack _); vm_compute; exact I.
Defined.

(** Scenario C of the specification: the sale that names order 99, which
    does not exist, is counted once among the sales with a missing order,
    and stays in the fact table, with NULL order, date and customer. *)
Example silver_fact_sales_scenario_C :
  Silver.select_silver_fact_sales (H := Demo.engine) Example.sales
    Example.orders Example.customers Example.products Example.countries
    !! 2%nat
  = Some (FactSale (Some 102) None None None None None None None
                   (Some 7) (Some "Widget") (Some "Norway") None None).
Proof. reflexivity. Qed.

(** * The dimensional fact table *)

Section gold_fact_sales.
Context `{Engine}.
Import Calendar.

Lemma create_gold_fact_sales_run con w db f d p :
  connection w = Some con →
  databases w !! con = Some db →
  db !! "silver_fact_sales" = Some (FactSalesT f) →
  db !! "gold_dim_date" = Some (DimDateT d) →
  db !! "silver_products" = Some (ProductsT p) →
  ∃ w', Gold.create_gold_fact_sales con w = (Returned (), w')
        ∧ databases w' !! con
          = Some (<["gold_fact_sales" :=
                      GoldFactT (Gold.select_gold_fact_sales f d p)]> db)
        ∧ connection w' = Some con.
Proof.
  intros Hcon Hdb Hf Hd Hp. unfold Gold.create_gold_fact_sales.
  rewrite (gold_builder_run con w _ _ _
             (<["gold_fact_sales" :=
                  GoldFactT (Gold.select_gold_fact_sales f d p)]> db)
             (GoldFactT (Gold.select_gold_fact_sales f d p)));
    [| done | | apply lookup_insert_eq].
  - eexists. split; [done|]. simpl. by rewrite lookup_insert_eq.
  - rewrite Hdb. simpl. unfold from_fact_sales, from_dim_date, from_products.
    by rewrite Hf, Hd, Hp.
Qed.

(** C6.  In every row of the table [create_gold_fact_sales] creates,
    [TotalWeightGrams] is the product of [Quantity] and [WeightGrams] when
    both are there, and NULL when either is NULL. *)
Theorem create_gold_fact_sales_total_weight con w db f d p :
  connection w = Some con →
  databases w !! con = Some db →
  db !! "silver_fact_sales" = Some (FactSalesT f) →
  db !! "gold_dim_date" = Some (DimDateT d) →
  db !! "silver_products" = Some (ProductsT p) →
  ∃ rows w',
    Gold.create_gold_fact_sales con w = (Returned (), w')
    ∧ databases w' !! con = Some (<["gold_fact_sales" := GoldFactT rows]> db)
    ∧ ∀ g, g ∈ rows →
        match g_Quantity g, g_WeightGrams g with
        | Some quantity, Some weight =>
            g_TotalWeightGrams g = Some (dmul quantity weight)
        | _, _ => g_TotalWeightGrams g = None
        end.
Proof.
  intros Hcon Hdb Hf Hd Hp.
  destruct (create_gold_fact_sales_run con w db f d p)
    as (w' & Hrun & Hw' & _); [done..|].
  exists (Gold.select_gold_fact_sales f d p), w'. split_and!; [done..|].
  intros g ([[f0 d0] p0] & -> & _)%list_elem_of_fmap. simpl.
  unfold sql_mul. by destruct (f_Quantity f0), (p0 ≫= sp_WeightGrams).
Qed.

(** Every date of the conformed fact table is the date of an order. *)
Lemma fact_sales_OrderDate ss so sc sp c f d :
  f ∈ Silver.select_silver_fact_sales ss so sc sp c →
  f_OrderDate f = Some d → Some d ∈ so_Date <$> so.
Proof.
  unfold Silver.select_silver_fact_sales, Silver.fact_sales_join.
  intros ([[[[s o] cu] p] co] & -> & Hj)%list_elem_of_fmap. simpl.
  apply elem_of_left_join in Hj as [Hj _]. simpl in Hj.
  apply elem_of_left_join in Hj as [Hj _]. simpl in Hj.
  apply elem_of_left_join in Hj as [Hj _]. simpl in Hj.
  apply elem_of_left_join in Hj as [_ Ho]. simpl in Ho.
  destruct o as [o|]; [|done]. destruct Ho as [Ho _]. simpl. intros <-.
  by apply list_elem_of_fmap_2.
Qed.


End gold_fact_sales.

Lemma create_gold_fact_sales_total_weight_witness :
  ∃ rows w',
    Gold.create_gold_fact_sales (H := Demo.engine) Gold.DB_PATH
      Example.calendar_world = (Returned (), w')
    ∧ databases w' !! Gold.DB_PATH
      = Some (<["gold_fact_sales" := GoldFactT rows]> Example.calendar_db)
    ∧ ∀ g, g ∈ rows →
        match g_Quantity g, g_WeightGrams g with
        | Some quantity, Some weight =>
            g_TotalWeightGrams g
            = Some (dmul (Engine := Demo.engine) quantity weight)
        | _, _ => g_TotalWeightGrams g = None
        end.
Proof.
  apply (create_gold_fact_sales_total_weight (H := Demo.engine) Gold.DB_PATH
           Example.calendar_world Example.calendar_db
           (Silver.select_silver_fact_sales Example.sales Example.orders
              Example.customers Example.products Example.countries)
           Example.calendar Example.products); reflexivity.
Defined.

Example gold_fact_sales_rows :
  Gold.select_gold_fact_sales (H := Demo.engine)
    (Silver.select_silver_fact_sales Example.sales Example.orders
       Example.customers Example.products Example.countries)
    Example.calendar Example.products
  = Example.gold_facts.
Proof. reflexivity. Qed.


(** * The referential-integrity counts *)

Section unmatched_rows.
Context {A B K : Type} `{EqDecision K}.

(** The rows of a left join whose right-hand key is NULL are the left rows
    that nothing matches, one for one. *)
Lemma left_join_unmatched (on : A → B → bool) (key : B → option K)
  (l : list A) (r : list B) :
  (∀ a b, on a b → is_Some (key b)) →
  length (filter (λ j, j.2 ≫= key = None) (left_join on l r))
  = length (filter (λ a, Forall (λ b, ¬ on a b) r) l).
Proof.
  intros Hkey. induction l as [|a l IH]; [done|].
  rewrite left_join_cons, filter_app, length_app, IH, filter_cons.
  destruct (decide (filter (λ b, on a b) r = [])) as [Hf|Hf].
  - rewrite join_group_no_match by done.
    rewrite filter_cons_True, filter_nil by done.
    rewrite decide_True; [done|].
    apply Forall_forall. intros b Hb Hon.
    by eapply (filter_nil_not_elem_of _ r b).
  - rewrite join_group_matches by done.
    rewrite filter_none.
    + rewrite decide_False; [done|]. intros Hall. apply Hf.
      by apply filter_none.
    + apply Forall_fmap, Forall_forall. intros b Hb. simpl.
      apply list_elem_of_filter in Hb as [Hon _].
      destruct (Hkey a b Hon) as [k ->]. simpl. done.
Qed.

Lemma sql_eq_is_Some (x y : option K) : sql_eq x y → is_Some x ∧ is_Some y.
Proof. destruct x, y; simpl; intros ?; try done; split; eauto. Qed.

Lemma sql_eq_iff (x y : option K) : sql_eq x y ↔ is_Some x ∧ x = y.
Proof.
  destruct x as [a|], y as [b|]; simpl;
    try (split; [done|by intros [[? [=]] ?] || by intros [_ [=]]]).
  rewrite bool_decide_spec. split; [intros ->; eauto|by intros [_ [= ->]]].
Qed.

(** The count of a check is the number of dangling rows. *)
Lemma count_dangling (fk : A → option K) (pk : B → option K)
  (l : list A) (r : list B) :
  sql_count
    (filter (λ j, j.2 ≫= pk = None)
       (left_join (λ a b, sql_eq (fk a) (pk b)) l r))
  = sql_count (dangling fk pk l r).
Proof.
  unfold sql_count, dangling. f_equal.
  rewrite (left_join_unmatched _ pk)
    by (intros a b Hon; apply sql_eq_is_Some in Hon; tauto).
  f_equal. apply list_filter_iff. intros a.
  rewrite !Forall_forall. split.
  - intros Hall. destruct (fk a) as [k|] eqn:Hk; [right|by left].
    intros b Hb Heq. apply (Hall b Hb). apply sql_eq_iff. by rewrite Heq.
  - intros [Hnone|Hall] b Hb Hon; apply sql_eq_iff in Hon as [[k Hk] Heq].
    + by rewrite Hnone in Hk.
    + by apply (Hall b Hb).
Qed.

End unmatched_rows.

Section quality_checks.
Context `{Engine}.

Lemma missing_customers_dangling so sc :
  Silver.missing_customers so sc
  = sql_count (dangling so_CustomerId sc_CustomerId so sc).
Proof. apply count_dangling. Qed.

Lemma missing_orders_dangling ss so :
  Silver.missing_orders ss so = sql_count (dangling ss_OrderId so_OrderId ss so).
Proof. apply count_dangling. Qed.

Lemma missing_products_dangling ss sp :
  Silver.missing_products ss sp
  = sql_count (dangling ss_ProductId sp_ProductId ss sp).
Proof. apply count_dangling. Qed.

(** C10.  The three counts [run_quality_checks] logs are the numbers of
    dangling rows: the orders whose [CustomerId] is NULL or is the id of no
    customer, and the sales whose [OrderId] (or [ProductId]) is NULL or is
    the id of no order (or product).  A row with a NULL foreign key is
    always one of them. *)
Theorem run_quality_checks_counts con w db ss so sc sp :
  connection w = Some con →
  databases w !! con = Some db →
  db !! "silver_sales" = Some (SalesT ss) →
  db !! "silver_orders" = Some (OrdersT so) →
  db !! "silver_customers" = Some (CustomersT sc) →
  db !! "silver_products" = Some (ProductsT sp) →
  Silver.run_quality_checks con w
  = (Returned (),
     World (files w) (databases w) (connection w)
       (history w ++
        [Logged "SILVER" "Running simple data quality checks...";
         Logged "SILVER"
           ("Orders with missing customers: "
            +:+ pretty (sql_count (dangling so_CustomerId sc_CustomerId so sc)));
         Logged "SILVER"
           ("Sales with missing orders: "
            +:+ pretty (sql_count (dangling ss_OrderId so_OrderId ss so)));
         Logged "SILVER"
           ("Sales with missing products: "
            +:+ pretty (sql_count (dangling ss_ProductId sp_ProductId ss sp)))]))
  ∧ (∀ o, o ∈ so → so_CustomerId o = None →
       o ∈ dangling so_CustomerId sc_CustomerId so sc)
  ∧ (∀ s, s ∈ ss → ss_OrderId s = None →
       s ∈ dangling ss_OrderId so_OrderId ss so)
  ∧ (∀ s, s ∈ ss → ss_ProductId s = None →
       s ∈ dangling ss_ProductId sp_ProductId ss sp)
  ∧ (∀ s k, s ∈ ss → ss_OrderId s = Some k →
       (s ∈ dangling ss_OrderId so_OrderId ss so
        ↔ ∀ o, o ∈ so → so_OrderId o ≠ Some k)).
Proof.
  intros Hcon Hdb Hss Hso Hsc Hsp. split_and!.
  - rewrite <- missing_customers_dangling, <- missing_orders_dangling,
      <- missing_products_dangling.
    unfold Silver.run_quality_checks. unfold_run.
    unfold from_sales, from_orders, from_customers, from_products.
    repeat first [ rewrite Hcon | rewrite Hdb | rewrite Hss | rewrite Hso
                 | rewrite Hsc | rewrite Hsp | case_decide; [|done]
                 | progress simpl ].
    by rewrite <- !app_assoc.
  - intros o Ho Hnone. apply list_elem_of_filter. split; [by left|done].
  - intros s Hs Hnone. apply list_elem_of_filter. split; [by left|done].
  - intros s Hs Hnone. apply list_elem_of_filter. split; [by left|done].
  - intros s k Hs Hk. unfold dangling. rewrite list_elem_of_filter, Hk.
    rewrite Forall_forall. split; [intros [[[=]|?] _]; done|]. eauto.
Qed.

End quality_checks.

Lemma run_quality_checks_counts_witness :
  Silver.run_quality_checks (H := Demo.engine) Gold.DB_PATH Example.silver_world
  = (Returned (),
     World (files Example.silver_world) (databases Example.silver_world)
       (connection Example.silver_world)
       (history Example.silver_world ++
        [Logged "SILVER" "Running simple data quality checks...";
         Logged "SILVER"
           ("Orders with missing customers: "
            +:+ pretty (sql_count (dangling so_CustomerId sc_CustomerId
                                     Example.orders Example.customers)));
         Logged "SILVER"
           ("Sales with missing orders: "
            +:+ pretty (sql_count (dangling ss_OrderId so_OrderId
                                     Example.sales Example.orders)));
         Logged "SILVER"
           ("Sales with missing products: "
            +:+ pretty (sql_count (dangling ss_ProductId sp_ProductId
                                     Example.sales Example.products)))]))
  ∧ (∀ o, o ∈ Example.orders → so_CustomerId o = None →
       o ∈ dangling so_CustomerId sc_CustomerId Example.orders
             Example.customers)
  ∧ (∀ s, s ∈ Example.sales → ss_OrderId s = None →
       s ∈ dangling ss_OrderId so_OrderId Example.sales Example.orders)
  ∧ (∀ s, s ∈ Example.sales → ss_ProductId s = None →
       s ∈ dangling ss_ProductId sp_ProductId Example.sales Example.products)
  ∧ (∀ s k, s ∈ Example.sales → ss_OrderId s = Some k →
       (s ∈ dangling ss_OrderId so_OrderId Example.sales Example.orders
        ↔ ∀ o, o ∈ Example.orders → so_OrderId o ≠ Some k)).
Proof.
  apply (run_quality_checks_counts (H := Demo.engine) Gold.DB_PATH
           Example.silver_world Example.silver_db Example.sales Example.orders
           Example.customers Example.products); reflexivity.
Defined.

(** On the example: the order without a customer; the sale of order 99 and
    the sale without an order; the sale without a product. *)
Example quality_checks_example :
  Silver.missing_customers Example.orders Example.customers = 1
  ∧ Silver.missing_orders Example.sales Example.orders = 2
  ∧ Silver.missing_products Example.sales Example.products = 1.
Proof. split_and!; reflexivity. Qed.

(** * The conformed tables against the bronze tables *)

Lemma length_filter_split {A : Type} (P : A → Prop) `{∀ x, Decision (P x)}
  (l : list A) :
  (length (filter (λ x, ¬ P x) l) + length (filter P l) = length l)%nat.
Proof.
  induction l as [|x l IH]; [done|]. rewrite !filter_cons.
  destruct (decide (P x)) as [Hx|Hx].
  - rewrite decide_False by tauto. simpl. lia.
  - rewrite decide_True by done. simpl. lia.
Qed.

Section conformance.
Context `{Engine}.

(** A cast gives NULL for NULL only. *)
Lemma cast_null_iff {A : Type} (conv : bval → option A) type_name v :
  cast conv type_name v = Ok None ↔ v = None.
Proof.
  unfold cast. destruct v as [x|]; [|done].
  split; [|done]. by destruct (conv x).
Qed.

Lemma select_conformed {S K : Type} `{EqDecision K} (columns : list string)
  (id type_name : string) (conv : bval → option K)
  (row : gmap string bval → result S) (bt : bronze_table bval) (l : list S) :
  (require_columns bt columns ;;
   mapM row (filter (λ r, is_Some (r !! id)) (bt_rows bt))) = Ok l →
  conformed id (cast conv type_name) row (bt_rows bt) l.
Proof.
  intros Hsel. destruct (require_columns bt columns); [|done]. simpl in Hsel.
  assert (filter (λ r, is_Some (r !! id)) (bt_rows bt)
          = filter (λ r, ¬ null_id (cast conv type_name) id r) (bt_rows bt))
    as Hfilter.
  { apply list_filter_iff. intros r. unfold null_id.
    rewrite cast_null_iff. by rewrite <- not_eq_None_Some. }
  rewrite Hfilter in Hsel. apply mapM_Ok in Hsel.
  pose proof (Forall2_length _ _ _ Hsel) as Hlen.
  pose proof (length_filter_split (null_id (cast conv type_name) id)
                (bt_rows bt)) as Hsplit.
  unfold conformed. split_and!; [done|lia|lia|].
  intros Hall. rewrite <- Hlen. f_equal.
  clear -Hall. induction Hall as [|r rows Hr _ IH]; [done|].
  rewrite filter_cons_True; [by rewrite IH|].
  unfold null_id. by rewrite cast_null_iff.
Qed.

(** What a run of a builder that returns tells. *)
Lemma silver_entity_inv {S : Type} con w w' db message bronze_name silver_name
  (select : bronze_table bval → result (list S)) (wrap : list S → table) :
  databases w !! con = Some db →
  (Silver.log message ;;
   execute con (λ db,
     bt ← from_bronze db bronze_name ;
     rows ← select bt ;
     mret (<[silver_name := wrap rows]> db)) ;;
   Silver.log_row_count con silver_name) w = (Returned (), w') →
  ∃ bt l, db !! bronze_name = Some (BronzeT bt)
          ∧ select bt = Ok l
          ∧ databases w' !! con = Some (<[silver_name := wrap l]> db).
Proof.
  intros Hdb (_ & db' & Hstmt & ->)%silver_builder_inv.
  rewrite Hdb in Hstmt. simpl in Hstmt. unfold from_bronze in Hstmt.
  destruct (db !! bronze_name) as [[bt| | | | | | | | | | |]|] eqn:Hbt;
    try done.
  simpl in Hstmt. destruct (select bt) as [l|] eqn:Hl; [|done].
  injection Hstmt as <-. exists bt, l. by rewrite lookup_insert_eq.
Qed.


End conformance.


(** On the example every builder returns.  The customer without an id is
    left out (scenario A of the specification: one row, [CustomerId] 1), and
    so is the sale without an id; the other tables keep all their rows. *)
Example silver_builders_return :
  (Silver.create_silver_customers (H := Demo.engine) Silver.DB_PATH
     Example.bronze_world).1 = Returned ()
  ∧ (Silver.create_silver_products (H := Demo.engine) Silver.DB_PATH
       Example.bronze_world).1 = Returned ()
  ∧ (Silver.create_silver_orders (H := Demo.engine) Silver.DB_PATH
       Example.bronze_world).1 = Returned ()
  ∧ (Silver.create_silver_sales (H := Demo.engine) Silver.DB_PATH
       Example.bronze_world).1 = Returned ()
  ∧ (Silver.create_silver_countries (H := Demo.engine) Silver.DB_PATH
       Example.bronze_world).1 = Returned ().
Proof. split_and!; vm_compute; reflexivity. Qed.

Example silver_customers_scenario_A :
  Silver.select_silver_customers (H := Demo.engine) Example.bronze_customers
  = Ok [Customer (Some 1) (Some true) (Some "A") None None None None].
Proof. vm_compute. reflexivity. Qed.

Example silver_orders_example :
  Silver.select_silver_orders (H := Demo.engine) Example.bronze_orders
  = Ok [Order (Some 1) (Some 1) (Some 18262); Order (Some 2) None (Some 18264)].
Proof. vm_compute. reflexivity. Qed.

Example silver_sales_example :
  length <$> Silver.select_silver_sales (H := Demo.engine) Example.bronze_sales
  = Ok 2%nat.
Proof. vm_compute. reflexivity. Qed.

(** * The repair pass *)

Section repair.
Import PyStr.

Lemma universal_newlines_id s :
  Forall (λ c, c ≠ 13%N) s → universal_newlines s = s.
Proof.
  induction 1 as [|c s Hc _ IH]; [done|]. simpl.
  rewrite (proj2 (N.eqb_neq c 13) Hc). by rewrite IH.
Qed.

Lemma readlines_line l rest :
  Forall (λ c, c ≠ 10%N) l →
  readlines (l ++ 10%N :: rest) = ended l :: readlines rest.
Proof.
  unfold ended. induction 1 as [|c l Hc _ IH]; [done|]. simpl.
  rewrite (proj2 (N.eqb_neq c 10) Hc). by rewrite IH.
Qed.

Lemma readlines_last l :
  l ≠ [] → Forall (λ c, c ≠ 10%N) l → readlines l = [l].
Proof.
  intros Hne Hl. induction Hl as [|c l Hc Hl IH]; [done|]. simpl.
  rewrite (proj2 (N.eqb_neq c 10) Hc).
  destruct l as [|d l]; [done|]. by rewrite IH.
Qed.

Lemma lstrip_head c s : is_space c = false → lstrip (c :: s) = c :: s.
Proof. intros Hc. simpl. by rewrite Hc. Qed.

(** Stripping a JSON object line, with its newline or without, gives the
    line. *)
Lemma strip_object_line l ending :
  object_line l → ending = [] ∨ ending = [10%N] → strip (l ++ ending) = l.
Proof.
  intros (Hhead & Hlast & _) Hending. unfold strip, rstrip.
  assert (lstrip (l ++ ending) = l ++ ending) as ->.
  { destruct l as [|c l]; [done|]. injection Hhead as ->.
    rewrite <- app_comm_cons. by apply lstrip_head. }
  apply last_Some in Hlast as [l' ->].
  assert (lstrip (reverse ((l' ++ [125%N]) ++ ending))
          = reverse (l' ++ [125%N])) as ->; [|by rewrite reverse_involutive].
  rewrite !reverse_app.
  destruct Hending as [->| ->]; reflexivity.
Qed.

Lemma clean_object_line l ending :
  object_line l → ending = [] ∨ ending = [10%N] →
  Bronze.clean_line (l ++ ending) = Some l.
Proof.
  intros Hl Hending. unfold Bronze.clean_line.
  rewrite strip_object_line by done.
  destruct Hl as (Hhead & Hlast & _).
  rewrite bool_decide_eq_false_2 by (by destruct l).
  unfold endswith_comma. by rewrite Hlast.
Qed.

Lemma nonblank_object_line l ending :
  object_line l → ending = [] ∨ ending = [10%N] → nonblank (l ++ ending).
Proof.
  intros Hl Hending. unfold nonblank. rewrite strip_object_line by done.
  destruct Hl as (Hhead & _). by destruct l.
Qed.

Lemma ndjson_cons l lines : ndjson (l :: lines) = l ++ 10%N :: ndjson lines.
Proof. unfold ndjson, ended. simpl. by rewrite <- app_assoc. Qed.

Lemma ndjson_app lines1 lines2 :
  ndjson (lines1 ++ lines2) = ndjson lines1 ++ ndjson lines2.
Proof.
  induction lines1 as [|l lines1 IH]; [done|].
  by rewrite <- app_comm_cons, !ndjson_cons, IH, <- app_assoc.
Qed.

Lemma object_line_no_newline l : object_line l → Forall (λ c, c ≠ 10%N) l.
Proof. intros (_ & _ & Hl). eapply Forall_impl; [exact Hl|]. by intros c [? _]. Qed.

Lemma object_line_no_return l : object_line l → Forall (λ c, c ≠ 13%N) l.
Proof. intros (_ & _ & Hl). eapply Forall_impl; [exact Hl|]. by intros c [_ ?]. Qed.

Lemma ndjson_no_return lines :
  Forall object_line lines → Forall (λ c, c ≠ 13%N) (ndjson lines).
Proof.
  induction 1 as [|l lines Hl _ IH]; [constructor|].
  rewrite ndjson_cons. apply Forall_app. split.
  - by apply object_line_no_return.
  - by constructor.
Qed.

Lemma readlines_ndjson lines :
  Forall object_line lines →
  readlines (ndjson lines) = ended <$> lines.
Proof.
  induction 1 as [|l lines Hl _ IH]; [done|].
  rewrite ndjson_cons, readlines_line by (by apply object_line_no_newline).
  by rewrite IH.
Qed.

(** A document without its last newline: the lines before the last are
    ended, the last is not. *)
Lemma readlines_unterminated doc lines :
  Forall object_line lines → doc ++ [10%N] = ndjson lines →
  ∃ init l, lines = init ++ [l] ∧ doc = ndjson init ++ l
            ∧ readlines doc = (ended <$> init) ++ [l].
Proof.
  intros Hlines Hdoc.
  destruct lines as [|l0 lines0] using rev_ind; [by destruct doc|].
  clear IHlines0. exists lines0, l0.
  apply Forall_app in Hlines as [Hinit Hl0].
  rewrite Forall_singleton in Hl0.
  assert (doc = ndjson lines0 ++ l0) as ->.
  { rewrite ndjson_app, ndjson_cons in Hdoc.
    change (10%N :: ndjson []) with [10%N] in Hdoc.
    rewrite app_assoc in Hdoc. by apply app_inv_tail in Hdoc. }
  split_and!; [done..|].
  clear Hdoc. induction Hinit as [|l lines Hl _ IH].
  - simpl. apply readlines_last; [|by apply object_line_no_newline].
    destruct Hl0 as (Hhead & _). by destruct l0.
  - rewrite ndjson_cons, <- app_assoc, <- app_comm_cons.
    rewrite readlines_line by (by apply object_line_no_newline).
    by rewrite IH.
Qed.

Lemma omap_clean_lines lines :
  Forall object_line lines →
  omap Bronze.clean_line (ended <$> lines) = lines.
Proof.
  induction 1 as [|l lines Hl _ IH]; [done|]. csimpl. unfold ended at 1.
  rewrite clean_object_line by eauto. simpl. by rewrite IH.
Qed.

Lemma fixed_text_ndjson lines :
  Forall object_line lines → Bronze.fixed_text (ndjson lines) = ndjson lines.
Proof.
  intros Hlines. unfold Bronze.fixed_text.
  rewrite universal_newlines_id by (by apply ndjson_no_return).
  by rewrite readlines_ndjson, omap_clean_lines.
Qed.

Lemma fixed_text_unterminated doc lines :
  Forall object_line lines → doc ++ [10%N] = ndjson lines →
  Bronze.fixed_text doc = ndjson lines.
Proof.
  intros Hlines Hdoc.
  destruct (readlines_unterminated doc lines Hlines Hdoc)
    as (init & l & -> & Hdoc' & Hread).
  apply Forall_app in Hlines as [Hinit Hl]. rewrite Forall_singleton in Hl.
  unfold Bronze.fixed_text. rewrite universal_newlines_id.
  - rewrite Hread, omap_app, omap_clean_lines by done. csimpl.
    rewrite <- (app_nil_r l) at 1. rewrite clean_object_line by eauto.
    done.
  - rewrite Hdoc'. apply Forall_app. split; [by apply ndjson_no_return|].
    by apply object_line_no_return.
Qed.

Lemma filter_nonblank_lines lines :
  Forall object_line lines →
  filter nonblank (ended <$> lines) = ended <$> lines.
Proof.
  induction 1 as [|l lines Hl _ IH]; [done|].
  rewrite fmap_cons, filter_cons_True; [by rewrite IH|].
  unfold ended. apply nonblank_object_line; eauto.
Qed.

Lemma records_ndjson lines :
  Forall object_line lines → length (records (ndjson lines)) = length lines.
Proof.
  intros Hlines. unfold records.
  rewrite universal_newlines_id by (by apply ndjson_no_return).
  rewrite readlines_ndjson, filter_nonblank_lines by done.
  apply length_fmap.
Qed.

Lemma records_unterminated doc lines :
  Forall object_line lines → doc ++ [10%N] = ndjson lines →
  length (records doc) = length lines.
Proof.
  intros Hlines Hdoc.
  destruct (readlines_unterminated doc lines Hlines Hdoc)
    as (init & l & -> & Hdoc' & Hread).
  apply Forall_app in Hlines as [Hinit Hl]. rewrite Forall_singleton in Hl.
  unfold records. rewrite universal_newlines_id.
  - rewrite Hread, filter_app, filter_nonblank_lines by done.
    rewrite filter_cons_True.
    + by rewrite !length_app, length_fmap.
    + rewrite <- (app_nil_r l). apply nonblank_object_line; eauto.
  - rewrite Hdoc'. apply Forall_app. split; [by apply ndjson_no_return|].
    by apply object_line_no_return.
Qed.

End repair.

Section fix_to_ndjson.
Context `{Engine}.


End fix_to_ndjson.

Lemma example_object_lines : Forall object_line [Example.line1; Example.line2].
Proof.
  repeat (apply Forall_cons; split); [| |constructor].
  - unfold object_line. split_and!; [reflexivity..|].
    apply (bool_decide_unpack _). vm_compute. exact I.
  - unfold object_line. split_and!; [reflexivity..|].
    apply (bool_decide_unpack _). vm_compute. exact I.
Qed.


(** The repair at work: commas, the blank line and the indentation go, and
    what is left is the clean document.  On input that is not clean one
    pass need not be enough: a line may end in several commas. *)
Example fixed_text_raw_doc : Bronze.fixed_text Example.raw_doc = Example.clean_doc.
Proof. vm_compute. reflexivity. Qed.

Example fixed_text_twice :
  Bronze.fixed_text (of_string "{},,") = of_string "{}," ++ [10%N]
  ∧ Bronze.fixed_text (Bronze.fixed_text (of_string "{},,"))
    = of_string "{}" ++ [10%N].
Proof. split; vm_compute; reflexivity. Qed.

Example stem_example : PyStr.stem "customers.json" = "customers".
Proof. reflexivity. Qed.

(** * Loading a raw document *)

Lemma attempts_app h1 h2 : attempts (h1 ++ h2) = attempts h1 ++ attempts h2.
Proof. apply filter_app. Qed.

Section load_bronze_table.
Context `{Engine}.

(** C4.  [load_bronze_table] on a file that exists, over an open
    connection.  When the strict reader accepts the document, the table
    holds what it read and nothing is repaired.  When the strict reader
    refuses it as invalid input, the repair is written once and the
    line-delimited reader is run once on the repaired file: if it accepts,
    the table holds what it read; if it fails, the error is raised and the
    table is not replaced.  There is no further attempt in any case, and any
    other error of the strict reader is raised at once. *)
Theorem load_bronze_table_recovery con filename table_name w doc r w' :
  connection w = Some con →
  files w !! (Bronze.RAW_DIR, filename) = Some doc →
  Bronze.load_bronze_table con filename table_name w = (r, w') →
  (∀ t, read_json_auto doc = Ok t →
     r = Returned ()
     ∧ databases w' !! con
       = Some (<[table_name := BronzeT t]> (default ∅ (databases w !! con)))
     ∧ files w' = files w
     ∧ attempts (history w')
       = attempts (history w)
         ++ [StrictLoad (Bronze.RAW_DIR, filename) table_name])
  ∧ (∀ msg, read_json_auto doc = Err (InvalidInputException msg) →
     files w'
     = <[(Bronze.RAW_DIR, PyStr.stem filename +:+ "_fixed.json")
         := Bronze.fixed_text doc]> (files w)
     ∧ attempts (history w')
       = attempts (history w)
         ++ [StrictLoad (Bronze.RAW_DIR, filename) table_name;
             Repaired (Bronze.RAW_DIR, filename)
               (Bronze.RAW_DIR, PyStr.stem filename +:+ "_fixed.json");
             LineLoad (Bronze.RAW_DIR, PyStr.stem filename +:+ "_fixed.json")
               table_name]
     ∧ (∀ t, read_ndjson_auto (Bronze.fixed_text doc) = Ok t →
          r = Returned ()
          ∧ databases w' !! con
            = Some (<[table_name := BronzeT t]>
                      (default ∅ (databases w !! con))))
     ∧ (∀ e, read_ndjson_auto (Bronze.fixed_text doc) = Err e →
          r = Raised e ∧ databases w' = databases w))
  ∧ (∀ e, read_json_auto doc = Err e →
     (∀ msg, e ≠ InvalidInputException msg) →
     r = Raised e
     ∧ databases w' = databases w ∧ files w' = files w
     ∧ attempts (history w')
       = attempts (history w)
         ++ [StrictLoad (Bronze.RAW_DIR, filename) table_name]).
Proof.
  intros Hcon Hfile Hrun.
  unfold Bronze.load_bronze_table, Bronze.fix_to_ndjson,
    Bronze.create_table_from in Hrun.
  unfold_run_in Hrun.
  repeat first [ rewrite Hfile in Hrun | rewrite Hcon in Hrun
               | progress simpl in Hrun | case_decide; [|done] ].
  destruct (read_json_auto doc) as [t|e] eqn:Hstrict; simpl in Hrun.
  { injection Hrun as <- <-. simpl. split_and!; [|done|done].
    intros t' [= <-]. rewrite lookup_insert_eq.
    rewrite !attempts_app. simpl. by rewrite app_nil_r. }
  destruct e as [p|msg|m|n|c|m|p]; simpl in Hrun;
    try (injection Hrun as <- <-; simpl; split_and!; [done|done|];
         intros e' [= <-] Hne; split_and!; try done;
         rewrite !attempts_app; simpl; by rewrite app_nil_r).
  repeat first [ rewrite Hfile in Hrun | rewrite Hcon in Hrun
               | rewrite lookup_insert_eq in Hrun
               | progress simpl in Hrun | case_decide; [|done] ].
  split_and!; [done| |by intros e' [= <-] Hne; destruct (Hne msg)].
  intros msg' [= <-].
  destruct (read_ndjson_auto (Bronze.fixed_text doc)) as [t|e2] eqn:Hline;
    simpl in Hrun.
  - injection Hrun as <- <-. simpl. split_and!; [done| | |done].
    + rewrite !attempts_app. simpl. by rewrite <- !app_assoc.
    + intros t' [= <-]. by rewrite lookup_insert_eq.
  - destruct e2 as [p|msg2|m|n|c|m|p]; simpl in Hrun;
      injection Hrun as <- <-; simpl; (split_and!; [done| |done|]);
      try (rewrite !attempts_app; simpl; by rewrite <- ?app_assoc);
      by intros e' [= <-].
Qed.

End load_bronze_table.

Lemma load_bronze_table_recovery_witness :
  (∀ t, read_json_auto (Engine := Demo.engine) Example.raw_doc = Ok t →
     Example.load_customers.1 = Returned ()
     ∧ databases Example.load_customers.2 !! Bronze.DB_PATH
       = Some (<["bronze_customers" := BronzeT t]>
                 (default ∅ (databases Example.raw_world !! Bronze.DB_PATH)))
     ∧ files Example.load_customers.2 = files Example.raw_world
     ∧ attempts (history Example.load_customers.2)
       = attempts (history Example.raw_world)
         ++ [StrictLoad (Bronze.RAW_DIR, "customers.json") "bronze_customers"])
  ∧ (∀ msg, read_json_auto (Engine := Demo.engine) Example.raw_doc
            = Err (InvalidInputException msg) →
     files Example.load_customers.2
     = <[(Bronze.RAW_DIR, PyStr.stem "customers.json" +:+ "_fixed.json")
         := Bronze.fixed_text Example.raw_doc]> (files Example.raw_world)
     ∧ attempts (history Example.load_customers.2)
       = attempts (history Example.raw_world)
         ++ [StrictLoad (Bronze.RAW_DIR, "customers.json") "bronze_customers";
             Repaired (Bronze.RAW_DIR, "customers.json")
               (Bronze.RAW_DIR, PyStr.stem "customers.json" +:+ "_fixed.json");
             LineLoad
               (Bronze.RAW_DIR, PyStr.stem "customers.json" +:+ "_fixed.json")
               "bronze_customers"]
     ∧ (∀ t, read_ndjson_auto (Engine := Demo.engine)
               (Bronze.fixed_text Example.raw_doc) = Ok t →
          Example.load_customers.1 = Returned ()
          ∧ databases Example.load_customers.2 !! Bronze.DB_PATH
            = Some (<["bronze_customers" := BronzeT t]>
                      (default ∅
                         (databases Example.raw_world !! Bronze.DB_PATH))))
     ∧ (∀ e, read_ndjson_auto (Engine := Demo.engine)
               (Bronze.fixed_text Example.raw_doc) = Err e →
          Example.load_customers.1 = Raised e
          ∧ databases Example.load_customers.2
            = databases Example.raw_world))
  ∧ (∀ e, read_json_auto (Engine := Demo.engine) Example.raw_doc = Err e →
     (∀ msg, e ≠ InvalidInputException msg) →
     Example.load_customers.1 = Raised e
     ∧ databases Example.load_customers.2 = databases Example.raw_world
     ∧ files Example.load_customers.2 = files Example.raw_world
     ∧ attempts (history Example.load_customers.2)
       = attempts (history Example.raw_world)
         ++ [StrictLoad (Bronze.RAW_DIR, "customers.json") "bronze_customers"]).
Proof.
  apply (load_bronze_table_recovery (H := Demo.engine) Bronze.DB_PATH
           "customers.json" "bronze_customers" Example.raw_world
           Example.raw_doc).
  - reflexivity.
  - reflexivity.
  - apply surjective_pairing.
Defined.

(** The three ways a load ends.  The raw customers are refused by the
    strict reader, repaired and loaded, two records; the clean products are
    loaded at once; the orders are refused twice and the error is raised. *)
Example load_customers_repaired :
  Example.load_customers.1 = Returned ()
  ∧ attempts (history Example.load_customers.2)
    = [StrictLoad (Bronze.RAW_DIR, "customers.json") "bronze_customers";
       Repaired (Bronze.RAW_DIR, "customers.json")
         (Bronze.RAW_DIR, "customers_fixed.json");
       LineLoad (Bronze.RAW_DIR, "customers_fixed.json") "bronze_customers"]
  ∧ count_rows (H := Demo.engine) "bronze_customers"
      (default ∅ (databases Example.load_customers.2 !! Bronze.DB_PATH))
    = Ok 2.
Proof. split_and!; vm_compute; reflexivity. Qed.

Example load_products_at_once :
  Example.load_products.1 = Returned ()
  ∧ attempts (history Example.load_products.2)
    = [StrictLoad (Bronze.RAW_DIR, "products.json") "bronze_products"].
Proof. split_and!; vm_compute; reflexivity. Qed.

Example load_orders_fails :
  Example.load_orders.1 = Raised (InvalidInputException "Malformed JSON")
  ∧ attempts (history Example.load_orders.2)
    = [StrictLoad (Bronze.RAW_DIR, "orders.json") "bronze_orders";
       Repaired (Bronze.RAW_DIR, "orders.json")
         (Bronze.RAW_DIR, "orders_fixed.json");
       LineLoad (Bronze.RAW_DIR, "orders_fixed.json") "bronze_orders"]
  ∧ databases Example.load_orders.2 !! Bronze.DB_PATH = Some ∅.
Proof. split_and!; [vm_compute; reflexivity..|reflexivity]. Qed.

(** * The connection of a stage *)

Section connection.
Context `{Engine}.

Lemma keeps_ret {A : Type} (a : A) : keeps_connection (mret a).
Proof. by intros w. Qed.

Lemma keeps_raise {A : Type} e : keeps_connection (raise (A := A) e).
Proof. by intros w. Qed.

Lemma keeps_bind {A B : Type} (m : M A) (k : A → M B) :
  keeps_connection m → (∀ a, keeps_connection (k a)) →
  keeps_connection (m ≫= k).
Proof.
  intros Hm Hk w. unfold mbind, M_bind, bind. specialize (Hm w).
  destruct (m w) as [[a|e] w1]; simpl in *; [|done].
  by rewrite Hk.
Qed.

Lemma keeps_emit ev : keeps_connection (emit ev).
Proof. by intros w. Qed.

Lemma keeps_execute con stmt : keeps_connection (execute con stmt).
Proof.
  intros w. unfold execute. case_decide; [|done]. by destruct (stmt _).
Qed.

Lemma keeps_fetch {A : Type} con (query : gmap string table → result A) :
  keeps_connection (fetch con query).
Proof.
  intros w. unfold fetch. case_decide; [|done]. by destruct (query _).
Qed.

Lemma keeps_for_each {A : Type} (l : list A) (body : A → M ()) :
  (∀ x, keeps_connection (body x)) → keeps_connection (for_each l body).
Proof.
  intros Hbody. induction l as [|x l IH]; simpl.
  - apply keeps_ret.
  - apply keeps_bind; [apply Hbody|by intros _].
Qed.

Lemma keeps_database_exists db : keeps_connection (database_exists db).
Proof. by intros w. Qed.

Create HintDb keeps.
Hint Resolve keeps_ret keeps_raise keeps_emit keeps_execute keeps_fetch
  keeps_database_exists : keeps.

Ltac keeps :=
  repeat first
    [ apply keeps_bind; [|intros ?]
    | apply keeps_for_each; intros [[? ?] ?]
    | solve [auto with keeps]
    | progress unfold Silver.log, Gold.log, Silver.log_row_count,
        Gold.log_row_count, print ].

Lemma keeps_silver_stage con :
  keeps_connection
    (Silver.create_silver_customers con ;;
     Silver.create_silver_products con ;;
     Silver.create_silver_orders con ;;
     Silver.create_silver_sales con ;;
     Silver.create_silver_countries con ;;
     Silver.create_silver_fact_sales con ;;
     Silver.run_quality_checks con ;;
     Silver.log_bronze_vs_silver con).
Proof.
  unfold Silver.create_silver_customers, Silver.create_silver_products,
    Silver.create_silver_orders, Silver.create_silver_sales,
    Silver.create_silver_countries, Silver.create_silver_fact_sales,
    Silver.run_quality_checks, Silver.log_bronze_vs_silver.
  keeps.
Qed.

Lemma keeps_gold_stage con :
  keeps_connection
    (Gold.create_gold_dim_customer con ;;
     Gold.create_gold_dim_product con ;;
     Gold.create_gold_dim_country con ;;
     Gold.create_gold_dim_date con ;;
     Gold.create_gold_fact_sales con ;;
     Gold.log "gold pipeline finished.").
Proof.
  unfold Gold.create_gold_dim_customer, Gold.create_gold_dim_product,
    Gold.create_gold_dim_country, Gold.create_gold_dim_date,
    Gold.create_gold_fact_sales.
  keeps.
Qed.

(** [try: body finally: con.close(); log(...)] leaves no connection, when
    the body works on the one connection [con]. *)
Lemma try_finally_closes {A : Type} (body : M A) con stage message w :
  keeps_connection body → connection w = Some con →
  connection
    (try_finally body (close con ;; emit (Logged stage message)) w).2 = None.
Proof.
  intros Hbody Hcon. unfold try_finally. specialize (Hbody w).
  destruct (body w) as [r w1]. simpl in Hbody.
  unfold mbind, M_bind, bind, close, emit. simpl.
  rewrite Hbody, Hcon. by rewrite decide_True.
Qed.

(** The silver and the gold stage release the connection they open on
    every path, an error in a builder included.  (The gold stage opens none
    when the database file is not there.) *)
Lemma silver_main_closes w : connection (Silver.main w).2 = None.
Proof.
  unfold Silver.main.
  unfold mbind at 1 2. unfold M_bind, bind.
  unfold Silver.log at 1. unfold emit at 1. unfold connect at 1.
  apply try_finally_closes; [apply keeps_silver_stage|done].
Qed.

Lemma gold_main_closes w :
  connection (Gold.main w).2
  = if bool_decide (is_Some (databases w !! Gold.DB_PATH)) then None
    else connection w.
Proof.
  unfold Gold.main.
  unfold mbind at 1 2. unfold M_bind, bind.
  unfold Gold.log at 1. unfold emit at 1. unfold database_exists at 1.
  destruct (bool_decide _); simpl; [|done].
  unfold mbind at 1. unfold M_bind, bind. unfold connect at 1.
  apply try_finally_closes; [apply keeps_gold_stage|done].
Qed.

Lemma keeps_try_except {A : Type} (body : M A) (handler : string → M A) :
  keeps_connection body → (∀ msg, keeps_connection (handler msg)) →
  keeps_connection (try_except_invalid_input body handler).
Proof.
  intros Hbody Hhandler w. unfold try_except_invalid_input.
  specialize (Hbody w). destruct (body w) as [[a|[]] w1]; simpl in *; try done.
  by rewrite Hhandler.
Qed.

Lemma keeps_execute_reading con file stmt :
  keeps_connection (execute_reading con file stmt).
Proof.
  intros w. unfold execute_reading. destruct (files w !! file); [|done].
  apply keeps_execute.
Qed.

Lemma keeps_fix_to_ndjson file : keeps_connection (Bronze.fix_to_ndjson file).
Proof. intros w. unfold Bronze.fix_to_ndjson. by destruct (files w !! file). Qed.

Lemma keeps_load_bronze_table con filename table_name :
  keeps_connection (Bronze.load_bronze_table con filename table_name).
Proof.
  unfold Bronze.load_bronze_table.
  apply keeps_bind; [by intros w|]. intros found.
  destruct (negb found); [apply keeps_raise|].
  apply keeps_bind; [apply keeps_emit|]. intros _.
  apply keeps_try_except.
  { apply keeps_bind; [apply keeps_emit|]. intros _. apply keeps_execute_reading. }
  intros msg. repeat (apply keeps_bind; [apply keeps_emit|]; intros _).
  apply keeps_bind; [apply keeps_fix_to_ndjson|]. intros fixed.
  apply keeps_try_except.
  - apply keeps_bind; [apply keeps_emit|]. intros _.
    apply keeps_bind; [apply keeps_execute_reading|]. intros _. apply keeps_emit.
  - intros msg2. repeat (apply keeps_bind; [apply keeps_emit|]; intros _).
    apply keeps_raise.
Qed.

(** The bronze stage has no [finally]: it closes the connection when every
    load returns, and leaves it open when a load raises. *)
Lemma bronze_main_connection w :
  match (Bronze.main w).1 with
  | Returned _ => connection (Bronze.main w).2 = None
  | Raised _ => connection (Bronze.main w).2 = Some Bronze.DB_PATH
  end.
Proof.
  destruct (Bronze.main w) as [r w'] eqn:Hrun. simpl.
  unfold Bronze.main in Hrun.
  unfold mbind at 1 2 3 in Hrun. unfold M_bind, bind in Hrun.
  unfold print at 1 2 in Hrun. unfold emit at 1 2 in Hrun.
  unfold connect at 1 in Hrun. cbv beta iota in Hrun.
  unfold mbind at 1 in Hrun. unfold M_bind, bind in Hrun.
  match type of Hrun with
  | context [for_each ?l ?body ?w0] =>
      assert (keeps_connection (for_each l body)) as Hloads
        by (apply keeps_for_each; intros [filename table_name];
            apply keeps_load_bronze_table);
      specialize (Hloads w0);
      destruct (for_each l body w0) as [[[]|e] w1]
  end; simpl in Hloads.
  - unfold mbind, M_bind, bind, close, print, emit in Hrun. simpl in Hrun.
    rewrite Hloads in Hrun. rewrite decide_True in Hrun by done.
    by injection Hrun as <- <-.
  - by injection Hrun as <- <-.
Qed.

End connection.

(** C9, where the code departs from it.  The bronze stage started on the
    example documents raises at the third load, and started on no document
    raises at the first; each time the connection it has opened is still
    open when it ends, and was never closed. *)
Theorem bronze_main_leaves_connection_open :
  (Bronze.main Example.start_world).1
  = Raised (InvalidInputException "Malformed JSON")
  ∧ connection (Bronze.main Example.start_world).2 = Some Bronze.DB_PATH
  ∧ (Closed Bronze.DB_PATH ∉ history (Bronze.main Example.start_world).2)
  ∧ (Bronze.main (H := Demo.engine) (World ∅ ∅ None [])).1
    = Raised (FileNotFoundError
                "Expected file not found: data/raw/customers.json")
  ∧ connection (Bronze.main (H := Demo.engine) (World ∅ ∅ None [])).2
    = Some Bronze.DB_PATH
  ∧ Closed Bronze.DB_PATH
    ∉ history (Bronze.main (H := Demo.engine) (World ∅ ∅ None [])).2.
Proof.
  split_and!; try (vm_compute; reflexivity);
    apply (bool_decide_unpack _); vm_compute; exact I.
Qed.

(** On the same inputs the silver and the gold stage fail too, their
    tables missing, and end with the connection closed. *)
Example silver_gold_main_fail_closed :
  (Silver.main Example.start_world).1
  = Raised (CatalogException "bronze_customers")
  ∧ connection (Silver.main Example.start_world).2 = None
  ∧ (Gold.main Example.raw_world).1
    = Raised (CatalogException "silver_customers")
  ∧ connection (Gold.main Example.raw_world).2 = None.
Proof. split_and!; vm_compute; reflexivity. Qed.

(** * More on the conformed tables *)

(** Destructs the casts of a row that has been built. *)
Ltac row_casts Hrow :=
  repeat match type of Hrow with
         | context [cast ?conv ?ty ?v] =>
             let E := fresh "Hcast" in
             destruct (cast conv ty v) as [?|?] eqn:E; simpl in Hrow; [|done]
         end.

Section identifiers.
Context `{Engine}.

Lemma cast_value_is_Some {A : Type} (conv : bval → option A) type_name v a :
  cast conv type_name (Some v) = Ok a → is_Some a.
Proof. unfold cast. destruct (conv v); [|done]. intros [= <-]. eauto. Qed.

Lemma customer_row_id r x :
  Silver.customer_row r = Ok x → is_Some (r !! "CustomerId") →
  is_Some (sc_CustomerId x).
Proof.
  unfold Silver.customer_row. intros Hrow [v Hv]. rewrite Hv in Hrow.
  row_casts Hrow. injection Hrow as <-. simpl.
  by eapply cast_value_is_Some.
Qed.

Lemma product_row_id r x :
  Silver.product_row r = Ok x → is_Some (r !! "ProductId") →
  is_Some (sp_ProductId x).
Proof.
  unfold Silver.product_row. intros Hrow [v Hv]. rewrite Hv in Hrow.
  row_casts Hrow. injection Hrow as <-. simpl.
  by eapply cast_value_is_Some.
Qed.

Lemma order_row_id r x :
  Silver.order_row r = Ok x → is_Some (r !! "OrderId") →
  is_Some (so_OrderId x).
Proof.
  unfold Silver.order_row. intros Hrow [v Hv]. rewrite Hv in Hrow.
  row_casts Hrow. injection Hrow as <-. simpl.
  by eapply cast_value_is_Some.
Qed.

Lemma sale_row_id r x :
  Silver.sale_row r = Ok x → is_Some (r !! "SaleId") →
  is_Some (ss_SaleId x).
Proof.
  unfold Silver.sale_row. intros Hrow [v Hv]. rewrite Hv in Hrow.
  row_casts Hrow. injection Hrow as <-. simpl.
  by eapply cast_value_is_Some.
Qed.

Lemma country_row_id r x :
  Silver.country_row r = Ok x → is_Some (r !! "Country") →
  is_Some (c_Country x).
Proof.
  unfold Silver.country_row. intros Hrow [v Hv]. rewrite Hv in Hrow.
  row_casts Hrow. injection Hrow as <-. simpl.
  by eapply cast_value_is_Some.
Qed.

Lemma select_identifiers {S K : Type} (columns : list string) (id : string)
  (row : gmap string bval → result S) (key : S → option K)
  (bt : bronze_table bval) (l : list S) :
  (∀ r x, row r = Ok x → is_Some (r !! id) → is_Some (key x)) →
  (require_columns bt columns ;;
   mapM row (filter (λ r, is_Some (r !! id)) (bt_rows bt))) = Ok l →
  Forall (λ x, is_Some (key x)) l.
Proof.
  intros Hrow Hsel. destruct (require_columns bt columns); [|done].
  simpl in Hsel. apply mapM_Ok in Hsel.
  assert (Forall (λ r, is_Some (r !! id))
            (filter (λ r, is_Some (r !! id)) (bt_rows bt))) as Hids.
  { apply Forall_forall. by intros r [? _]%list_elem_of_filter. }
  induction Hsel as [|r x rows l' Hrx _ IH]; [constructor|].
  apply Forall_cons in Hids as [Hr Hids].
  constructor; [by eapply Hrow|by apply IH].
Qed.


End identifiers.


(** * More on the referential-integrity counts *)

Section integrity.
Context {A B K : Type} `{EqDecision K}.

Lemma dangling_nil_iff (fk : A → option K) (pk : B → option K)
  (l : list A) (r : list B) :
  dangling fk pk l r = []
  ↔ ∀ a, a ∈ l → is_Some (fk a) ∧ ∃ b, b ∈ r ∧ pk b = fk a.
Proof.
  unfold dangling. split.
  - intros Hnil a Ha.
    assert (¬ (fk a = None ∨ Forall (λ b, pk b ≠ fk a) r)) as Hnot.
    { intros Hdang.
      assert (a ∈ filter (λ a, fk a = None ∨ Forall (λ b, pk b ≠ fk a) r) l)
        as Hin by (by apply list_elem_of_filter).
      rewrite Hnil in Hin. by apply elem_of_nil in Hin. }
    split.
    + destruct (fk a) eqn:Hfk; [eauto|]. destruct Hnot. by left.
    + destruct (decide (Exists (λ b, pk b = fk a) r)) as [Hex|Hnex].
      * apply Exists_exists in Hex as (b & Hb & Hpk). eauto.
      * destruct Hnot. right. apply Forall_forall. intros b Hb Hpk.
        apply Hnex. apply Exists_exists. eauto.
  - intros Hall. apply filter_none. apply Forall_forall.
    intros a Ha [Hnone|Hno].
    + destruct (Hall a Ha) as [[k Hk] _]. congruence.
    + destruct (Hall a Ha) as [_ (b & Hb & Hpk)].
      rewrite Forall_forall in Hno. by apply (Hno b Hb).
Qed.

Lemma dangling_count_bounds (fk : A → option K) (pk : B → option K)
  (l : list A) (r : list B) :
  0 ≤ sql_count (dangling fk pk l r) ≤ sql_count l.
Proof.
  unfold sql_count, dangling.
  pose proof (length_filter (λ a, fk a = None ∨ Forall (λ b, pk b ≠ fk a) r) l).
  lia.
Qed.

Lemma dangling_count_zero (fk : A → option K) (pk : B → option K)
  (l : list A) (r : list B) :
  sql_count (dangling fk pk l r) = 0
  ↔ ∀ a, a ∈ l → is_Some (fk a) ∧ ∃ b, b ∈ r ∧ pk b = fk a.
Proof.
  rewrite <- dangling_nil_iff. unfold sql_count.
  destruct (dangling fk pk l r); simpl; split; (done || lia).
Qed.

End integrity.

Section integrity_counts.
Context `{Engine}.

(** Each count of [run_quality_checks] lies between 0 and the number of
    rows of the referring table (a row is counted once, however many rows
    the join gives), and it is 0 exactly when referential integrity holds:
    every referring row has a foreign key, and it is the key of a row of
    the referenced table. *)
Theorem quality_counts_zero_iff (ss : list sale) (so : list order)
  (sc : list customer) (sp : list product) :
  (0 ≤ Silver.missing_customers so sc ≤ sql_count so
   ∧ (Silver.missing_customers so sc = 0
      ↔ ∀ o, o ∈ so → is_Some (so_CustomerId o)
                      ∧ ∃ c, c ∈ sc ∧ sc_CustomerId c = so_CustomerId o))
  ∧ (0 ≤ Silver.missing_orders ss so ≤ sql_count ss
     ∧ (Silver.missing_orders ss so = 0
        ↔ ∀ s, s ∈ ss → is_Some (ss_OrderId s)
                        ∧ ∃ o, o ∈ so ∧ so_OrderId o = ss_OrderId s))
  ∧ (0 ≤ Silver.missing_products ss sp ≤ sql_count ss
     ∧ (Silver.missing_products ss sp = 0
        ↔ ∀ s, s ∈ ss → is_Some (ss_ProductId s)
                        ∧ ∃ p, p ∈ sp ∧ sp_ProductId p = ss_ProductId s)).
Proof.
  rewrite missing_customers_dangling, missing_orders_dangling,
    missing_products_dangling.
  split_and!; (apply dangling_count_bounds || apply dangling_count_zero).
Qed.

End integrity_counts.

(** * The conformed fact table, whatever the keys *)

Section fact_rows.
Context `{Engine}.

Lemma elem_of_fact_sales_join ss so sc sp c j :
  j ∈ Silver.fact_sales_join ss so sc sp c ↔
  ∃ s o cu p co,
    j = (s, o, cu, p, co) ∧ s ∈ ss
    ∧ matched (λ s o, sql_eq (ss_OrderId s) (so_OrderId o)) s so o
    ∧ matched (λ o cu, sql_eq (o ≫= so_CustomerId) (sc_CustomerId cu)) o sc cu
    ∧ matched (λ s p, sql_eq (ss_ProductId s) (sp_ProductId p)) s sp p
    ∧ matched (λ cu co, sql_eq (cu ≫= sc_Country) (c_Country co)) cu c co.
Proof.
  unfold Silver.fact_sales_join. rewrite elem_of_left_join.
  destruct j as [[[[s o] cu] p] co]. simpl.
  rewrite elem_of_left_join. simpl. rewrite elem_of_left_join. simpl.
  rewrite elem_of_left_join. simpl. split.
  - intros ((((Hs & Ho) & Hcu) & Hp) & Hco).
    exists s, o, cu, p, co. by split_and!.
  - intros (s' & o' & cu' & p' & co' & [= -> -> -> -> ->] & Hs & Ho & Hcu
            & Hp & Hco).
    by split_and!.
Qed.

Lemma fact_sales_join_length ss so sc sp c :
  (length ss ≤ length (Silver.fact_sales_join ss so sc sp c))%nat.
Proof.
  unfold Silver.fact_sales_join.
  etrans; [apply (left_join_length_ge
                    (λ s o, sql_eq (ss_OrderId s) (so_OrderId o)) ss so)|].
  etrans; [apply (left_join_length_ge
                    (λ (j : sale * option order) cu,
                       sql_eq (j.2 ≫= so_CustomerId) (sc_CustomerId cu))
                    _ sc)|].
  etrans; [apply (left_join_length_ge
                    (λ (j : sale * option order * option customer) p,
                       sql_eq (ss_ProductId j.1.1) (sp_ProductId p)) _ sp)|].
  apply left_join_length_ge.
Qed.

(** Whatever the keys of the joined tables (unique or not), the conformed
    fact table drops no sale and invents none: it has at least as many rows
    as [silver_sales], every sale is the origin of a row, and every row is
    a sale with what it matches in the orders, customers, products and
    countries, or with NULLs. *)
Theorem create_silver_fact_sales_keeps_sales con w db ss so sc sp c :
  connection w = Some con →
  databases w !! con = Some db →
  db !! "silver_sales" = Some (SalesT ss) →
  db !! "silver_orders" = Some (OrdersT so) →
  db !! "silver_customers" = Some (CustomersT sc) →
  db !! "silver_products" = Some (ProductsT sp) →
  db !! "silver_countries" = Some (CountriesT c) →
  ∃ fact w',
    Silver.create_silver_fact_sales con w = (Returned (), w')
    ∧ databases w' !! con
      = Some (<["silver_fact_sales" := FactSalesT fact]> db)
    ∧ sql_count ss ≤ sql_count fact
    ∧ (∀ s, s ∈ ss →
         ∃ f, f ∈ fact ∧ f_SaleId f = ss_SaleId s
              ∧ f_Quantity f = ss_Quantity s)
    ∧ (∀ f, f ∈ fact →
         ∃ s o cu p co,
           s ∈ ss ∧ f = Silver.fact_sales_row (s, o, cu, p, co)
           ∧ matched (λ s o, sql_eq (ss_OrderId s) (so_OrderId o)) s so o
           ∧ matched (λ o cu, sql_eq (o ≫= so_CustomerId) (sc_CustomerId cu))
                     o sc cu
           ∧ matched (λ s p, sql_eq (ss_ProductId s) (sp_ProductId p)) s sp p
           ∧ matched (λ cu co, sql_eq (cu ≫= sc_Country) (c_Country co))
                     cu c co).
Proof.
  intros Hcon Hdb Hss Hso Hsc Hsp Hc.
  destruct (create_silver_fact_sales_run con w db ss so sc sp c)
    as (w' & Hrun & Hdb' & _); try done.
  exists (Silver.select_silver_fact_sales ss so sc sp c), w'.
  split_and!; try done.
  - unfold sql_count, Silver.select_silver_fact_sales.
    rewrite length_fmap. pose proof (fact_sales_join_length ss so sc sp c).
    lia.
  - intros s Hs. unfold Silver.select_silver_fact_sales.
    destruct (left_join_keeps
                (λ s o, sql_eq (ss_OrderId s) (so_OrderId o)) ss so s Hs)
      as [o Ho].
    destruct (left_join_keeps
                (λ (j : sale * option order) cu,
                   sql_eq (j.2 ≫= so_CustomerId) (sc_CustomerId cu))
                _ sc _ Ho) as [cu Hcu].
    destruct (left_join_keeps
                (λ (j : sale * option order * option customer) p,
                   sql_eq (ss_ProductId j.1.1) (sp_ProductId p))
                _ sp _ Hcu) as [p Hp].
    destruct (left_join_keeps
                (λ (j : sale * option order * option customer
                        * option product) co,
                   sql_eq (j.1.2 ≫= sc_Country) (c_Country co))
                _ c _ Hp) as [co Hco].
    exists (Silver.fact_sales_row (s, o, cu, p, co)).
    split; [|done]. apply list_elem_of_fmap. by exists (s, o, cu, p, co).
  - intros f (j & -> & Hj)%list_elem_of_fmap.
    apply elem_of_fact_sales_join in Hj
      as (s & o & cu & p & co & -> & Hs & Ho & Hcu & Hp & Hco).
    by exists s, o, cu, p, co.
Qed.

End fact_rows.

Lemma create_silver_fact_sales_keeps_sales_witness :
  ∃ fact w',
    Silver.create_silver_fact_sales (H := Demo.engine) Gold.DB_PATH
      Example.silver_world = (Returned (), w')
    ∧ databases w' !! Gold.DB_PATH
      = Some (<["silver_fact_sales" := FactSalesT fact]> Example.silver_db)
    ∧ sql_count Example.sales ≤ sql_count fact
    ∧ (∀ s, s ∈ Example.sales →
         ∃ f, f ∈ fact ∧ f_SaleId f = ss_SaleId s
              ∧ f_Quantity f = ss_Quantity s)
    ∧ (∀ f, f ∈ fact →
         ∃ s o cu p co,
           s ∈ Example.sales ∧ f = Silver.fact_sales_row (s, o, cu, p, co)
           ∧ matched (λ s o, sql_eq (ss_OrderId s) (so_OrderId o))
                     s Example.orders o
           ∧ matched (λ o cu, sql_eq (o ≫= so_CustomerId) (sc_CustomerId cu))
                     o Example.customers cu
           ∧ matched (λ s p, sql_eq (ss_ProductId s) (sp_ProductId p))
                     s Example.products p
           ∧ matched (λ cu co, sql_eq (cu ≫= sc_Country) (c_Country co))
                     cu Example.countries co).
Proof.
  apply (create_silver_fact_sales_keeps_sales (H := Demo.engine) Gold.DB_PATH
           Example.silver_world Example.silver_db); reflexivity.
Defined.

(** Two products with the same id: the sale of that product is there
    twice. *)
Example silver_fact_sales_fan_out :
  length (Silver.select_silver_fact_sales (H := Demo.engine)
            [Sale (Some 100) None (Some 7) None] [] []
            [Product (Some 7) (Some "Widget") None None;
             Product (Some 7) (Some "Gadget") None None] [])
  = 2%nat.
Proof. reflexivity. Qed.

(** * The gold dimensions *)

Lemma filter_all {A : Type} (P : A → Prop) `{∀ x, Decision (P x)} (l : list A) :
  Forall P l → filter P l = l.
Proof.
  induction 1 as [|x l Hx _ IH]; [done|].
  by rewrite filter_cons_True, IH.
Qed.

Section gold_dimensions.
Context `{Engine}.

Lemma create_gold_dim_customer_run con w db sc :
  connection w = Some con →
  databases w !! con = Some db →
  db !! "silver_customers" = Some (CustomersT sc) →
  ∃ w', Gold.create_gold_dim_customer con w = (Returned (), w')
        ∧ databases w' !! con
          = Some (<["gold_dim_customer" :=
                      DimCustomerT (Gold.select_gold_dim_customer sc)]> db)
        ∧ connection w' = Some con ∧ files w' = files w.
Proof.
  intros Hcon Hdb Hsc. unfold Gold.create_gold_dim_customer.
  rewrite (gold_builder_run con w _ _ _
             (<["gold_dim_customer" :=
                  DimCustomerT (Gold.select_gold_dim_customer sc)]> db)
             (DimCustomerT (Gold.select_gold_dim_customer sc)));
    [| done | | apply lookup_insert_eq].
  - eexists. split; [done|]. simpl. by rewrite lookup_insert_eq.
  - rewrite Hdb. simpl. unfold from_customers. by rewrite Hsc.
Qed.

Lemma create_gold_dim_product_run con w db sp :
  connection w = Some con →
  databases w !! con = Some db →
  db !! "silver_products" = Some (ProductsT sp) →
  ∃ w', Gold.create_gold_dim_product con w = (Returned (), w')
        ∧ databases w' !! con
          = Some (<["gold_dim_product" :=
                      DimProductT (Gold.select_gold_dim_product sp)]> db)
        ∧ connection w' = Some con ∧ files w' = files w.
Proof.
  intros Hcon Hdb Hsp. unfold Gold.create_gold_dim_product.
  rewrite (gold_builder_run con w _ _ _
             (<["gold_dim_product" :=
                  DimProductT (Gold.select_gold_dim_product sp)]> db)
             (DimProductT (Gold.select_gold_dim_product sp)));
    [| done | | apply lookup_insert_eq].
  - eexists. split; [done|]. simpl. by rewrite lookup_insert_eq.
  - rewrite Hdb. simpl. unfold from_products. by rewrite Hsp.
Qed.

Lemma create_gold_dim_country_run con w db c :
  connection w = Some con →
  databases w !! con = Some db →
  db !! "silver_countries" = Some (CountriesT c) →
  ∃ w', Gold.create_gold_dim_country con w = (Returned (), w')
        ∧ databases w' !! con
          = Some (<["gold_dim_country" :=
                      DimCountryT (Gold.select_gold_dim_country c)]> db)
        ∧ connection w' = Some con ∧ files w' = files w.
Proof.
  intros Hcon Hdb Hc. unfold Gold.create_gold_dim_country.
  rewrite (gold_builder_run con w _ _ _
             (<["gold_dim_country" :=
                  DimCountryT (Gold.select_gold_dim_country c)]> db)
             (DimCountryT (Gold.select_gold_dim_country c)));
    [| done | | apply lookup_insert_eq].
  - eexists. split; [done|]. simpl. by rewrite lookup_insert_eq.
  - rewrite Hdb. simpl. unfold from_countries. by rewrite Hc.
Qed.

(** A projection of the rows that carry a key. *)
Lemma project_identified {A B K : Type} (key : A → option K)
  (key' : B → option K) (project : A → B) (l : list A) :
  (∀ x, key' (project x) = key x) →
  Forall (λ r, is_Some (key' r))
         (project <$> filter (λ x, is_Some (key x)) l)
  ∧ (length (project <$> filter (λ x, is_Some (key x)) l) ≤ length l)%nat
  ∧ (Forall (λ x, is_Some (key x)) l →
     project <$> filter (λ x, is_Some (key x)) l = project <$> l).
Proof.
  intros Hkey. split_and!.
  - apply Forall_fmap, Forall_forall.
    intros x [Hx _]%list_elem_of_filter. simpl. by rewrite Hkey.
  - rewrite length_fmap. apply length_filter.
  - intros Hall. by rewrite filter_all.
Qed.


End gold_dimensions.


(** * The columns of the calendar *)

Section calendar_columns.
Import Calendar.

(** A date lies in the year of its calendar date. *)
Lemma year_start_bounds t :
  0 ≤ t - date_of_civil (Civil (year (civil_of_date t)) 1 1) ≤ 365.
Proof.
  pose proof (date_of_civil_of_date t) as Hd.
  destruct (civil_of_date_valid t) as [Hm Hday].
  remember (year (civil_of_date t)) as y.
  remember (month (civil_of_date t)) as m.
  remember (day (civil_of_date t)) as dd.
  unfold date_of_civil in *. cbn [year month day].
  rewrite <- Heqy, <- Heqm, <- Heqdd in Hd.
  assert (days_before_month y 1 = 0) as -> by done.
  assert (0 ≤ days_before_month y m + (dd - 1) ≤ 365); [|lia].
  clear Hd Heqy Heqm Heqdd.
  assert (m = 1 ∨ m = 2 ∨ m = 3 ∨ m = 4 ∨ m = 5 ∨ m = 6 ∨ m = 7 ∨ m = 8
          ∨ m = 9 ∨ m = 10 ∨ m = 11 ∨ m = 12) as Hcases by lia.
  unfold days_before_month, days_in_month in *.
  destruct Hcases as [->|[->|[->|[->|[->|[->|[->|[->|[->|[->|[->| ->]]]]]]]]]]];
    simpl in *; destruct (is_leap y); lia.
Qed.

Lemma iso_week_range n : 1 ≤ iso_week n ≤ 53.
Proof.
  unfold iso_week. cbv zeta.
  set (thursday := n - _ + 4).
  pose proof (year_start_bounds thursday) as Hb.
  set (x := thursday - _) in *.
  split.
  - pose proof (Z.div_pos x 7). lia.
  - assert (x / 7 < 53); [|lia]. apply Z.div_lt_upper_bound; lia.
Qed.

Lemma day_of_week_range n : 0 ≤ day_of_week n ≤ 6.
Proof. unfold day_of_week. pose proof (Z.mod_pos_bound (n + 4) 7). lia. Qed.

Lemma day_of_week_succ n : day_of_week (n + 1) = (day_of_week n + 1) mod 7.
Proof.
  unfold day_of_week. replace (n + 1 + 4) with (n + 4 + 1) by lia.
  by rewrite Zplus_mod_idemp_l.
Qed.

(** The ISO week changes on Mondays only. *)
Lemma iso_week_succ n : day_of_week (n + 1) ≠ 1 → iso_week (n + 1) = iso_week n.
Proof.
  intros Hmonday.
  assert (n + 1 - (if day_of_week (n + 1) =? 0 then 7 else day_of_week (n + 1))
          = n - (if day_of_week n =? 0 then 7 else day_of_week n)) as Hth.
  { rewrite day_of_week_succ in *. pose proof (day_of_week_range n) as Hr.
    remember (day_of_week n) as k. clear Heqk.
    pose proof (Z.mod_pos_bound (k + 1) 7) as Hb.
    pose proof (Z.div_mod (k + 1) 7) as Hdm.
    remember ((k + 1) mod 7) as k'. remember ((k + 1) / 7) as q.
    destruct (Z.eqb_spec k' 0), (Z.eqb_spec k 0); lia. }
  unfold iso_week. cbv zeta. by rewrite Hth.
Qed.

Lemma day_name_weekend k :
  0 ≤ k ≤ 6 →
  (day_name k = "Saturday" ∨ day_name k = "Sunday") ↔ (k = 0 ∨ k = 6).
Proof.
  intros Hk.
  assert (k = 0 ∨ k = 1 ∨ k = 2 ∨ k = 3 ∨ k = 4 ∨ k = 5 ∨ k = 6)
    as Hcases by lia.
  destruct Hcases as [->|[->|[->|[->|[->|[->| ->]]]]]]; simpl;
    split; intros [?|?]; (done || lia || auto).
Qed.

(** The columns of the calendar row of a date of the four-digit years. *)
Lemma dim_date_row_columns d r :
  first_date ≤ d ≤ last_date →
  Gold.dim_date_row d = Ok r →
  d_Date r = d
  ∧ d_Year r = d_DateKey r / 10000
  ∧ d_Month r = (d_DateKey r / 100) mod 100
  ∧ d_YearMonth r = d_DateKey r / 100
  ∧ 1 ≤ d_Month r ≤ 12
  ∧ 3 * d_Quarter r - 2 ≤ d_Month r ≤ 3 * d_Quarter r
  ∧ 1 ≤ d_WeekOfYear r ≤ 53
  ∧ d_WeekOfYear r = iso_week d
  ∧ d_DayOfWeek r = (d + 4) mod 7
  ∧ (d_IsWeekend r = true ↔ d_DayOfWeek r = 0 ∨ d_DayOfWeek r = 6)
  ∧ (d_IsWeekend r = true
     ↔ d_DayOfWeekName r = "Saturday" ∨ d_DayOfWeekName r = "Sunday").
Proof.
  intros Hrange. unfold Gold.dim_date_row.
  rewrite cast_strftime_Ymd by done.
  destruct (civil_in_range d Hrange) as (Hy & Hm & Hd).
  destruct (civil_of_date d) as [y m dd]. simpl in Hy, Hm, Hd.
  simpl. intros [= <-]. unfold ymd. simpl.
  assert ((y * 10000 + m * 100 + dd) / 100 = y * 100 + m) as H100.
  { symmetry. apply (Z.div_unique_pos _ _ _ dd); lia. }
  split_and!.
  - done.
  - apply (Z.div_unique_pos _ _ _ (m * 100 + dd)); lia.
  - rewrite H100. apply (Z.mod_unique_pos _ _ y); lia.
  - by rewrite H100.
  - lia.
  - lia.
  - pose proof (Z.mul_div_le (m - 1) 3 ltac:(lia)). lia.
  - pose proof (Z.mul_succ_div_gt (m - 1) 3 ltac:(lia)). lia.
  - apply iso_week_range.
  - apply iso_week_range.
  - done.
  - done.
  - apply bool_decide_eq_true.
  - rewrite bool_decide_eq_true. symmetry. apply day_name_weekend.
    apply day_of_week_range.
Qed.

End calendar_columns.

Section calendar_rows.
Context `{Engine}.
Import Calendar.

Lemma dates_sorted so : StronglySorted Z.le (Gold.dates so).
Proof.
  unfold Gold.dates. destruct (Gold.bounds so) as [[lo|] [hi|]];
    (apply StronglySorted_seqZ || constructor).
Qed.

Lemma select_gold_dim_date_inv so cal :
  Gold.select_gold_dim_date so = Ok cal →
  Forall2 (λ d r, Gold.dim_date_row d = Ok r) (Gold.dates so) cal.
Proof.
  unfold Gold.select_gold_dim_date.
  destruct (mapM Gold.dim_date_row (Gold.dates so)) as [rows|] eqn:Hrows;
    [|done].
  simpl. intros [= <-]. apply mapM_Ok in Hrows.
  rewrite (order_by_date_sorted _ _ Hrows); [done|apply dates_sorted].
Qed.

Lemma dates_in_range so d :
  Forall (λ o, ∀ d, so_Date o = Some d → first_date ≤ d ≤ last_date) so →
  d ∈ Gold.dates so → first_date ≤ d ≤ last_date.
Proof.
  intros Hall. unfold Gold.dates.
  destruct (Gold.bounds so) as [[lo|] [hi|]] eqn:Hb;
    try (by intros ?%elem_of_nil).
  intros [Hlo Hhi]%elem_of_seqZ.
  destruct (bounds_of_dates so lo hi Hb) as (_ & Hin_lo & Hin_hi & _).
  rewrite Forall_forall in Hall.
  apply list_elem_of_fmap in Hin_lo as (o1 & Ho1 & Hin1).
  apply list_elem_of_fmap in Hin_hi as (o2 & Ho2 & Hin2).
  pose proof (Hall o1 Hin1 lo (eq_sym Ho1)).
  pose proof (Hall o2 Hin2 hi (eq_sym Ho2)). lia.
Qed.

Lemma dates_lookup_succ so i d1 d2 :
  Gold.dates so !! i = Some d1 → Gold.dates so !! S i = Some d2 →
  d2 = d1 + 1.
Proof.
  unfold Gold.dates. destruct (Gold.bounds so) as [[lo|] [hi|]]; try done.
  intros [-> _]%lookup_seqZ [-> _]%lookup_seqZ. lia.
Qed.

Lemma select_gold_dim_date_in_range so :
  Forall (λ o, ∀ d, so_Date o = Some d → first_date ≤ d ≤ last_date) so →
  ∃ cal, Gold.select_gold_dim_date so = Ok cal.
Proof.
  intros Hall.
  destruct (decide (Forall (λ o, so_Date o = None) so)) as [Hnone|Hsome].
  - exists []. by apply select_gold_dim_date_no_dates.
  - apply not_Forall_Exists in Hsome; [|apply _].
    apply Exists_exists in Hsome as (o & Ho & Hdate).
    destruct (so_Date o) as [d|] eqn:Hd; [|done].
    destruct (bounds_defined so o d Ho Hd) as (lo & hi & Hb).
    destruct (bounds_of_dates so lo hi Hb) as (_ & Hin_lo & Hin_hi & _).
    rewrite Forall_forall in Hall.
    apply list_elem_of_fmap in Hin_lo as (o1 & Ho1 & Hin1).
    apply list_elem_of_fmap in Hin_hi as (o2 & Ho2 & Hin2).
    pose proof (Hall o1 Hin1 lo (eq_sym Ho1)).
    pose proof (Hall o2 Hin2 hi (eq_sym Ho2)).
    destruct (select_gold_dim_date_rows so lo hi) as (cal & Hcal & _);
      [done|lia|lia|].
    by exists cal.
Qed.


End calendar_rows.


(** The first days of 2021: Friday 1 January is in week 53 of 2020, and the
    week changes on Monday 4 January. *)
Example calendar_week_example :
  (λ r, (d_DateKey r, d_WeekOfYear r, d_DayOfWeek r, d_IsWeekend r))
    <$> default [] (match Gold.select_gold_dim_date
                            [Order (Some 1) None (Some 18628);
                             Order (Some 2) None (Some 18631)]
                    with Ok cal => Some cal | Err _ => None end)
  = [(20210101, 53, 5, false); (20210102, 53, 6, true);
     (20210103, 53, 0, true); (20210104, 1, 1, false)].
Proof. vm_compute. reflexivity. Qed.

(** * The grain of the dimensional fact table *)

Section gold_fact_grain.
Context `{Engine}.

Lemma gold_fact_join_length f d p :
  (length f ≤ length (Gold.gold_fact_join f d p))%nat.
Proof.
  unfold Gold.gold_fact_join.
  etrans; [apply (left_join_length_ge
                    (λ f d, sql_eq (f_OrderDate f) (Some (d_Date d))) f d)|].
  apply left_join_length_ge.
Qed.

Lemma gold_fact_join_unique f d p :
  NoDup (d_Date <$> d) → unique_key sp_ProductId p →
  Forall2 (λ x j, j.1.1 = x) f (Gold.gold_fact_join f d p).
Proof.
  intros Hd Hp. unfold Gold.gold_fact_join.
  assert (unique_key (λ r, Some (d_Date r)) d) as Hd'.
  { unfold unique_key. clear -Hd. induction d as [|r d IH]; [done|].
    csimpl in *. apply NoDup_cons in Hd as [Hr Hd].
    apply NoDup_cons. split; [|by apply IH].
    intros (r' & Hr' & [= Heq])%list_elem_of_omap. apply Hr.
    apply list_elem_of_fmap. by exists r'. }
  pose proof (left_join_at_most_one
                (λ f d, sql_eq (f_OrderDate f) (Some (d_Date d))) f d
                (λ x _, unique_key_matches (λ r, Some (d_Date r)) d
                          (f_OrderDate x) Hd')) as H1.
  pose proof (left_join_at_most_one
                (λ (j : fact_sale * option dim_date) p,
                   sql_eq (f_ProductId j.1) (sp_ProductId p))
                (left_join
                   (λ f d, sql_eq (f_OrderDate f) (Some (d_Date d))) f d) p
                (λ j _, unique_key_matches sp_ProductId p
                          (f_ProductId j.1) Hp)) as H2.
  pose proof (Forall2_compose _ _ _ _ _ H1 H2) as H12.
  eapply Forall2_impl; [apply H12|].
  intros x j (y & [Hy _] & [Hj _]). simpl in *. by rewrite Hj, Hy.
Qed.


End gold_fact_grain.


(** * What a stage leaves as it was *)

Section stable.
Context `{Engine} (R : world → world → Prop) `{!PreOrder R}.

Lemma stable_ret {A : Type} (a : A) : stable R (mret a).
Proof. intros w. simpl. reflexivity. Qed.

Lemma stable_raise {A : Type} e : stable R (raise (A := A) e).
Proof. intros w. simpl. reflexivity. Qed.

Lemma stable_bind {A B : Type} (m : M A) (k : A → M B) :
  stable R m → (∀ a, stable R (k a)) → stable R (m ≫= k).
Proof.
  intros Hm Hk w. unfold mbind, M_bind, bind. specialize (Hm w).
  destruct (m w) as [[a|e] w1]; simpl in *; [|done].
  etrans; [apply Hm|apply Hk].
Qed.

Lemma stable_for_each {A : Type} (l : list A) (body : A → M ()) :
  (∀ x, x ∈ l → stable R (body x)) → stable R (for_each l body).
Proof.
  induction l as [|x l IH]; intros Hbody; [apply stable_ret|].
  simpl. apply stable_bind; [apply Hbody; left|].
  intros _. apply IH. intros y Hy. apply Hbody. by right.
Qed.

Lemma stable_try_finally {A : Type} (body : M A) (final : M ()) :
  stable R body → stable R final → stable R (try_finally body final).
Proof.
  intros Hbody Hfinal w. unfold try_finally. specialize (Hbody w).
  destruct (body w) as [r w1]. specialize (Hfinal w1).
  destruct (final w1) as [[[]|e] w2]; simpl in *; by etrans.
Qed.

Lemma stable_try_except {A : Type} (body : M A) (handler : string → M A) :
  stable R body → (∀ msg, stable R (handler msg)) →
  stable R (try_except_invalid_input body handler).
Proof.
  intros Hbody Hhandler w. unfold try_except_invalid_input.
  specialize (Hbody w). destruct (body w) as [[a|e] w1]; [done|].
  destruct e; try done. simpl in *. etrans; [apply Hbody|apply Hhandler].
Qed.

End stable.

Section frames.
Context `{Engine} (con : path) (names : list string) (written : list path).

#[local] Instance frame_preorder : PreOrder (frame con names written).
Proof.
  split.
  - intros w. by split_and!.
  - intros w1 w2 w3 (Hd1 & Ht1 & Hf1 & He1) (Hd2 & Ht2 & Hf2 & He2).
    split_and!.
    + intros db Hdb. by rewrite Hd2, Hd1.
    + intros name Hname. by rewrite Ht2, Ht1.
    + intros file Hfile. by rewrite Hf2, Hf1.
    + auto.
Qed.

(** A change of the history and of the connection only. *)
Lemma frame_same w w' :
  files w' = files w → databases w' = databases w →
  frame con names written w w'.
Proof.
  intros Hf Hd. unfold frame, table_at. rewrite Hf, Hd. by split_and!.
Qed.

Lemma frame_emit ev : stable (frame con names written) (emit ev).
Proof. intros w. by apply frame_same. Qed.

Lemma frame_close c : stable (frame con names written) (close c).
Proof. intros w. by apply frame_same. Qed.

Lemma frame_fetch {A : Type} c (query : gmap string table → result A) :
  stable (frame con names written) (fetch c query).
Proof.
  intros w. unfold fetch. case_decide; [|by apply frame_same].
  destruct (query _); by apply frame_same.
Qed.

Lemma frame_file_exists file :
  stable (frame con names written) (file_exists file).
Proof. intros w. by apply frame_same. Qed.

Lemma frame_database_exists db :
  stable (frame con names written) (database_exists db).
Proof. intros w. by apply frame_same. Qed.

Lemma frame_connect : stable (frame con names written) (connect con).
Proof.
  intros w. unfold connect, frame, table_at. simpl.
  destruct (databases w !! con) eqn:Hcon; [by rewrite Hcon|].
  split_and!; [|by rewrite lookup_insert_eq|done|by rewrite lookup_insert_eq].
  intros db Hdb. by rewrite lookup_insert_ne.
Qed.

(** A statement that replaces tables among [names] only. *)
Lemma frame_execute stmt :
  (∀ db db' name, stmt db = Ok db' → name ∉ names → db' !! name = db !! name) →
  stable (frame con names written) (execute con stmt).
Proof.
  intros Hstmt w. unfold execute. case_decide; [|reflexivity].
  destruct (stmt _) as [db'|e] eqn:Hrun; [|reflexivity].
  unfold frame, table_at. simpl. split_and!; [| |done|].
  - intros db Hdb. by rewrite lookup_insert_ne.
  - intros name Hname. rewrite lookup_insert_eq. simpl. by eapply Hstmt.
  - by rewrite lookup_insert_eq.
Qed.

Lemma frame_execute_reading file stmt :
  (∀ doc db db' name,
     stmt doc db = Ok db' → name ∉ names → db' !! name = db !! name) →
  stable (frame con names written) (execute_reading con file stmt).
Proof.
  intros Hstmt w. unfold execute_reading.
  destruct (files w !! file) as [doc|]; [|reflexivity].
  apply frame_execute. intros db db' name. apply Hstmt.
Qed.

Lemma frame_connect_bind {A : Type} (k : path → M A) :
  stable (frame con names written) (k con) →
  stable (frame con names written) (connect con ≫= k).
Proof.
  intros Hk w. unfold mbind, M_bind, bind.
  pose proof (frame_connect w) as Hc. unfold connect in *. simpl in *.
  etrans; [apply Hc|apply Hk].
Qed.

End frames.

(** Proves that a statement which ends with the replacement of a table
    leaves the others as they were. *)
Ltac replaces_only :=
  let Hstmt := fresh "Hstmt" in
  let Hname := fresh "Hname" in
  intros ? ? ? Hstmt Hname;
  repeat match type of Hstmt with
         | context [mbind _ ?m] =>
             destruct m; simpl in Hstmt; [|discriminate]
         end;
  injection Hstmt as <-; apply lookup_insert_ne;
  intros <-; apply Hname; set_solver.

Ltac frames :=
  repeat first
    [ apply stable_bind; [apply _| |intros ?]
    | apply stable_try_finally; [apply _| |]
    | apply frame_emit | apply frame_close | apply frame_fetch
    | apply frame_database_exists | apply frame_file_exists
    | apply stable_ret; apply _ | apply stable_raise; apply _
    | apply frame_execute; replaces_only
    | progress unfold Silver.log, Gold.log, Silver.log_row_count,
        Gold.log_row_count, print ].

Section stage_frames.
Context `{Engine}.

#[local] Existing Instance frame_preorder.

Lemma frame_silver_main :
  stable (frame Silver.DB_PATH
           ["silver_customers"; "silver_products"; "silver_orders";
            "silver_sales"; "silver_countries"; "silver_fact_sales"] [])
         Silver.main.
Proof.
  unfold Silver.main. apply stable_bind; [apply _|apply frame_emit|].
  intros _. apply frame_connect_bind.
  unfold Silver.create_silver_customers, Silver.create_silver_products,
    Silver.create_silver_orders, Silver.create_silver_sales,
    Silver.create_silver_countries, Silver.create_silver_fact_sales,
    Silver.run_quality_checks, Silver.log_bronze_vs_silver.
  frames.
  apply stable_for_each; [apply _|]. intros [[dataset b] s] _. frames.
Qed.

Lemma frame_gold_main :
  stable (frame Gold.DB_PATH
           ["gold_dim_customer"; "gold_dim_product"; "gold_dim_country";
            "gold_dim_date"; "gold_fact_sales"] [])
         Gold.main.
Proof.
  unfold Gold.main. apply stable_bind; [apply _|apply frame_emit|].
  intros _. apply stable_bind; [apply _|apply frame_database_exists|].
  intros found. destruct (negb found); [apply stable_raise; apply _|].
  apply frame_connect_bind.
  unfold Gold.create_gold_dim_customer, Gold.create_gold_dim_product,
    Gold.create_gold_dim_country, Gold.create_gold_dim_date,
    Gold.create_gold_fact_sales.
  frames.
Qed.

Lemma frame_fix_to_ndjson con names written file :
  (file.1, PyStr.stem file.2 +:+ "_fixed.json") ∈ written →
  stable (frame con names written) (Bronze.fix_to_ndjson file).
Proof.
  intros Hin w. unfold Bronze.fix_to_ndjson.
  destruct (files w !! file) as [doc|]; [|reflexivity].
  unfold frame, table_at. simpl. split_and!; [done..| |done].
  intros f Hf. rewrite lookup_insert_ne; [done|]. by intros <-.
Qed.

Lemma frame_load_bronze_table con names written filename table_name :
  table_name ∈ names →
  (Bronze.RAW_DIR, PyStr.stem filename +:+ "_fixed.json") ∈ written →
  stable (frame con names written)
         (Bronze.load_bronze_table con filename table_name).
Proof.
  intros Hname Hfixed. unfold Bronze.load_bronze_table.
  assert (∀ reader doc db db' name,
            Bronze.create_table_from reader table_name doc db = Ok db' →
            name ∉ names → db' !! name = db !! name) as Hcreate.
  { intros reader doc db db' name. unfold Bronze.create_table_from.
    destruct (reader doc); simpl; [|done]. intros [= <-] Hn.
    apply lookup_insert_ne. by intros <-. }
  apply stable_bind; [apply _|apply frame_file_exists|].
  intros found. destruct (negb found); [apply stable_raise; apply _|].
  apply stable_bind; [apply _|apply frame_emit|]. intros _.
  apply stable_try_except; [apply _| |].
  - apply stable_bind; [apply _|apply frame_emit|]. intros _.
    apply frame_execute_reading. intros doc. apply Hcreate.
  - intros msg. frames.
    + by apply frame_fix_to_ndjson.
    + apply stable_try_except; [apply _| |].
      * apply stable_bind; [apply _|apply frame_emit|]. intros _.
        apply stable_bind; [apply _| |intros _; apply frame_emit].
        apply frame_execute_reading. intros doc. apply Hcreate.
      * intros msg2. frames.
Qed.

Lemma frame_bronze_main :
  stable (frame Bronze.DB_PATH
           ["bronze_customers"; "bronze_products"; "bronze_orders";
            "bronze_sales"; "bronze_countries"]
           [(Bronze.RAW_DIR, "customers_fixed.json");
            (Bronze.RAW_DIR, "products_fixed.json");
            (Bronze.RAW_DIR, "orders_fixed.json");
            (Bronze.RAW_DIR, "sales_fixed.json");
            (Bronze.RAW_DIR, "countries_fixed.json")])
         Bronze.main.
Proof.
  unfold Bronze.main. apply stable_bind; [apply _|apply frame_emit|].
  intros _. apply stable_bind; [apply _|apply frame_emit|].
  intros _. apply frame_connect_bind.
  apply stable_bind; [apply _| |intros _; frames].
  apply stable_for_each; [apply _|]. intros [filename table_name] Hin.
  unfold Bronze.tables_to_load in Hin.
  repeat (apply elem_of_cons in Hin as [[= -> ->]|Hin];
          [apply frame_load_bronze_table;
           [set_solver|apply (bool_decide_unpack _); exact I]|]).
  by apply elem_of_nil in Hin.
Qed.


End stage_frames.

(** * Runs of the silver and of the gold stage *)

Section stage_runs.
Context `{Engine}.

Lemma seq_returned {B : Type} (m1 : M ()) (m2 : M B) w w1 :
  m1 w = (Returned (), w1) → (m1 ;; m2) w = m2 w1.
Proof. intros Hm. unfold mbind, M_bind, bind. by rewrite Hm. Qed.

Lemma seq_raised {B : Type} (m1 : M ()) (m2 : M B) w w1 e :
  m1 w = (Raised e, w1) → (m1 ;; m2) w = (Raised e, w1).
Proof. intros Hm. unfold mbind, M_bind, bind. by rewrite Hm. Qed.

Lemma try_finally_run {A : Type} (body : M A) (final : M ()) w r w1 w2 :
  body w = (r, w1) → final w1 = (Returned (), w2) →
  try_finally body final w = (r, w2).
Proof. intros Hbody Hfinal. unfold try_finally. by rewrite Hbody, Hfinal. Qed.

Lemma silver_builder_fails con w message stmt name e :
  connection w = Some con →
  stmt (default ∅ (databases w !! con)) = Err e →
  (Silver.log message ;; execute con stmt ;; Silver.log_row_count con name) w
  = (Raised e,
     World (files w) (databases w) (Some con)
       (history w ++ [Logged "SILVER" message])).
Proof.
  intros Hcon Hstmt. unfold_run. rewrite Hcon.
  case_decide; [|done]. by rewrite Hstmt.
Qed.

(** A builder that runs on the database [db] of the connection, in a world
    that still has the files and the other databases of [w0]. *)
Lemma silver_step con w0 w message stmt name db db' t :
  connection w = Some con → files w = files w0 →
  databases w = <[con := db]> (databases w0) →
  stmt db = Ok db' → db' !! name = Some t →
  ∃ w', (Silver.log message ;; execute con stmt ;;
         Silver.log_row_count con name) w = (Returned (), w')
        ∧ connection w' = Some con ∧ files w' = files w0
        ∧ databases w' = <[con := db']> (databases w0).
Proof.
  intros Hcon Hfiles Hdbs Hstmt Ht.
  rewrite (silver_builder_run con w message stmt name db' t); [|done| |done].
  - eexists. split; [done|]. simpl. split_and!; [done..|].
    by rewrite Hdbs, insert_insert_eq.
  - by rewrite Hdbs, lookup_insert_eq.
Qed.

Lemma gold_step con w0 w message stmt name db db' t :
  connection w = Some con → files w = files w0 →
  databases w = <[con := db]> (databases w0) →
  stmt db = Ok db' → db' !! name = Some t →
  ∃ w', (Gold.log message ;; execute con stmt ;;
         Gold.log_row_count con name) w = (Returned (), w')
        ∧ connection w' = Some con ∧ files w' = files w0
        ∧ databases w' = <[con := db']> (databases w0).
Proof.
  intros Hcon Hfiles Hdbs Hstmt Ht.
  rewrite (gold_builder_run con w message stmt name db' t); [|done| |done].
  - eexists. split; [done|]. simpl. split_and!; [done..|].
    by rewrite Hdbs, insert_insert_eq.
  - by rewrite Hdbs, lookup_insert_eq.
Qed.

Lemma run_quality_checks_returns con w db ss so sc sp :
  connection w = Some con →
  databases w !! con = Some db →
  db !! "silver_sales" = Some (SalesT ss) →
  db !! "silver_orders" = Some (OrdersT so) →
  db !! "silver_customers" = Some (CustomersT sc) →
  db !! "silver_products" = Some (ProductsT sp) →
  ∃ w', Silver.run_quality_checks con w = (Returned (), w')
        ∧ connection w' = connection w ∧ files w' = files w
        ∧ databases w' = databases w.
Proof.
  intros Hcon Hdb Hss Hso Hsc Hsp.
  unfold Silver.run_quality_checks. unfold_run.
  unfold from_sales, from_orders, from_customers, from_products.
  repeat first [ rewrite Hcon | rewrite Hdb | rewrite Hss | rewrite Hso
               | rewrite Hsc | rewrite Hsp | case_decide; [|done]
               | progress simpl ].
  eexists. split; [done|]. done.
Qed.

Lemma log_bronze_vs_silver_returns con w db :
  connection w = Some con →
  databases w !! con = Some db →
  Forall (λ name, is_Some (db !! name))
    ["bronze_customers"; "silver_customers"; "bronze_products";
     "silver_products"; "bronze_orders"; "silver_orders"; "bronze_sales";
     "silver_sales"; "bronze_countries"; "silver_countries"] →
  ∃ w', Silver.log_bronze_vs_silver con w = (Returned (), w')
        ∧ connection w' = connection w ∧ files w' = files w
        ∧ databases w' = databases w.
Proof.
  intros Hcon Hdb Hall.
  repeat (apply Forall_cons in Hall as [[? ?] Hall]).
  unfold Silver.log_bronze_vs_silver.
  erewrite seq_returned by reflexivity.
  unfold mbind at 1. unfold M_bind, bind, fetch. simpl.
  rewrite Hcon, Hdb. rewrite decide_True by done. simpl.
  unfold Silver.bronze_vs_silver, count_rows.
  repeat match goal with Ht : db !! _ = Some _ |- _ => rewrite Ht; clear Ht end.
  simpl. unfold_run. eexists. split; [reflexivity|]. done.
Qed.

(** ** The silver stage on a database that holds the bronze tables *)


(** ** The gold stage on a database that holds the conformed tables *)


(** ** Stages started on a database that is not there *)

Lemma silver_main_no_bronze w :
  table_at w Silver.DB_PATH "bronze_customers" = None →
  ∃ w', Silver.main w = (Raised (CatalogException "bronze_customers"), w')
        ∧ connection w' = None ∧ files w' = files w
        ∧ databases w'
          = match databases w !! Silver.DB_PATH with
            | Some _ => databases w
            | None => <[Silver.DB_PATH := ∅]> (databases w)
            end.
Proof.
  intros Htable. unfold Silver.main. erewrite seq_returned by reflexivity.
  unfold mbind at 1. unfold M_bind, bind, connect. simpl.
  erewrite try_finally_run; cycle 1.
  - unfold Silver.create_silver_customers. apply seq_raised.
    apply silver_builder_fails; [done|]. simpl.
    unfold from_bronze, table_at in *.
    destruct (databases w !! Silver.DB_PATH) as [db|] eqn:Hdb.
    + rewrite Hdb. simpl in *. by rewrite Htable.
    + by rewrite lookup_insert_eq.
  - reflexivity.
  - eexists. split; [reflexivity|]. simpl.
    rewrite ?decide_True by done. by split_and!.
Qed.

Lemma gold_main_no_silver w :
  is_Some (databases w !! Gold.DB_PATH) →
  table_at w Gold.DB_PATH "silver_customers" = None →
  ∃ w', Gold.main w = (Raised (CatalogException "silver_customers"), w')
        ∧ connection w' = None ∧ files w' = files w
        ∧ databases w' = databases w.
Proof.
  intros [db Hdb] Htable. unfold Gold.main.
  erewrite seq_returned by reflexivity.
  unfold mbind at 1. unfold M_bind, bind, database_exists. simpl.
  rewrite Hdb. rewrite bool_decide_eq_true_2 by eauto. simpl.
  unfold mbind at 1. unfold M_bind, bind, connect. simpl. rewrite Hdb.
  erewrite try_finally_run; cycle 1.
  - unfold Gold.create_gold_dim_customer. apply seq_raised.
    apply gold_builder_fails; [done|]. simpl.
    unfold from_customers, table_at in *. rewrite Hdb in *. simpl in *.
    by rewrite Htable.
  - reflexivity.
  - eexists. split; [reflexivity|]. simpl.
    rewrite ?decide_True by done. by split_and!.
Qed.


(** ** The three stages in a row *)

Lemma connect_then {A : Type} (k : path → M A) db w :
  (connect db ≫= k) w = k db (connect db w).2.
Proof. reflexivity. Qed.

Lemma frame_bronze_loads :
  stable (frame Bronze.DB_PATH
            ["bronze_customers"; "bronze_products"; "bronze_orders";
             "bronze_sales"; "bronze_countries"]
            [(Bronze.RAW_DIR, "customers_fixed.json");
             (Bronze.RAW_DIR, "products_fixed.json");
             (Bronze.RAW_DIR, "orders_fixed.json");
             (Bronze.RAW_DIR, "sales_fixed.json");
             (Bronze.RAW_DIR, "countries_fixed.json")])
         (for_each Bronze.tables_to_load
            (λ '(filename, table_name),
               Bronze.load_bronze_table Bronze.DB_PATH filename table_name) ;;
          close Bronze.DB_PATH ;;
          print "Bronze layer finished.").
Proof.
  apply stable_bind; [apply frame_preorder| |].
  - apply stable_for_each; [apply frame_preorder|].
    intros [filename table_name] Hin.
    unfold Bronze.tables_to_load in Hin.
    repeat (apply elem_of_cons in Hin as [[= -> ->]|Hin];
            [apply frame_load_bronze_table;
             [set_solver|apply (bool_decide_unpack _); exact I]|]).
    by apply elem_of_nil in Hin.
  - intros _. apply stable_bind; [apply frame_preorder|apply frame_close|].
    intros _. apply frame_emit.
Qed.

Lemma bronze_main_database w :
  is_Some (databases (Bronze.main w).2 !! Bronze.DB_PATH).
Proof.
  unfold Bronze.main. erewrite seq_returned by reflexivity.
  erewrite seq_returned by reflexivity. rewrite connect_then.
  match goal with
  | |- is_Some (databases (_ ?w0).2 !! _) =>
      destruct (frame_bronze_loads w0) as (_ & _ & _ & Hsome)
  end.
  apply Hsome. unfold connect. cbn [snd databases].
  destruct (databases w !! Bronze.DB_PATH) eqn:Hdb.
  - rewrite Hdb. eauto.
  - rewrite lookup_insert_eq. eauto.
Qed.

(** The silver stage works on another database file than the bronze and
    the gold stage: [sales.duckdb] in the project root, not in [src].  So
    when the project root holds no database, whatever the bronze stage has
    loaded, the silver stage that follows fails for want of
    [bronze_customers] and leaves the database of the bronze stage as it
    is; and the gold stage that follows fails for want of
    [silver_customers], unless that table was in the database before the
    bronze stage ran. *)
Theorem stages_in_a_row w :
  databases w !! Silver.DB_PATH = None →
  table_at w Gold.DB_PATH "silver_customers" = None →
  (Silver.main (Bronze.main w).2).1
  = Raised (CatalogException "bronze_customers")
  ∧ databases (Silver.main (Bronze.main w).2).2 !! Bronze.DB_PATH
    = databases (Bronze.main w).2 !! Bronze.DB_PATH
  ∧ (Gold.main (Silver.main (Bronze.main w).2).2).1
    = Raised (CatalogException "silver_customers").
Proof.
  intros Hsilver Hgold.
  destruct (frame_bronze_main w) as (Hb_dbs & Hb_tables & _ & _).
  set (w1 := (Bronze.main w).2) in *.
  destruct (frame_silver_main w1) as (Hs_dbs & _ & _ & _).
  set (w2 := (Silver.main w1).2) in *.
  assert (databases w1 !! Silver.DB_PATH = None) as Hsilver1.
  { by rewrite Hb_dbs. }
  split_and!.
  - destruct (silver_main_no_bronze w1) as (w' & Hrun & _).
    { unfold table_at. by rewrite Hsilver1. }
    by rewrite Hrun.
  - by apply Hs_dbs.
  - destruct (gold_main_no_silver w2) as (w' & Hrun & _).
    + change Gold.DB_PATH with Bronze.DB_PATH.
      rewrite Hs_dbs by done. apply bronze_main_database.
    + unfold table_at. change Gold.DB_PATH with Bronze.DB_PATH.
      rewrite Hs_dbs by done.
      change (table_at w1 Bronze.DB_PATH "silver_customers" = None).
      rewrite Hb_tables; [done|]. apply (bool_decide_unpack _). exact I.
    + by rewrite Hrun.
Qed.

(** Whether the silver stage returns or raises, the last two things it does
    are to close the connection and to log "Silver pipeline finished!": that
    line is in the log of a failed run too. *)
Theorem silver_main_logs_finished w :
  ∃ h, history (Silver.main w).2
       = h ++ [Closed Silver.DB_PATH;
               Logged "SILVER" "Silver pipeline finished!"].
Proof.
  unfold Silver.main. erewrite seq_returned by reflexivity.
  unfold mbind at 1. unfold M_bind, bind, connect. simpl.
  unfold try_finally.
  match goal with |- context [match ?b with _ => _ end] => destruct b as [r w1] end.
  simpl. exists (history w1). by rewrite <- app_assoc.
Qed.

End stage_runs.




Lemma stages_in_a_row_witness :
  (Silver.main (Bronze.main Example.start_world).2).1
  = Raised (CatalogException "bronze_customers")
  ∧ databases (Silver.main (Bronze.main Example.start_world).2).2
      !! Bronze.DB_PATH
    = databases (Bronze.main Example.start_world).2 !! Bronze.DB_PATH
  ∧ (Gold.main (Silver.main (Bronze.main Example.start_world).2).2).1
    = Raised (CatalogException "silver_customers").
Proof.
  apply (stages_in_a_row (H := Demo.engine) Example.start_world);
    reflexivity.
Defined.
